(** * Sehaty backend: medication reminders and medicine alternatives

    A shallow embedding of the reminder handlers, the alternative resolver,
    the catalogue page and the medicine administration of
    [sehaty_backend/controllers/medicineController.js], of the prescription
    handlers and of the client of the alternatives endpoint.

    Conventions of the embedding
    - A JavaScript [Date] is its number of milliseconds since the epoch, in [Z].
    - The time zone of the server is a [Zone]: the offset from UTC in force
      at an instant, and the offset by which a local time is read.  Local
      fields of a [Date] ([getHours], [setHours], [setDate]) go through it,
      as do date-fns' [startOfDay], [endOfDay] and [addDays].
    - A date text of a request is a [DateText]: what the handlers can
      observe of it, namely whether it parses and whether it is the text
      that [toISOString] gives for a day.
    - A MongoDB collection that the handlers write is a finite map from
      [_id] to document; a collection that is only read is a list in natural
      order.  Every database call succeeds, except that [save()] is rejected
      when the document fails the validation of the schema.  A [save()]
      that is not awaited has completed when the next request is served.
    - [dailyStatuses] is a Mongoose document array: [find] returns the
      stored entry itself, so that assigning to its fields changes the
      document, while [push] stores a copy of the object it is given, so
      that assigning to that object afterwards does not. *)

From Stdlib Require Import ZArith Lia.
From stdpp Require Import gmap strings list fin_maps sorting pretty.
From Equations Require Import Equations.

Local Open Scope Z_scope.

(** ** Dates *)

Module Clock.

Definition msPerDay : Z := 86400000.
Definition msPerHour : Z := 3600000.
Definition msPerMinute : Z := 60000.

(** [Day(t)]: the number of the day of a time value. *)
Definition dayOf (t : Z) : Z := t `div` msPerDay.

(** The last millisecond of the day of a time value. *)
Definition lastMsOfDay (t : Z) : Z := dayOf t * msPerDay + (msPerDay - 1).

(** The time zone of the server.  [offsetAt t] is the offset from UTC in
    force at the instant [t], and [offsetOfLocal l] the offset by which the
    local time [l] is read: [LocalTZA(t, true)] and [LocalTZA(l, false)] of
    ECMAScript.  A zone may change its offset, under three conditions:
    reading a local time and showing the instant again gives a time of the
    same calendar day; the calendar day never goes back as time passes; and
    no local time is read as an instant after the one read for the last
    millisecond of its day.  They hold for a zone of constant offset and
    for a change of offset that moves the clock within one calendar day. *)
Record Zone := mkZone {
  offsetAt : Z → Z;
  offsetOfLocal : Z → Z;
  zone_same_day :
    ∀ l, dayOf (l - offsetOfLocal l + offsetAt (l - offsetOfLocal l)) = dayOf l;
  zone_day_mono :
    ∀ t u, t ≤ u → dayOf (t + offsetAt t) ≤ dayOf (u + offsetAt u);
  zone_end_is_last :
    ∀ l, l - offsetOfLocal l ≤ lastMsOfDay l - offsetOfLocal (lastMsOfDay l)
}.

(** [LocalTime(t)] and [UTC(l)]. *)
Definition localTime (z : Zone) (t : Z) : Z := t + offsetAt z t.
Definition utc (z : Zone) (l : Z) : Z := l - offsetOfLocal z l.

(** [Date.prototype.getHours], [getMinutes] and [setHours(h, m, s, ms)]. *)
Definition getHours (z : Zone) (t : Z) : Z :=
  (localTime z t `mod` msPerDay) `div` msPerHour.
Definition getMinutes (z : Zone) (t : Z) : Z :=
  (localTime z t `mod` msPerHour) `div` msPerMinute.
Definition setHours (z : Zone) (t h m s ms : Z) : Z :=
  utc z (dayOf (localTime z t) * msPerDay
         + (h * msPerHour + m * msPerMinute + s * 1000 + ms)).

(** [startOfDay] and [endOfDay] of date-fns: [setHours(0, 0, 0, 0)] and
    [setHours(23, 59, 59, 999)]. *)
Definition startOfDay (z : Zone) (t : Z) : Z := setHours z t 0 0 0 0.
Definition endOfDay (z : Zone) (t : Z) : Z := setHours z t 23 59 59 999.

(** [addDays] of date-fns: the date itself for no days, and
    [setDate(getDate() + n)] otherwise. *)
Definition addDays (z : Zone) (t n : Z) : Z :=
  if decide (n = 0) then t else utc z (localTime z t + n * msPerDay).

(** The number of the local calendar day of an instant. *)
Definition dayIndex (z : Zone) (t : Z) : Z := dayOf (localTime z t).

(** [d.toISOString().split('T')[0]]: the UTC day of an instant. *)
Definition isoDate (t : Z) : Z := t `div` msPerDay.
(** [new Date(date + 'T00:00:00.000Z')] and [new Date(date + 'T23:59:59.999Z')]
    for the ISO text of a day. *)
Definition utcMidnight (date : Z) : Z := date * msPerDay.
Definition utcLastMs (date : Z) : Z := date * msPerDay + 86399999.

(** A zone that keeps one offset. *)
Lemma fixed_same_day (tz l : Z) : dayOf (l - tz + tz) = dayOf l.
Proof. f_equal. lia. Qed.

Lemma fixed_day_mono (tz t u : Z) : t ≤ u → dayOf (t + tz) ≤ dayOf (u + tz).
Proof. intros H. unfold dayOf, msPerDay. apply Z.div_le_mono; lia. Qed.

Lemma fixed_end_is_last (tz l : Z) : l - tz ≤ lastMsOfDay l - tz.
Proof.
  unfold lastMsOfDay, dayOf, msPerDay.
  pose proof (Z.div_mod l 86400000). pose proof (Z.mod_pos_bound l 86400000). lia.
Qed.

Definition fixed (tz : Z) : Zone :=
  mkZone (λ _, tz) (λ _, tz) (fixed_same_day tz) (fixed_day_mono tz) (fixed_end_is_last tz).

(** The calendar day of the instants that the loop of [createReminder]
    goes through. *)
Lemma dayIndex_utc (z : Zone) (l : Z) : dayIndex z (utc z l) = dayOf l.
Proof. apply zone_same_day. Qed.

Lemma dayOf_add (l n : Z) : dayOf (l + n * msPerDay) = dayOf l + n.
Proof. unfold dayOf, msPerDay. apply Z.div_add. lia. Qed.

Lemma dayOf_within (d r : Z) : 0 ≤ r < msPerDay → dayOf (d * msPerDay + r) = d.
Proof.
  intros Hr. unfold dayOf. rewrite Z.add_comm, Z.div_add by (unfold msPerDay; lia).
  rewrite Z.div_small by exact Hr. lia.
Qed.

Lemma dayIndex_next (z : Zone) (t : Z) : dayIndex z (addDays z t 1) = dayIndex z t + 1.
Proof.
  unfold addDays. rewrite decide_False by lia.
  rewrite dayIndex_utc. apply dayOf_add.
Qed.

Lemma dayIndex_mono (z : Zone) (t u : Z) : t ≤ u → dayIndex z t ≤ dayIndex z u.
Proof. apply zone_day_mono. Qed.

End Clock.
Import Clock.

(** ** Documents *)

Abbreviation ObjectId := positive.

(** An entry of [dailyStatuses]. *)
Record DailyStatus := mkDailyStatus {
  ds_date : Z;
  ds_status : string;
  ds_isTaken : bool
}.

(** A reminder document without its [_id].  Payload fields that the handlers
    only copy are optional texts. *)
Record Reminder := mkReminder {
  user : ObjectId;
  medicineId : option ObjectId;
  product : option string;
  title : option string;
  description : option string;
  time : Z;
  frequency : option string;
  startDate : Z;
  endDate : Z;
  dosage : option string;
  notes : option string;
  notificationPreferences : option string;
  status : string;
  isTaken : bool;
  dailyStatuses : list DailyStatus;
  isDeleted : bool;
  deletedAt : option Z
}.

(** A document read from the collection: its [_id] and its fields. *)
Record ReminderDoc := mkDoc { _id : ObjectId; doc : Reminder }.

(** What [toObject()] plus [currentStatus] gives. *)
Record ReminderView := mkView {
  view_id : ObjectId;
  view_doc : Reminder;
  currentStatus : DailyStatus
}.

(** The database: the reminder collection and, for each user, the
    [reminders] array of the user document. *)
Record Db := mkDb {
  reminders : gmap ObjectId Reminder;
  users : gmap ObjectId (list ObjectId)
}.

(** A date text that is not empty, by what the handlers observe of it.
    - [Malformed]: with ['T00:00:00.000Z'] appended it denotes no instant
      ([Invalid Date]).
    - [Iso day]: it is the text [YYYY-MM-DD] that [toISOString] gives for
      the UTC day [day]; with the suffixes it denotes the first and the last
      millisecond of that day.
    - [Loose queryDate endOfQueryDate]: it denotes instants, the two given
      with the suffixes ['T00:00:00.000Z'] and ['T23:59:59.999Z'], but it is
      not the text that [toISOString] gives for any day; such is
      [2024-02-30], which the engine reads as the first of March. *)
Inductive DateText :=
| Malformed
| Iso (day : Z)
| Loose (queryDate endOfQueryDate : Z).

(** [new Date(date + 'T00:00:00.000Z')] and [new Date(date + 'T23:59:59.999Z')]. *)
Definition startOfText (date : DateText) : option Z :=
  match date with
  | Malformed => None
  | Iso day => Some (utcMidnight day)
  | Loose queryDate _ => Some queryDate
  end.

Definition endOfText (date : DateText) : option Z :=
  match date with
  | Malformed => None
  | Iso day => Some (utcLastMs day)
  | Loose _ endOfQueryDate => Some endOfQueryDate
  end.

Inductive Body :=
| ReminderDocs (l : list ReminderDoc)
| ReminderViews (l : list ReminderView)
| OneReminder (d : ReminderDoc)
| OneView (v : ReminderView)
| Message (m : string)
| Received (m : string) (date : option DateText) (status : option string)
| Failure (m : string).

Record Response := mkResponse { code : Z; body : Body }.

(** ** The schema of the reminder collection *)

(** Modelled from the spec: the schema [models/Reminder.js] is not among the
    sources.  The data model gives the status of a daily status entry as an
    enum of three values. *)
Definition statusEnum : list string := ["active"; "completed"; "missed"].

Definition validStatus (s : string) : bool := bool_decide (s ∈ statusEnum).

(** Modelled from the spec: the data model gives a new reminder no deletion
    mark and no taken mark, so the fields that [new Reminder({...})] leaves
    unset are false or absent. *)
Definition default_isDeleted : bool := false.
Definition default_isTaken : bool := false.
Definition default_deletedAt : option Z := None.

(** The validation that [save()] runs on a document.  The spec does not say
    whether the top-level [status] carries the enum of the entries as well:
    [strict] says that it does. *)
Definition validates (strict : bool) (r : Reminder) : bool :=
  (negb strict || validStatus (status r)) &&
  forallb (λ e, validStatus (ds_status e)) (dailyStatuses r).

(** ** Queries on the reminder collection *)

Definition docs (m : gmap ObjectId Reminder) : list ReminderDoc :=
  (λ kv, mkDoc kv.1 kv.2) <$> map_to_list m.

(** [Reminder.find(q)]. *)
Definition Reminder_find (q : Reminder → bool) (m : gmap ObjectId Reminder)
  : list ReminderDoc :=
  List.filter (λ d, q (doc d)) (docs m).

(** [Reminder.findOne({ _id: id, user: uid, isDeleted: false })]. *)
Definition Reminder_findOne (id uid : ObjectId) (m : gmap ObjectId Reminder)
  : option Reminder :=
  match m !! id with
  | Some r => if bool_decide (user r = uid) && negb (isDeleted r) then Some r else None
  | None => None
  end.

(** [.sort({ time: 1 })]. *)
Definition byTime (a b : ReminderDoc) : Prop := time (doc a) ≤ time (doc b).
#[global] Instance byTime_dec : RelDecision byTime.
Proof. intros a b. unfold byTime. apply _. Defined.
Definition sortByTime (l : list ReminderDoc) : list ReminderDoc := merge_sort byTime l.

(** The write of a document to the collection. *)
Definition save (d : ReminderDoc) (m : gmap ObjectId Reminder) : gmap ObjectId Reminder :=
  <[_id d := doc d]> m.

(** ** createReminder *)

Record CreateBody := mkCreateBody {
  cb_product : option string;
  cb_title : option string;
  cb_description : option string;
  cb_medicineId : option ObjectId;
  cb_time : Z;
  cb_frequency : option string;
  cb_startDate : Z;
  cb_endDate : Z;
  cb_dosage : option string;
  cb_notes : option string;
  cb_notificationPreferences : option string
}.

Section Generator.

Variable z : Zone.

(** The document built by one turn of the loop, for the day [currentDate]. *)
Definition newReminder (uid : ObjectId) (b : CreateBody) (currentDate endDateTime : Z)
  : Reminder :=
  let reminderTime :=
    setHours z currentDate (getHours z (cb_time b)) (getMinutes z (cb_time b)) 0 0 in
  {| user := uid;
     medicineId := cb_medicineId b;
     product := cb_product b;
     title := cb_title b;
     description := cb_description b;
     time := reminderTime;
     frequency := cb_frequency b;
     startDate := currentDate;
     endDate := endDateTime;
     dosage := cb_dosage b;
     notes := cb_notes b;
     notificationPreferences := cb_notificationPreferences b;
     status := "active";
     isTaken := default_isTaken;
     dailyStatuses :=
       [ {| ds_date := currentDate; ds_status := "active"; ds_isTaken := false |} ];
     isDeleted := default_isDeleted;
     deletedAt := default_deletedAt |}.

(** [while (currentDate <= endDateTime) { ...; currentDate = addDays(currentDate, 1) }].
    The [_id] of a new document is one the collection does not hold.  The
    loop ends because each turn moves to the next calendar day. *)
Equations? createLoop (uid : ObjectId) (b : CreateBody) (endDateTime currentDate : Z)
  (m : gmap ObjectId Reminder) (acc : list ReminderDoc)
  : gmap ObjectId Reminder * list ReminderDoc
  by wf (Z.to_nat (dayIndex z endDateTime - dayIndex z currentDate + 1)) lt :=
createLoop uid b endDateTime currentDate m acc with decide (currentDate ≤ endDateTime) => {
  | left _ :=
      let reminder := mkDoc (fresh (dom m)) (newReminder uid b currentDate endDateTime) in
      createLoop uid b endDateTime (addDays z currentDate 1) (save reminder m) (acc ++ [reminder]);
  | right _ := (m, acc) }.
Proof.
  rewrite dayIndex_next.
  pose proof (dayIndex_mono z currentDate endDateTime l). lia.
Qed.

Definition createReminder (db : Db) (uid : ObjectId) (b : CreateBody) : Db * Response :=
  let currentDate := startOfDay z (cb_startDate b) in
  let endDateTime := endOfDay z (cb_endDate b) in
  let '(m, created) := createLoop uid b endDateTime currentDate (reminders db) [] in
  let us := alter (λ l, l ++ (_id <$> created)) uid (users db) in
  ({| reminders := m; users := us |}, {| code := 201; body := ReminderDocs created |}).

End Generator.

(** ** getUserReminders, getReminder *)

Definition ownedBy (uid : ObjectId) (r : Reminder) : bool :=
  bool_decide (user r = uid) && negb (isDeleted r).

Definition getUserReminders (db : Db) (uid : ObjectId) : Db * Response :=
  let found := sortByTime (Reminder_find (ownedBy uid) (reminders db)) in
  (db, {| code := 200; body := ReminderDocs found |}).

Definition getReminder (db : Db) (uid id : ObjectId) : Db * Response :=
  match Reminder_findOne id uid (reminders db) with
  | None => (db, {| code := 404; body := Message "Reminder not found" |})
  | Some reminder => (db, {| code := 200; body := OneReminder (mkDoc id reminder) |})
  end.

(** ** updateReminder *)

Record UpdateBody := mkUpdateBody {
  ub_title : option string;
  ub_description : option string;
  ub_time : option Z;
  ub_frequency : option string;
  ub_startDate : option Z;
  ub_endDate : option Z;
  ub_dosage : option string;
  ub_notes : option string;
  ub_product : option string;
  ub_notificationPreferences : option string;
  ub_status : option string
}.

(** A key of [updateData] that is [undefined] or [null] is deleted; the
    others overwrite the field. *)
Definition overwrite {A} (new : option A) (old : option A) : option A :=
  match new with Some v => Some v | None => old end.

Definition applyUpdate (u : UpdateBody) (r : Reminder) : Reminder :=
  {| user := user r;
     medicineId := medicineId r;
     product := overwrite (ub_product u) (product r);
     title := overwrite (ub_title u) (title r);
     description := overwrite (ub_description u) (description r);
     time := default (time r) (ub_time u);
     frequency := overwrite (ub_frequency u) (frequency r);
     startDate := default (startDate r) (ub_startDate u);
     endDate := default (endDate r) (ub_endDate u);
     dosage := overwrite (ub_dosage u) (dosage r);
     notes := overwrite (ub_notes u) (notes r);
     notificationPreferences :=
       overwrite (ub_notificationPreferences u) (notificationPreferences r);
     status := default (status r) (ub_status u);
     isTaken := isTaken r;
     dailyStatuses := dailyStatuses r;
     isDeleted := isDeleted r;
     deletedAt := deletedAt r |}.

Definition updateReminder (db : Db) (uid id : ObjectId) (u : UpdateBody) : Db * Response :=
  match Reminder_findOne id uid (reminders db) with
  | None => (db, {| code := 404; body := Message "Reminder not found" |})
  | Some r =>
      let reminder := mkDoc id (applyUpdate u r) in
      ({| reminders := save reminder (reminders db); users := users db |},
       {| code := 200; body := OneReminder reminder |})
  end.

(** ** deleteReminder *)

Definition markDeleted (now : Z) (r : Reminder) : Reminder :=
  {| user := user r; medicineId := medicineId r; product := product r;
     title := title r; description := description r; time := time r;
     frequency := frequency r; startDate := startDate r; endDate := endDate r;
     dosage := dosage r; notes := notes r;
     notificationPreferences := notificationPreferences r;
     status := status r; isTaken := isTaken r; dailyStatuses := dailyStatuses r;
     isDeleted := true;
     deletedAt := Some now |}.

(** [$pull: { reminders: id }]. *)
Definition pull (id : ObjectId) (l : list ObjectId) : list ObjectId :=
  List.filter (λ x, negb (bool_decide (x = id))) l.

Definition deleteReminder (db : Db) (uid : ObjectId) (now : Z) (id : ObjectId)
  : Db * Response :=
  match Reminder_findOne id uid (reminders db) with
  | None => (db, {| code := 404; body := Message "Reminder not found" |})
  | Some r =>
      let reminder := mkDoc id (markDeleted now r) in
      ({| reminders := save reminder (reminders db);
          users := alter (pull id) uid (users db) |},
       {| code := 200; body := Message "Reminder deleted successfully" |})
  end.

(** ** getRemindersByDate *)

(** The test of the [find] on [dailyStatuses]:
    [new Date(status.date).toISOString().split('T')[0] === date].  The left
    side is the ISO text of a day, so the test fails for every entry when
    [date] is not such a text. *)
Definition onDay (date : DateText) (s : DailyStatus) : Prop :=
  match date with
  | Iso day => isoDate (ds_date s) = day
  | Malformed | Loose _ _ => False
  end.
#[global] Instance onDay_dec date s : Decision (onDay date s).
Proof. destruct date; unfold onDay; apply _. Defined.

Definition setDailyStatuses (l : list DailyStatus) (r : Reminder) : Reminder :=
  {| user := user r; medicineId := medicineId r; product := product r;
     title := title r; description := description r; time := time r;
     frequency := frequency r; startDate := startDate r; endDate := endDate r;
     dosage := dosage r; notes := notes r;
     notificationPreferences := notificationPreferences r;
     status := status r; isTaken := isTaken r;
     dailyStatuses := l;
     isDeleted := isDeleted r; deletedAt := deletedAt r |}.

(** The filter of the [find] of [getRemindersByDate]. *)
Definition overlaps (uid : ObjectId) (queryDate endOfQueryDate : Z) (r : Reminder) : bool :=
  bool_decide (user r = uid) && negb (isDeleted r) &&
  ((bool_decide (startDate r ≤ endOfQueryDate) && bool_decide (queryDate ≤ endDate r))
   || (bool_decide (queryDate ≤ time r) && bool_decide (time r ≤ endOfQueryDate))).

Definition activeEntry (date : Z) : DailyStatus :=
  {| ds_date := date; ds_status := "active"; ds_isTaken := false |}.

(** [reminder.save()] on a document read from the collection: the document
    is written when it passes the validation of the schema, and the
    collection stays as it is when it does not. *)
Definition saveValid (strict : bool) (d : ReminderDoc) (m : gmap ObjectId Reminder)
  : gmap ObjectId Reminder :=
  if validates strict (doc d) then save d m else m.

(** The callback of [reminders.map]: it pushes and saves a default entry when
    the [find] gives none, and returns the object with its [currentStatus]. *)
Definition attachStatus (strict : bool) (date : DateText) (queryDate : Z)
  (st : gmap ObjectId Reminder * list ReminderView) (reminder : ReminderDoc)
  : gmap ObjectId Reminder * list ReminderView :=
  match list_find (onDay date) (dailyStatuses (doc reminder)) with
  | Some (_, dailyStatus) =>
      (st.1, st.2 ++ [mkView (_id reminder) (doc reminder) dailyStatus])
  | None =>
      let newStatus := activeEntry queryDate in
      let pushed :=
        setDailyStatuses (dailyStatuses (doc reminder) ++ [newStatus]) (doc reminder) in
      (saveValid strict (mkDoc (_id reminder) pushed) st.1,
       st.2 ++ [mkView (_id reminder) pushed (activeEntry queryDate)])
  end.

Definition getRemindersByDate (strict : bool) (db : Db) (uid : ObjectId) (date : DateText)
  : Db * Response :=
  match startOfText date, endOfText date with
  | Some queryDate, Some endOfQueryDate =>
      let found :=
        sortByTime (Reminder_find (overlaps uid queryDate endOfQueryDate) (reminders db)) in
      let '(m, remindersWithStatus) :=
        foldl (attachStatus strict date queryDate) (reminders db, []) found in
      ({| reminders := m; users := users db |},
       {| code := 200; body := ReminderViews remindersWithStatus |})
  | _, _ =>
      (* queryDate.toISOString() raises a RangeError *)
      (db, {| code := 500; body := Failure "Error fetching reminders by date" |})
  end.

(** ** markReminderAsTaken *)

(** [!status] for an optional text: absent, or the empty text. *)
Definition falsy (s : option string) : bool :=
  match s with
  | None => true
  | Some s => bool_decide (s = "")
  end.

(** [!date]: a [DateText] is a text that is not empty. *)
Definition noDate (d : option DateText) : bool :=
  match d with
  | None => true
  | Some _ => false
  end.

Definition setStatus (s : string) (taken : bool) (r : Reminder) : Reminder :=
  {| user := user r; medicineId := medicineId r; product := product r;
     title := title r; description := description r; time := time r;
     frequency := frequency r; startDate := startDate r; endDate := endDate r;
     dosage := dosage r; notes := notes r;
     notificationPreferences := notificationPreferences r;
     status := s; isTaken := taken;
     dailyStatuses := dailyStatuses r;
     isDeleted := isDeleted r; deletedAt := deletedAt r |}.

(** [dailyStatus.status = status; dailyStatus.isTaken = status === 'completed']. *)
Definition marked (status : string) (dailyStatus : DailyStatus) : DailyStatus :=
  {| ds_date := ds_date dailyStatus;
     ds_status := status;
     ds_isTaken := bool_decide (status = "completed") |}.

(** The part of the handler that runs once the reminder is found and the
    target date is valid, up to the [save]: the document in memory and the
    object that the answer shows as [currentStatus].  When the [find] gives
    an entry, the two assignments change that entry of the document.  When
    it gives none, the object that is pushed is copied into the document,
    and the two assignments change the object, not the copy. *)
Definition markEntry (now : Z) (date : DateText) (targetDate : Z) (status : string)
  (reminder : Reminder) : Reminder * DailyStatus :=
  let '(entries, dailyStatus) :=
    match list_find (onDay date) (dailyStatuses reminder) with
    | Some (i, found) =>
        (<[i := marked status found]> (dailyStatuses reminder), marked status found)
    | None =>
        (dailyStatuses reminder ++ [activeEntry targetDate],
         marked status (activeEntry targetDate))
    end in
  let reminder1 := setDailyStatuses entries reminder in
  let today := utcMidnight (isoDate now) in
  let reminder2 :=
    if bool_decide (isoDate targetDate = isoDate today)
    then setStatus status (bool_decide (status = "completed")) reminder1
    else reminder1 in
  (reminder2, dailyStatus).

Definition markReminderAsTaken (strict : bool) (db : Db) (uid : ObjectId) (now : Z)
  (id : ObjectId) (date : option DateText) (status : option string) : Db * Response :=
  if noDate date || falsy status then
    (db, {| code := 400; body := Received "Date and status are required" date status |})
  else
    match Reminder_findOne id uid (reminders db) with
    | None => (db, {| code := 404; body := Message "Reminder not found" |})
    | Some reminder =>
        match date, status with
        | Some date, Some status =>
            match startOfText date with
            | Some targetDate =>
                let '(reminder', dailyStatus) :=
                  markEntry now date targetDate status reminder in
                if validates strict reminder' then
                  ({| reminders := save (mkDoc id reminder') (reminders db);
                      users := users db |},
                   {| code := 200; body := OneView (mkView id reminder' dailyStatus) |})
                else
                  (* save() is rejected with a ValidationError *)
                  (db, {| code := 500; body := Failure "Error marking reminder as taken" |})
            | None =>
                (* targetDate.toISOString() raises a RangeError *)
                (db, {| code := 500; body := Failure "Error marking reminder as taken" |})
            end
        | _, _ => (db, {| code := 500; body := Failure "Error marking reminder as taken" |})
        end
    end.

(** ** Medicine alternatives *)

Module Resolver.

Record Medicine := mkMedicine {
  _id : ObjectId;
  alternatives : list ObjectId;
  activeIngredient : ObjectId;
  isDeleted : bool;
  isAvailable : bool
}.

Record Pharmacy := mkPharmacy {
  ph_id : ObjectId;
  name : string
}.

Record PharmacyMedicine := mkPharmacyMedicine {
  pm_medicineId : ObjectId;
  pm_pharmacyId : ObjectId;
  pm_price : Z;
  pm_stock : Z;
  pm_discount : Z;
  pm_isAvailable : bool;
  pm_isDeleted : bool
}.

Record PharmacyInfo := mkPharmacyInfo {
  pharmacyId : ObjectId;
  pharmacyName : string;
  price : Z;
  stock : Z;
  discount : Z;
  info_isAvailable : bool
}.

(** [{ ...alt.toObject(), pharmacyInfo }]. *)
Record Alternative := mkAlternative {
  alt : Medicine;
  pharmacyInfo : PharmacyInfo
}.

Record Catalog := mkCatalog {
  medicines : list Medicine;
  pharmacyMedicines : list PharmacyMedicine;
  pharmacies : list Pharmacy
}.

Inductive Body :=
| Alternatives (alternatives : list Alternative) (source : string)
| Message (m : string).

Record Response := mkResponse { code : Z; body : Body }.

(** A computation that returns or throws. *)
Inductive Outcome (A : Type) :=
| Returned (a : A)
| Thrown.
Arguments Returned {A} a.
Arguments Thrown {A}.

(** [Promise.all(l.map(f))]: rejected as soon as one call throws. *)
Fixpoint promiseAll {A B} (f : A → Outcome B) (l : list A) : Outcome (list B) :=
  match l with
  | [] => Returned []
  | x :: l =>
      match f x, promiseAll f l with
      | Returned y, Returned ys => Returned (y :: ys)
      | _, _ => Thrown
      end
  end.

(** [Medicine.findById(id)]. *)
Definition Medicine_findById (c : Catalog) (id : ObjectId) : option Medicine :=
  List.find (λ m, bool_decide (_id m = id)) (medicines c).

(** [.populate('alternatives')]: the documents referred to, in order; a
    reference to no document is dropped. *)
Definition populateAlternatives (c : Catalog) (m : Medicine) : list Medicine :=
  omap (Medicine_findById c) (alternatives m).

(** [PharmacyMedicine.findOne({ medicineId, isAvailable: true,
    isDeleted: false, stock: { $gt: 0 } })]. *)
Definition inStockListing (medicineId : ObjectId) (pm : PharmacyMedicine) : bool :=
  bool_decide (pm_medicineId pm = medicineId) && pm_isAvailable pm &&
  negb (pm_isDeleted pm) && bool_decide (0 < pm_stock pm).

Definition PharmacyMedicine_findOne (c : Catalog) (medicineId : ObjectId)
  : option PharmacyMedicine :=
  List.find (inStockListing medicineId) (pharmacyMedicines c).

(** [.populate('pharmacyId')]: [null] when the pharmacy does not exist. *)
Definition populatePharmacy (c : Catalog) (pm : PharmacyMedicine) : option Pharmacy :=
  List.find (λ p, bool_decide (ph_id p = pm_pharmacyId pm)) (pharmacies c).

(** The callback of both [map]s: the alternative with its pharmacy
    information, or [null].  Reading [pharmacyId._id] of a listing whose
    pharmacy is [null] throws a TypeError. *)
Definition withPharmacyInfo (c : Catalog) (alt : Medicine) : Outcome (option Alternative) :=
  match PharmacyMedicine_findOne c (_id alt) with
  | Some pharmacyMedicine =>
      match populatePharmacy c pharmacyMedicine with
      | Some pharmacy =>
          Returned (Some
            {| alt := alt;
               pharmacyInfo :=
                 {| pharmacyId := ph_id pharmacy;
                    pharmacyName := name pharmacy;
                    price := pm_price pharmacyMedicine;
                    stock := pm_stock pharmacyMedicine;
                    discount := pm_discount pharmacyMedicine;
                    info_isAvailable := pm_isAvailable pharmacyMedicine |} |})
      | None => Thrown
      end
  | None => Returned None
  end.

(** [l.filter(alt => alt !== null)]. *)
Definition notNull (l : list (option Alternative)) : list Alternative := omap id l.

(** The query of [findAlternativesByActiveIngredient]. *)
Definition sameIngredient (medicine m : Medicine) : bool :=
  negb (bool_decide (_id m = _id medicine)) &&
  bool_decide (activeIngredient m = activeIngredient medicine) &&
  negb (isDeleted m) && isAvailable m.

Definition findAlternativesByActiveIngredient (c : Catalog) (medicine : Medicine)
  : list Alternative :=
  let alternatives := List.filter (sameIngredient medicine) (medicines c) in
  match promiseAll (withPharmacyInfo c) alternatives with
  | Returned alternativesWithPharmacyInfo => notNull alternativesWithPharmacyInfo
  | Thrown => []
  end.

(** The curated branch: what [alternatives] holds when line 420 is reached. *)
Definition curatedAlternatives (c : Catalog) (medicine : Medicine)
  : Outcome (list Alternative) :=
  if bool_decide (0 < length (alternatives medicine))%nat then
    match promiseAll (withPharmacyInfo c) (populateAlternatives c medicine) with
    | Returned alternativesWithPharmacyInfo =>
        Returned (notNull alternativesWithPharmacyInfo)
    | Thrown => Thrown
    end
  else Returned [].

Definition sourceTag (medicine : Medicine) (alternatives : list Alternative) : string :=
  if bool_decide (0 < length alternatives)%nat then
    if bool_decide (0 < length (Resolver.alternatives medicine))%nat
    then "predefined" else "activeIngredient"
  else "none".

Definition getMedicineAlternatives (c : Catalog) (id : ObjectId) : Response :=
  match Medicine_findById c id with
  | None => {| code := 404; body := Message "Medicine not found" |}
  | Some medicine =>
      if isDeleted medicine then {| code := 404; body := Message "Medicine not found" |}
      else
        match curatedAlternatives c medicine with
        | Thrown => {| code := 500; body := Message "error" |}
        | Returned alternatives =>
            let alternatives :=
              if bool_decide (length alternatives = 0%nat)
              then findAlternativesByActiveIngredient c medicine
              else alternatives in
            {| code := 200;
               body := Alternatives alternatives (sourceTag medicine alternatives) |}
        end
  end.

End Resolver.

(** ** The catalogue page: getMedicines *)

Module Browse.

Import Resolver.

(** A medicine document as [getMedicines] reads it: the fields of
    [Resolver.Medicine] and those the filters look at. *)
Record MedicineDoc := mkMedicineDoc {
  core : Medicine;
  med_name : option string;
  description : option string;
  categoryId : option ObjectId;
  prescriptionRequired : option bool
}.

Record Category := mkCategory {
  cat_id : ObjectId;
  cat_name : string
}.

(** [{ ...pm.medicineId.toObject(), pharmacyInfo }], with [categoryId]
    populated ([null] when the category does not exist). *)
Record Item := mkItem {
  item_medicine : MedicineDoc;
  item_category : option Category;
  item_pharmacyInfo : PharmacyInfo
}.

Record Store := mkStore {
  medicineDocs : list MedicineDoc;
  categories : list Category;
  listings : list PharmacyMedicine;
  pharmacyDocs : list Pharmacy
}.

(** A non-empty query text used as a number: what [ToNumber] makes of it. *)
Inductive NumText :=
| NaN
| Num (n : Z).

(** [req.query].  [q_page] and [q_limit] are what [parseInt] reads ([None]
    for [NaN]); the other fields are [None] when the parameter is absent or
    empty. *)
Record Query := mkQuery {
  q_page : option Z;
  q_limit : option Z;
  q_category : option ObjectId;
  q_search : option string;
  q_minPrice : option NumText;
  q_maxPrice : option NumText;
  q_prescriptionRequired : option string;
  q_pharmacyId : option ObjectId
}.

Inductive Page :=
| Listing (medicines : list Item) (currentPage totalPages totalMedicines : Z)
| Error (m : string).

Record Reply := mkReply { status : Z; payload : Page }.

(** [parseInt(x) || d]. *)
Definition orDefault (x : option Z) (d : Z) : Z :=
  match x with
  | Some n => if bool_decide (n = 0) then d else n
  | None => d
  end.

(** [Array.prototype.slice(start, end)]. *)
Definition slice {A} (l : list A) (start finish : Z) : list A :=
  let len := Z.of_nat (length l) in
  let from := if bool_decide (start < 0) then Z.max (len + start) 0 else Z.min start len in
  let to := if bool_decide (finish < 0) then Z.max (len + finish) 0 else Z.min finish len in
  take (Z.to_nat (to - from)) (drop (Z.to_nat from) l).

(** [Math.ceil(a / b)] for integers, [b] not zero. *)
Definition ceilDiv (a b : Z) : Z := - ((- a) `div` b).

(** [l.filter(f)] for a callback that may throw. *)
Fixpoint filterM {A} (f : A → Outcome bool) (l : list A) : Outcome (list A) :=
  match l with
  | [] => Returned []
  | x :: l =>
      match f x, filterM f l with
      | Returned true, Returned ys => Returned (x :: ys)
      | Returned false, Returned ys => Returned ys
      | _, _ => Thrown
      end
  end.

(** [number >= text] and [number <= text]. *)
Definition geNum (price : Z) (t : NumText) : bool :=
  match t with NaN => false | Num n => bool_decide (n ≤ price) end.
Definition leNum (price : Z) (t : NumText) : bool :=
  match t with NaN => false | Num n => bool_decide (price ≤ n) end.

Section Handler.

(** The regular expressions of the engine: whether [new RegExp(p, 'i')]
    succeeds, and whether [text.match] of it finds a match. *)
Variable regexOk : string → bool.
Variable regexMatch : string → string → bool.

Variable st : Store.

(** The query of [PharmacyMedicine.find]. *)
Definition listed (q : Query) (pm : PharmacyMedicine) : bool :=
  pm_isAvailable pm && negb (pm_isDeleted pm) &&
  match q_pharmacyId q with
  | Some p => bool_decide (pm_pharmacyId pm = p)
  | None => true
  end.

(** [populate({ path: 'medicineId', match: { isDeleted: false } })]. *)
Definition populateMedicine (pm : PharmacyMedicine) : option MedicineDoc :=
  List.find (λ m, bool_decide (_id (core m) = pm_medicineId pm) && negb (isDeleted (core m)))
    (medicineDocs st).

Definition populateCategory (m : MedicineDoc) : option Category :=
  match categoryId m with
  | Some c => List.find (λ k, bool_decide (cat_id k = c)) (categories st)
  | None => None
  end.

Definition populatePharmacyDoc (pm : PharmacyMedicine) : option Pharmacy :=
  List.find (λ p, bool_decide (ph_id p = pm_pharmacyId pm)) (pharmacyDocs st).

(** [.filter(pm => pm.medicineId).map(pm => ...)]: a listing whose medicine
    is missing or deleted is dropped; reading [pm.pharmacyId._id] throws when
    the pharmacy is missing. *)
Fixpoint availableMedicines (pms : list PharmacyMedicine) : Outcome (list Item) :=
  match pms with
  | [] => Returned []
  | pm :: pms =>
      match populateMedicine pm with
      | None => availableMedicines pms
      | Some m =>
          match populatePharmacyDoc pm, availableMedicines pms with
          | Some ph, Returned items =>
              Returned
                ({| item_medicine := m;
                    item_category := populateCategory m;
                    item_pharmacyInfo :=
                      {| pharmacyId := ph_id ph; pharmacyName := name ph;
                         price := pm_price pm; stock := pm_stock pm;
                         discount := pm_discount pm;
                         info_isAvailable := pm_isAvailable pm |} |} :: items)
          | _, _ => Thrown
          end
      end
  end.

(** [medicine.categoryId._id.toString() === category]. *)
Definition inCategory (category : ObjectId) (i : Item) : Outcome bool :=
  match item_category i with
  | Some k => Returned (bool_decide (cat_id k = category))
  | None => Thrown
  end.

(** [medicine.name.match(searchRegex) || medicine.description.match(searchRegex)]. *)
Definition matchesSearch (search : string) (i : Item) : Outcome bool :=
  match med_name (item_medicine i) with
  | None => Thrown
  | Some n =>
      if regexMatch search n then Returned true
      else match description (item_medicine i) with
           | None => Thrown
           | Some d => Returned (regexMatch search d)
           end
  end.

(** [medicine.prescriptionRequired === (prescriptionRequired === 'true')]. *)
Definition needsPrescription (param : string) (i : Item) : bool :=
  match prescriptionRequired (item_medicine i) with
  | Some b => bool_decide (b = bool_decide (param = "true"))
  | None => false
  end.

(** The callback of the price filter. *)
Definition inPriceRange (minPrice maxPrice : option NumText) (i : Item) : bool :=
  let price := price (item_pharmacyInfo i) in
  match minPrice, maxPrice with
  | Some lo, Some hi => geNum price lo && leNum price hi
  | Some lo, None => geNum price lo
  | None, Some hi => leNum price hi
  | None, None => true
  end.

(** [filteredMedicines] as it stands before pagination. *)
Definition filteredMedicines (q : Query) : Outcome (list Item) :=
  match availableMedicines (List.filter (listed q) (listings st)) with
  | Thrown => Thrown
  | Returned l0 =>
      match (match q_category q with
             | Some c => filterM (inCategory c) l0
             | None => Returned l0
             end) with
      | Thrown => Thrown
      | Returned l1 =>
          match (match q_search q with
                 | Some s => if regexOk s then filterM (matchesSearch s) l1 else Thrown
                 | None => Returned l1
                 end) with
          | Thrown => Thrown
          | Returned l2 =>
              let l3 :=
                match q_prescriptionRequired q with
                | Some p => List.filter (needsPrescription p) l2
                | None => l2
                end in
              Returned
                (match q_minPrice q, q_maxPrice q with
                 | None, None => l3
                 | lo, hi => List.filter (inPriceRange lo hi) l3
                 end)
          end
      end
  end.

Definition getMedicines (q : Query) : Reply :=
  let page := orDefault (q_page q) 1 in
  let limit := orDefault (q_limit q) 10 in
  match filteredMedicines q with
  | Thrown => {| status := 500; payload := Error "error" |}
  | Returned filtered =>
      let startIndex := (page - 1) * limit in
      let endIndex := page * limit in
      {| status := 200;
         payload :=
           Listing (slice filtered startIndex endIndex) page
             (ceilDiv (Z.of_nat (length filtered)) limit)
             (Z.of_nat (length filtered)) |}
  end.

End Handler.

End Browse.

(** ** Medicine administration: updateMedicine, deleteMedicine

    Documents are objects with the fields the handlers read and write.  The
    schema of the collection is not among the sources: what it does to a
    value that [updateMedicine] assigns to a path is a parameter of the
    model.  The documents in the collection were saved through the schema
    and are taken to satisfy it. *)

Module Admin.

(** The values of the fields of a document or of a request body. *)
Inductive Json :=
| JNull
| JBool (b : bool)
| JNum (n : Z)
| JStr (s : string)
| JDate (t : Z)
| JIds (l : list ObjectId).

(** A medicine document, and a request body, as JavaScript objects: maps
    from field names to values. *)
Abbreviation Object := (gmap string Json).

(** Truthiness of [o.field]. *)
Definition truthy (v : option Json) : bool :=
  match v with
  | Some (JBool b) => b
  | Some (JNum n) => negb (bool_decide (n = 0))
  | Some (JStr s) => negb (bool_decide (s = ""))
  | Some (JDate _) | Some (JIds _) => true
  | Some JNull | None => false
  end.

Inductive Payload :=
| Document (d : Object)
| Note (m : string)
| Failure.                      (* the message of the error that was caught *)

Record Reply := mkReply { status : Z; payload : Payload }.

(** What the schema does when a path of a medicine is assigned a value: the
    value that is stored (the value itself, or what it is cast to), or
    nothing when the value cannot be cast to the type of the path or fails
    its validators; [save()] is then rejected. *)
Definition Schema : Type := string → Json → option Json.

Definition allowedUpdates : list string :=
  [ "name"; "genericName"; "description"; "concentration";
    "manufacture"; "activeIngredient"; "medicineType";
    "sideEffects"; "usageInstruction"; "storageCondition";
    "price"; "discount"; "availableStock"; "isAvailable";
    "prescriptionRequired"; "alternatives" ].

(** [Object.keys(o)]. *)
Definition keys (o : Object) : list string := (map_to_list o).*1.

(** [medicine[update] = req.body[update]], on the document or on nothing
    once the schema has refused a value. *)
Definition assign (schema : Schema) (body : Object) (medicine : option Object)
  (update : string) : option Object :=
  match medicine, body !! update with
  | Some medicine, Some v =>
      match schema update v with
      | Some stored => Some (<[update := stored]> medicine)
      | None => None
      end
  | Some medicine, None => Some medicine
  | None, _ => None
  end.

Definition notFound : Reply := {| status := 404; payload := Note "Medicine not found" |}.

Definition updateMedicine (schema : Schema) (db : gmap ObjectId Object) (id : ObjectId)
  (body : Object) : gmap ObjectId Object * Reply :=
  let updates := keys body in
  let isValidOperation :=
    forallb (λ update, bool_decide (update ∈ allowedUpdates)) updates in
  if negb isValidOperation then
    (db, {| status := 400; payload := Note "Invalid updates" |})
  else
    match db !! id with
    | None => (db, notFound)
    | Some medicine =>
        if truthy (medicine !! "isDeleted") then (db, notFound)
        else
          match foldl (assign schema body) (Some medicine) updates with
          | Some medicine =>
              (<[id := medicine]> db, {| status := 200; payload := Document medicine |})
          | None =>
              (* save() is rejected *)
              (db, {| status := 500; payload := Failure |})
          end
    end.

Definition deleteMedicine (db : gmap ObjectId Object) (now : Z) (id : ObjectId)
  : gmap ObjectId Object * Reply :=
  match db !! id with
  | None => (db, notFound)
  | Some medicine =>
      if truthy (medicine !! "isDeleted") then (db, notFound)
      else
        let medicine := <["deletedAt" := JDate now]> (<["isDeleted" := JBool true]> medicine) in
        (<[id := medicine]> db,
         {| status := 200; payload := Note "Medicine deleted successfully" |})
  end.

(** The two administration requests. *)
Inductive Request :=
| Update (id : ObjectId) (body : Object)
| Delete (now : Z) (id : ObjectId).

Definition serve (schema : Schema) (db : gmap ObjectId Object) (r : Request)
  : gmap ObjectId Object * Reply :=
  match r with
  | Update id body => updateMedicine schema db id body
  | Delete now id => deleteMedicine db now id
  end.

Definition serveAll (schema : Schema) (db : gmap ObjectId Object) (rs : list Request)
  : gmap ObjectId Object :=
  foldl (λ db r, (serve schema db r).1) db rs.

End Admin.

(** ** Prescriptions: getPrescriptionById, updatePrescriptionStatus,
       deletePrescription

    The handlers are modelled as they are written: they do not check the
    status they are given, and what the schemas of the two collections do
    on [save] and [updateMany] (validation, fields outside the schema) is
    not modelled. *)

Module Prescriptions.

(** [req.user]. *)
Record User := mkUser { user_id : ObjectId; role : string }.

Record Prescription := mkPrescription {
  patientId : ObjectId;
  title : option string;
  doctorName : option string;
  status : string;
  rejectionReason : option string;
  isDeleted : bool;
  deletedAt : option Z
}.

(** The fields of a reminder document that the prescription handlers read
    or write; [Reminder.updateMany] leaves the others as they are. *)
Record LinkedReminder := mkLinkedReminder {
  prescriptionId : option ObjectId;
  medicineId : option ObjectId;
  r_status : string;
  r_isDeleted : bool;
  r_deletedAt : option Z
}.

Record Db := mkDb {
  prescriptions : gmap ObjectId Prescription;
  reminders : gmap ObjectId LinkedReminder;
  patients : gset ObjectId
}.

Inductive Payload :=
| WithReminders (id : ObjectId) (p : Prescription) (rs : list (ObjectId * LinkedReminder))
| Saved (id : ObjectId) (p : Prescription)
| Note (m : string).

Record Reply := mkReply { code : Z; payload : Payload }.

Definition notFound : Reply := {| code := 404; payload := Note "Prescription not found" |}.

(** [Reminder.find({ prescriptionId: id, isDeleted: false })]. *)
Definition liveRemindersOf (id : ObjectId) (m : gmap ObjectId LinkedReminder)
  : list (ObjectId * LinkedReminder) :=
  List.filter (λ kv, bool_decide (prescriptionId kv.2 = Some id) && negb (r_isDeleted kv.2))
    (map_to_list m).

(** [Reminder.updateMany({ prescriptionId: id }, change)]. *)
Definition updateMany (id : ObjectId) (change : LinkedReminder → LinkedReminder)
  (m : gmap ObjectId LinkedReminder) : gmap ObjectId LinkedReminder :=
  (λ r, if bool_decide (prescriptionId r = Some id) then change r else r) <$> m.

Definition setReminderStatus (s : string) (r : LinkedReminder) : LinkedReminder :=
  {| prescriptionId := prescriptionId r; medicineId := medicineId r;
     r_status := s; r_isDeleted := r_isDeleted r; r_deletedAt := r_deletedAt r |}.

Definition setReminderDeleted (now : Z) (r : LinkedReminder) : LinkedReminder :=
  {| prescriptionId := prescriptionId r; medicineId := medicineId r;
     r_status := r_status r; r_isDeleted := true; r_deletedAt := Some now |}.

Definition getPrescriptionById (db : Db) (u : User) (id : ObjectId) : Db * Reply :=
  match prescriptions db !! id with
  | None => (db, notFound)
  | Some prescription =>
      if bool_decide (patientId prescription ∈ patients db) then
        if negb (bool_decide (patientId prescription = user_id u)) &&
           negb (bool_decide (role u = "admin"))
        then (db, {| code := 403;
                     payload := Note "Not authorized to view this prescription" |})
        else (db, {| code := 200;
                     payload := WithReminders id prescription
                                  (liveRemindersOf id (reminders db)) |})
      else
        (* the patient is populated as null: reading patientId._id throws *)
        (db, {| code := 500; payload := Note "error" |})
  end.

Definition updatePrescriptionStatus (db : Db) (u : User) (id : ObjectId)
  (newStatus : string) (reason : option string) : Db * Reply :=
  match prescriptions db !! id with
  | None => (db, notFound)
  | Some prescription =>
      if negb (bool_decide (role u = "admin")) &&
         negb (bool_decide (role u = "pharmacy_owner"))
      then (db, {| code := 403;
                   payload := Note "Not authorized to update this prescription" |})
      else
        let prescription :=
          {| patientId := patientId prescription; title := title prescription;
             doctorName := doctorName prescription;
             status := newStatus;
             rejectionReason :=
               if bool_decide (newStatus = "rejected") then reason
               else rejectionReason prescription;
             isDeleted := isDeleted prescription; deletedAt := deletedAt prescription |} in
        let rs :=
          if bool_decide (newStatus = "approved")
          then updateMany id (setReminderStatus "active") (reminders db)
          else if bool_decide (newStatus = "rejected")
          then updateMany id (setReminderStatus "missed") (reminders db)
          else reminders db in
        ({| prescriptions := <[id := prescription]> (prescriptions db);
            reminders := rs; patients := patients db |},
         {| code := 200; payload := Saved id prescription |})
  end.

(** [now] and [later] are the two readings of the clock, in order. *)
Definition deletePrescription (db : Db) (u : User) (now later : Z) (id : ObjectId)
  : Db * Reply :=
  match prescriptions db !! id with
  | None => (db, notFound)
  | Some prescription =>
      if negb (bool_decide (patientId prescription = user_id u)) &&
         negb (bool_decide (role u = "admin"))
      then (db, {| code := 403;
                   payload := Note "Not authorized to delete this prescription" |})
      else
        let prescription :=
          {| patientId := patientId prescription; title := title prescription;
             doctorName := doctorName prescription; status := status prescription;
             rejectionReason := rejectionReason prescription;
             isDeleted := true; deletedAt := Some now |} in
        ({| prescriptions := <[id := prescription]> (prescriptions db);
            reminders := updateMany id (setReminderDeleted later) (reminders db);
            patients := patients db |},
         {| code := 200; payload := Note "Prescription deleted successfully" |})
  end.

End Prescriptions.

(** ** The client of the alternatives endpoint: productsAPI.getAlternatives
       and DrugAlternativeScreen.fetchAlternatives *)

Module Client.

Import Resolver.

(** What the promise of [productsAPI.getAlternatives] settles with: the
    value it resolves to, or the object built by [handleApiError]. *)
Inductive Settled (A : Type) :=
| Resolved (a : A)
| Rejected (message : string).
Arguments Resolved {A} a.
Arguments Rejected {A} message.

(** A value that [fetchAlternatives] may receive: an array, or an object
    with optional [alternatives] and [source]. *)
Inductive ApiValue :=
| ArrayOf (l : list Alternative)
| ObjectOf (alternatives : option (list Alternative)) (source : option string).

(** [a || b] for texts. *)
Definition orText (a : option string) (b : string) : string :=
  match a with
  | Some s => if bool_decide (s = "") then b else s
  | None => b
  end.

(** The message of the error axios raises for a status outside 2xx. *)
Definition axiosMessage (status : Z) : string :=
  "Request failed with status code " +:+ pretty status.

(** [handleApiError(error)] for a response without [errors]. *)
Definition handleApiError (status : Z) (dataMessage : option string) : string :=
  orText dataMessage (orText (Some (axiosMessage status)) "An error occurred").

(** [productsAPI.getAlternatives(id)], given the answer of the server: the
    interceptors pass the response, or the error, on as it is. *)
Definition getAlternatives (resp : Response) : Settled ApiValue :=
  if bool_decide (200 ≤ code resp < 300) then
    match body resp with
    | Alternatives l _ => Resolved (ArrayOf l)        (* response.data.alternatives || [] *)
    | Message _ => Resolved (ArrayOf [])
    end
  else
    match body resp with
    | Message m => Rejected (handleApiError (code resp) (Some m))
    | Alternatives _ _ => Rejected (handleApiError (code resp) None)
    end.

(** The state of [DrugAlternativeScreen]. *)
Record Screen := mkScreen {
  shown : list Alternative;
  loading : bool;
  error : option string;
  shownSource : string
}.

Definition initialScreen : Screen :=
  {| shown := []; loading := true; error := None; shownSource := "none" |}.

(** [fetchAlternatives], given what [productsAPI.getAlternatives] settles
    with. *)
Definition fetchAlternatives (s : Screen) (settled : Settled ApiValue) : Screen :=
  match settled with
  | Resolved response =>
      let alternatives :=
        match response with
        | ArrayOf l => l
        | ObjectOf (Some l) _ => l
        | ObjectOf None _ => []
        end in
      let source :=
        match response with
        | ArrayOf _ => orText None "activeIngredient"
        | ObjectOf _ src => orText src "activeIngredient"
        end in
      {| shown := alternatives; loading := false; error := error s; shownSource := source |}
  | Rejected message =>
      {| shown := shown s; loading := false; error := Some message;
         shownSource := shownSource s |}
  end.

(** The effect of the screen, for a selected medicine or none. *)
Definition openScreen (c : Catalog) (medicine : option ObjectId) : Screen :=
  match medicine with
  | None =>
      {| shown := []; loading := false; error := Some "No medicine selected";
         shownSource := "none" |}
  | Some id => fetchAlternatives initialScreen (getAlternatives (getMedicineAlternatives c id))
  end.

End Client.

(** * Vocabulary of the properties *)

(** The number of turns of the loop of [createReminder] entered at
    [currentDate]: one for each calendar day up to that of [endDateTime]. *)
Definition turns (z : Zone) (endDateTime currentDate : Z) : Z :=
  if decide (currentDate ≤ endDateTime)
  then dayIndex z endDateTime - dayIndex z currentDate + 1 else 0.

(** The value of [currentDate] at turn [k] of the loop entered at
    [currentDate]. *)
Definition dateOfTurn (z : Zone) (currentDate : Z) (k : nat) : Z :=
  Nat.iter k (λ t, addDays z t 1) currentDate.

(** What the callback of [getRemindersByDate] does to one reminder, for a
    date text that denotes the instant [queryDate]: the document it holds
    in memory, the status it reports, and the document that is stored after
    the call. *)
Definition pushedFor (date : DateText) (queryDate : Z) (r : Reminder) : Reminder :=
  match list_find (onDay date) (dailyStatuses r) with
  | Some _ => r
  | None => setDailyStatuses (dailyStatuses r ++ [activeEntry queryDate]) r
  end.

Definition statusOn (date : DateText) (queryDate : Z) (r : Reminder) : DailyStatus :=
  match list_find (onDay date) (dailyStatuses r) with
  | Some (_, dailyStatus) => dailyStatus
  | None => activeEntry queryDate
  end.

Definition viewOf (date : DateText) (queryDate : Z) (d : ReminderDoc) : ReminderView :=
  mkView (_id d) (pushedFor date queryDate (doc d)) (statusOn date queryDate (doc d)).

Definition touch (strict : bool) (date : DateText) (queryDate : Z) (r : Reminder) : Reminder :=
  if validates strict (pushedFor date queryDate r) then pushedFor date queryDate r else r.

Definition saveTouched (strict : bool) (date : DateText) (queryDate : Z)
  (m : gmap ObjectId Reminder) (d : ReminderDoc) : gmap ObjectId Reminder :=
  match list_find (onDay date) (dailyStatuses (doc d)) with
  | Some _ => m
  | None => saveValid strict (mkDoc (_id d) (pushedFor date queryDate (doc d))) m
  end.

(** The reminder as the whole handler leaves it. *)
Definition touchIfOverlaps (strict : bool) (uid : ObjectId) (date : DateText)
  (queryDate endOfQueryDate : Z) (r : Reminder) : Reminder :=
  if overlaps uid queryDate endOfQueryDate r then touch strict date queryDate r else r.

(** The reminder as [getRemindersByDate] leaves it, for any date text. *)
Definition afterByDate (strict : bool) (uid : ObjectId) (date : DateText) (r : Reminder)
  : Reminder :=
  match startOfText date, endOfText date with
  | Some queryDate, Some endOfQueryDate =>
      touchIfOverlaps strict uid date queryDate endOfQueryDate r
  | _, _ => r
  end.

(** The UTC days of the entries of a reminder, in order. *)
Definition days (r : Reminder) : list Z := (λ s, isoDate (ds_date s)) <$> dailyStatuses r.

(** No two entries of a reminder fall on the same UTC day. *)
Definition onePerDay (r : Reminder) : Prop := NoDup (days r).

Definition dbOnePerDay (db : Db) : Prop :=
  map_Forall (λ _ r, onePerDay r) (reminders db).

(** The requests of the reminder routes, each with what the server adds to
    it: its time zone, its clock, and the reading of the schema. *)
Inductive Op :=
| CreateReminder (z : Zone) (uid : ObjectId) (b : CreateBody)
| GetUserReminders (uid : ObjectId)
| GetReminder (uid id : ObjectId)
| UpdateReminder (uid id : ObjectId) (u : UpdateBody)
| DeleteReminder (uid : ObjectId) (now : Z) (id : ObjectId)
| GetRemindersByDate (strict : bool) (uid : ObjectId) (date : DateText)
| MarkReminderAsTaken (strict : bool) (uid : ObjectId) (now : Z) (id : ObjectId)
    (date : option DateText) (status : option string).

Definition step (db : Db) (op : Op) : Db * Response :=
  match op with
  | CreateReminder z uid b => createReminder z db uid b
  | GetUserReminders uid => getUserReminders db uid
  | GetReminder uid id => getReminder db uid id
  | UpdateReminder uid id u => updateReminder db uid id u
  | DeleteReminder uid now id => deleteReminder db uid now id
  | GetRemindersByDate strict uid date => getRemindersByDate strict db uid date
  | MarkReminderAsTaken strict uid now id date status =>
      markReminderAsTaken strict db uid now id date status
  end.

(** The database after a sequence of requests. *)
Definition run (db : Db) (ops : list Op) : Db := foldl (λ db op, (step db op).1) db ops.

(** The reminder [id] appears in a response body. *)
Definition mentions (id : ObjectId) (b : Body) : Prop :=
  match b with
  | ReminderDocs l => id ∈ _id <$> l
  | ReminderViews l => id ∈ view_id <$> l
  | OneReminder d => _id d = id
  | OneView v => view_id v = id
  | Message _ | Received _ _ _ | Failure _ => False
  end.

Definition notFound : Response := {| code := 404; body := Message "Reminder not found" |}.

(** The user on whose behalf a request runs: [req.user._id]. *)
Definition requester (op : Op) : ObjectId :=
  match op with
  | CreateReminder _ uid _ => uid
  | GetUserReminders uid => uid
  | GetReminder uid _ => uid
  | UpdateReminder uid _ _ => uid
  | DeleteReminder uid _ _ => uid
  | GetRemindersByDate _ uid _ => uid
  | MarkReminderAsTaken _ uid _ _ _ _ => uid
  end.

(** A date text that, when it denotes a day, is the ISO text of that day. *)
Definition canonical (date : DateText) : Prop :=
  match date with
  | Malformed | Iso _ => True
  | Loose _ _ => False
  end.

(** A request whose date, if it has one, is canonical. *)
Definition canonicalOp (op : Op) : Prop :=
  match op with
  | GetRemindersByDate _ _ date => canonical date
  | MarkReminderAsTaken _ _ _ _ (Some date) _ => canonical date
  | _ => True
  end.

(** Every id on the [reminders] list of a user is that of a reminder of
    that user which is not deleted. *)
Definition listsPointToOwn (db : Db) : Prop :=
  ∀ uid l id, users db !! uid = Some l → id ∈ l →
    ∃ r, reminders db !! id = Some r ∧ user r = uid ∧ isDeleted r = false.

(** The views of a response body. *)
Definition viewsOf (b : Body) : list ReminderView :=
  match b with
  | ReminderViews l => l
  | _ => []
  end.

(** The documents of a response body. *)
Definition docsOf (b : Body) : list ReminderDoc :=
  match b with
  | ReminderDocs l => l
  | _ => []
  end.

(** ** Vocabulary of the alternative resolver and of the catalogue page *)

Module ResolverTerms.
Import Resolver.

(** What an attached [pharmacyInfo] says: the alternative has a listing
    that is available, not deleted and in stock, at a pharmacy that
    exists, and the information is that of this listing. *)
Definition stockedAt (c : Catalog) (a : Alternative) : Prop :=
  ∃ pm ph,
    pm ∈ pharmacyMedicines c ∧ ph ∈ pharmacies c ∧
    pm_medicineId pm = _id (alt a) ∧ pm_isAvailable pm = true ∧
    pm_isDeleted pm = false ∧ 0 < pm_stock pm ∧
    ph_id ph = pm_pharmacyId pm ∧
    pharmacyInfo a
    = {| pharmacyId := ph_id ph; pharmacyName := name ph; price := pm_price pm;
         stock := pm_stock pm; discount := pm_discount pm; info_isAvailable := true |}.

(** The medicine has a listing that [PharmacyMedicine.findOne] accepts. *)
Definition hasStock (c : Catalog) (m : Medicine) : bool :=
  match PharmacyMedicine_findOne c (_id m) with
  | Some _ => true
  | None => false
  end.

(** The listing found for the medicine names a pharmacy that does not
    exist. *)
Definition danglingListing (c : Catalog) (m : Medicine) : Prop :=
  ∃ pm, PharmacyMedicine_findOne c (_id m) = Some pm ∧ populatePharmacy c pm = None.

End ResolverTerms.

Module BrowseTerms.
Import Resolver Browse.

(** The same request for another page. *)
Definition turnTo (page limit : option Z) (q : Query) : Query :=
  {| q_page := page; q_limit := limit; q_category := q_category q;
     q_search := q_search q; q_minPrice := q_minPrice q; q_maxPrice := q_maxPrice q;
     q_prescriptionRequired := q_prescriptionRequired q; q_pharmacyId := q_pharmacyId q |}.

(** What stands behind an item of [availableMedicines]. *)
Definition backedBy (st : Store) (pm : PharmacyMedicine) (ph : Pharmacy) (i : Item) : Prop :=
  populateMedicine st pm = Some (item_medicine i) ∧
  populatePharmacyDoc st pm = Some ph ∧
  item_category i = populateCategory st (item_medicine i) ∧
  item_pharmacyInfo i
  = {| pharmacyId := ph_id ph; pharmacyName := name ph; price := pm_price pm;
       stock := pm_stock pm; discount := pm_discount pm;
       info_isAvailable := pm_isAvailable pm |}.

End BrowseTerms.

(** * Sample data *)

Module ResolverData.
Import Resolver.

(** A catalog in which medicine 1 has the curated alternative 2, which no
    pharmacy stocks, while medicine 3 shares the active ingredient of
    medicine 1 and is in stock at pharmacy 1. *)
Definition med1 : Medicine :=
  {| _id := 1; alternatives := [2%positive]; activeIngredient := 9;
     isDeleted := false; isAvailable := true |}.
Definition med2 : Medicine :=
  {| _id := 2; alternatives := []; activeIngredient := 8;
     isDeleted := false; isAvailable := true |}.
Definition med3 : Medicine :=
  {| _id := 3; alternatives := []; activeIngredient := 9;
     isDeleted := false; isAvailable := true |}.
Definition listing3 : PharmacyMedicine :=
  {| pm_medicineId := 3; pm_pharmacyId := 1; pm_price := 40; pm_stock := 5;
     pm_discount := 0; pm_isAvailable := true; pm_isDeleted := false |}.
Definition listing2_sold_out : PharmacyMedicine :=
  {| pm_medicineId := 2; pm_pharmacyId := 1; pm_price := 35; pm_stock := 0;
     pm_discount := 0; pm_isAvailable := true; pm_isDeleted := false |}.
Definition catalog1 : Catalog :=
  {| medicines := [med1; med2; med3];
     pharmacyMedicines := [listing2_sold_out; listing3];
     pharmacies := [ {| ph_id := 1; name := "Central" |} ] |}.
Definition alt3 : Alternative :=
  {| alt := med3;
     pharmacyInfo :=
       {| pharmacyId := 1; pharmacyName := "Central"; price := 40; stock := 5;
          discount := 0; info_isAvailable := true |} |}.

(** A catalog in which medicine 10 has two curated alternatives, one out of
    stock and one listed only by a closed-down (deleted) listing, and two
    other medicines share its active ingredient, one of them in stock. *)
Definition med10 : Medicine :=
  {| _id := 10; alternatives := [11%positive; 12%positive]; activeIngredient := 7;
     isDeleted := false; isAvailable := true |}.
Definition med11 : Medicine :=
  {| _id := 11; alternatives := []; activeIngredient := 6;
     isDeleted := false; isAvailable := true |}.
Definition med12 : Medicine :=
  {| _id := 12; alternatives := []; activeIngredient := 6;
     isDeleted := false; isAvailable := true |}.
Definition med13 : Medicine :=
  {| _id := 13; alternatives := []; activeIngredient := 7;
     isDeleted := false; isAvailable := true |}.
Definition med14 : Medicine :=
  {| _id := 14; alternatives := []; activeIngredient := 7;
     isDeleted := false; isAvailable := true |}.
Definition catalog2 : Catalog :=
  {| medicines := [med10; med11; med12; med13; med14];
     pharmacyMedicines :=
       [ {| pm_medicineId := 11; pm_pharmacyId := 1; pm_price := 20; pm_stock := 0;
            pm_discount := 0; pm_isAvailable := true; pm_isDeleted := false |};
         {| pm_medicineId := 12; pm_pharmacyId := 2; pm_price := 22; pm_stock := 3;
            pm_discount := 0; pm_isAvailable := true; pm_isDeleted := true |};
         {| pm_medicineId := 13; pm_pharmacyId := 2; pm_price := 25; pm_stock := 8;
            pm_discount := 10; pm_isAvailable := true; pm_isDeleted := false |} ];
     pharmacies := [ {| ph_id := 1; name := "Central" |}; {| ph_id := 2; name := "Nile" |} ] |}.

End ResolverData.

Definition emptyDb : Db := {| reminders := ∅; users := ∅ |}.

(** A request for the two days 0 and 1 (UTC), at 08:30. *)
Definition twoDays : CreateBody :=
  {| cb_product := None; cb_title := Some "Pill"; cb_description := None;
     cb_medicineId := None; cb_time := 30600000; cb_frequency := Some "daily";
     cb_startDate := 0; cb_endDate := 86400000;
     cb_dosage := None; cb_notes := None; cb_notificationPreferences := None |}.

(** The same two days in reverse order. *)
Definition reversed : CreateBody :=
  {| cb_product := None; cb_title := Some "Pill"; cb_description := None;
     cb_medicineId := None; cb_time := 30600000; cb_frequency := Some "daily";
     cb_startDate := 86400000; cb_endDate := 0;
     cb_dosage := None; cb_notes := None; cb_notificationPreferences := None |}.

(** A request that starts at 10:00 of day 0 (UTC) and ends at 08:00 of the
    same day. *)
Definition backwardsWithinADay : CreateBody :=
  {| cb_product := None; cb_title := Some "Pill"; cb_description := None;
     cb_medicineId := None; cb_time := 30600000; cb_frequency := Some "daily";
     cb_startDate := 36000000; cb_endDate := 28800000;
     cb_dosage := None; cb_notes := None; cb_notificationPreferences := None |}.

(** A reminder of user 1 that runs over the UTC days 0 and 1 and carries the
    status of day 0 only. *)
Definition sampleReminder : Reminder :=
  {| user := 1; medicineId := None; product := None; title := Some "Pill";
     description := None; time := 30600000; frequency := Some "daily";
     startDate := 0; endDate := 172799999; dosage := None; notes := None;
     notificationPreferences := None; status := "active"; isTaken := false;
     dailyStatuses := [ activeEntry 0 ];
     isDeleted := false; deletedAt := None |}.

Definition sampleDb : Db :=
  {| reminders := {[ 5%positive := sampleReminder ]};
     users := {[ 1%positive := [5%positive] ]} |}.

(** Noon (UTC) of a day. *)
Definition noonOfDay (d : Z) : Z := utcMidnight d + 43200000.

(** The first of March 2024 is the UTC day 19783.  The text [2024-02-30]
    denotes that day, and is not its ISO text; nor is the text
    [+002024-03-01], which writes the year in the expanded form of the date
    format. *)
Definition firstOfMarch : Z := 19783.
Definition feb30 : DateText := Loose (utcMidnight firstOfMarch) (utcLastMs firstOfMarch).

(** A reminder of user 1 that runs from 28 February to 2 March 2024 and
    carries the status of 28 February only. *)
Definition marchReminder : Reminder :=
  {| user := 1; medicineId := None; product := None; title := Some "Syrup";
     description := None; time := utcMidnight 19781 + 30600000; frequency := Some "daily";
     startDate := utcMidnight 19781; endDate := utcLastMs 19784;
     dosage := None; notes := None;
     notificationPreferences := None; status := "active"; isTaken := false;
     dailyStatuses := [ activeEntry (utcMidnight 19781) ];
     isDeleted := false; deletedAt := None |}.

Definition marchDb : Db :=
  {| reminders := {[ 7%positive := marchReminder ]};
     users := {[ 1%positive := [7%positive] ]} |}.

(** The same reminder once it carries the status of the first of March as
    well. *)
Definition marchReminderSeen : Reminder :=
  setDailyStatuses
    (dailyStatuses marchReminder ++ [ activeEntry (utcMidnight firstOfMarch) ]) marchReminder.

Definition marchDbSeen : Db :=
  {| reminders := {[ 7%positive := marchReminderSeen ]};
     users := {[ 1%positive := [7%positive] ]} |}.

(** Africa/Cairo around 26 April 2024: at midnight of that day, which is
    the instant 2024-04-25T22:00:00Z, the offset goes from two hours to
    three, and the local times from 00:00 to 01:00 do not exist; they are
    read by the offset before the change. *)
Definition cairoChange : Z := 1714082400000.

Definition cairoOffsetAt (t : Z) : Z :=
  if decide (t < cairoChange) then 2 * msPerHour else 3 * msPerHour.

Definition cairoOffsetOfLocal (l : Z) : Z :=
  if decide (l - 3 * msPerHour < cairoChange) then 2 * msPerHour else 3 * msPerHour.

Lemma cairo_same_day (l : Z) :
  dayOf (l - cairoOffsetOfLocal l + cairoOffsetAt (l - cairoOffsetOfLocal l)) = dayOf l.
Proof.
  unfold cairoOffsetOfLocal, cairoOffsetAt, cairoChange, dayOf, msPerDay, msPerHour.
  repeat case_decide; try (f_equal; lia).
  pose proof (Z.div_mod l 86400000). pose proof (Z.mod_pos_bound l 86400000).
  pose proof (Z.div_mod (l - 2 * 3600000 + 3 * 3600000) 86400000).
  pose proof (Z.mod_pos_bound (l - 2 * 3600000 + 3 * 3600000) 86400000).
  lia.
Qed.

Lemma cairo_day_mono (t u : Z) :
  t ≤ u → dayOf (t + cairoOffsetAt t) ≤ dayOf (u + cairoOffsetAt u).
Proof.
  intros H. unfold cairoOffsetAt, cairoChange, dayOf, msPerDay, msPerHour.
  apply Z.div_le_mono; [lia|]. repeat case_decide; lia.
Qed.

Lemma cairo_end_is_last (l : Z) :
  l - cairoOffsetOfLocal l ≤ lastMsOfDay l - cairoOffsetOfLocal (lastMsOfDay l).
Proof.
  unfold cairoOffsetOfLocal, cairoChange, lastMsOfDay, dayOf, msPerDay, msPerHour.
  pose proof (Z.div_mod l 86400000). pose proof (Z.mod_pos_bound l 86400000).
  repeat case_decide; lia.
Qed.

Definition cairo : Zone :=
  mkZone cairoOffsetAt cairoOffsetOfLocal cairo_same_day cairo_day_mono cairo_end_is_last.

(** A request made in Cairo for 25 to 27 April 2024, at 00:30. *)
Definition acrossTheChange : CreateBody :=
  {| cb_product := None; cb_title := Some "Pill"; cb_description := None;
     cb_medicineId := None; cb_time := 1714084200000 - 86400000;
     cb_frequency := Some "daily";
     cb_startDate := 1714082400000 - 86400000 + 36000000;
     cb_endDate := 1714082400000 + 86400000 + 36000000;
     cb_dosage := None; cb_notes := None; cb_notificationPreferences := None |}.

Module ResolverSamples.
Import Resolver.

(** Medicine 20 has no curated list; medicines 21 and 22 share its active
    ingredient; 21 is in stock at pharmacy 1, 22 is listed by a pharmacy
    that does not exist. *)
Definition med20 : Medicine :=
  {| _id := 20; alternatives := []; activeIngredient := 4;
     isDeleted := false; isAvailable := true |}.
Definition med21 : Medicine :=
  {| _id := 21; alternatives := []; activeIngredient := 4;
     isDeleted := false; isAvailable := true |}.
Definition med22 : Medicine :=
  {| _id := 22; alternatives := []; activeIngredient := 4;
     isDeleted := false; isAvailable := true |}.
Definition listing22 : PharmacyMedicine :=
  {| pm_medicineId := 22; pm_pharmacyId := 99; pm_price := 18; pm_stock := 6;
     pm_discount := 0; pm_isAvailable := true; pm_isDeleted := false |}.
Definition catalog3 : Catalog :=
  {| medicines := [med20; med21; med22];
     pharmacyMedicines :=
       [ {| pm_medicineId := 21; pm_pharmacyId := 1; pm_price := 17; pm_stock := 4;
            pm_discount := 0; pm_isAvailable := true; pm_isDeleted := false |};
         listing22 ];
     pharmacies := [ {| ph_id := 1; name := "Central" |} ] |}.

(** Medicine 30 has the curated alternatives 32, 31 and 33, in that order;
    31 and 32 are in stock, 33 is not; medicine 34 shares the active
    ingredient of 30 and is in stock. *)
Definition med30 : Medicine :=
  {| _id := 30; alternatives := [32%positive; 31%positive; 33%positive];
     activeIngredient := 5; isDeleted := false; isAvailable := true |}.
Definition med31 : Medicine :=
  {| _id := 31; alternatives := []; activeIngredient := 3;
     isDeleted := false; isAvailable := true |}.
Definition med32 : Medicine :=
  {| _id := 32; alternatives := []; activeIngredient := 3;
     isDeleted := true; isAvailable := false |}.
Definition med33 : Medicine :=
  {| _id := 33; alternatives := []; activeIngredient := 3;
     isDeleted := false; isAvailable := true |}.
Definition med34 : Medicine :=
  {| _id := 34; alternatives := []; activeIngredient := 5;
     isDeleted := false; isAvailable := true |}.
Definition catalog4 : Catalog :=
  {| medicines := [med30; med31; med32; med33; med34];
     pharmacyMedicines :=
       [ {| pm_medicineId := 31; pm_pharmacyId := 1; pm_price := 11; pm_stock := 2;
            pm_discount := 0; pm_isAvailable := true; pm_isDeleted := false |};
         {| pm_medicineId := 32; pm_pharmacyId := 1; pm_price := 12; pm_stock := 9;
            pm_discount := 5; pm_isAvailable := true; pm_isDeleted := false |};
         {| pm_medicineId := 34; pm_pharmacyId := 1; pm_price := 13; pm_stock := 1;
            pm_discount := 0; pm_isAvailable := true; pm_isDeleted := false |} ];
     pharmacies := [ {| ph_id := 1; name := "Central" |} ] |}.

End ResolverSamples.

Module BrowseSamples.
Import Resolver Browse.

(** A store with three medicines of category 1, each listed once by
    pharmacy 1, and a fourth listing at a pharmacy that does not exist. *)
Definition plainMedicine (id : ObjectId) (n : string) (rx : bool) : MedicineDoc :=
  {| core := {| _id := id; alternatives := []; activeIngredient := 1;
                isDeleted := false; isAvailable := true |};
     med_name := Some n; description := Some "tablets";
     categoryId := Some 1%positive; prescriptionRequired := Some rx |}.
Definition plainListing (m ph : ObjectId) (p : Z) : PharmacyMedicine :=
  {| pm_medicineId := m; pm_pharmacyId := ph; pm_price := p; pm_stock := 3;
     pm_discount := 0; pm_isAvailable := true; pm_isDeleted := false |}.
Definition shop : Store :=
  {| medicineDocs :=
       [ plainMedicine 1 "Paracetamol" false; plainMedicine 2 "Amoxicillin" true;
         plainMedicine 3 "Panadol" false ];
     categories := [ {| cat_id := 1; cat_name := "Pain relief" |} ];
     listings := [ plainListing 1 1 1600; plainListing 2 1 2600; plainListing 3 1 2000 ];
     pharmacyDocs := [ {| ph_id := 1; name := "Central" |} ] |}.
Definition brokenShop : Store :=
  {| medicineDocs := medicineDocs shop; categories := categories shop;
     listings := listings shop ++ [ plainListing 3 7 2100 ];
     pharmacyDocs := pharmacyDocs shop |}.
(** A stand-in for the regular expressions of the engine: a pattern matches
    the texts it is a prefix of. *)
Definition anyPattern (p : string) : bool := true.
Definition prefixMatch (p t : string) : bool := String.prefix p t.
Definition cheapPainkillers : Query :=
  {| q_page := None; q_limit := None; q_category := Some 1%positive;
     q_search := Some "Pa"; q_minPrice := None; q_maxPrice := Some (Num 2500);
     q_prescriptionRequired := Some "false"; q_pharmacyId := None |}.
Definition item1 : Item :=
  {| item_medicine := plainMedicine 1 "Paracetamol" false;
     item_category := Some {| cat_id := 1; cat_name := "Pain relief" |};
     item_pharmacyInfo :=
       {| pharmacyId := 1; pharmacyName := "Central"; price := 1600; stock := 3;
          discount := 0; info_isAvailable := true |} |}.
Definition item3 : Item :=
  {| item_medicine := plainMedicine 3 "Panadol" false;
     item_category := Some {| cat_id := 1; cat_name := "Pain relief" |};
     item_pharmacyInfo :=
       {| pharmacyId := 1; pharmacyName := "Central"; price := 2000; stock := 3;
          discount := 0; info_isAvailable := true |} |}.

End BrowseSamples.

Module AdminSamples.
Import Admin.

(** A medicine and a body that renames it and changes its price. *)
Definition aspirin : Object :=
  {[ "name" := JStr "Aspirin"; "price" := JNum 1200; "isDeleted" := JBool false;
     "rating" := JNum 4 ]}.
Definition pharmacyShelf : gmap ObjectId Object := {[ 1%positive := aspirin ]}.
Definition newPrice : Object := {[ "price" := JNum 1500; "discount" := JNum 10 ]}.

(** A schema whose numeric paths store numbers, read a text of digits as a
    number and refuse anything else; the other paths store what they are
    given. *)
Definition numericPaths : Schema := λ path v,
  if bool_decide (path ∈ ["price"; "discount"; "availableStock"]) then
    match v with
    | JNum n => Some (JNum n)
    | JStr "15" => Some (JNum 15)
    | _ => None
    end
  else Some v.

(** A body with a price that is no number. *)
Definition badPrice : Object := {[ "name" := JStr "Aspirin 500"; "price" := JStr "abc" ]}.

End AdminSamples.

Module PrescriptionSamples.
Import Prescriptions.

(** A prescription of patient 7 with two reminders, one of them already
    deleted, and a reminder of another prescription. *)
Definition flu : Prescription := mkPrescription 7 (Some "Flu") None "pending" None false None.
Definition clinic : Db :=
  {| prescriptions := {[ 1%positive := flu ]};
     reminders :=
       {[ 11%positive := mkLinkedReminder (Some 1%positive) None "active" false None;
          12%positive := mkLinkedReminder (Some 1%positive) None "completed" true (Some 5);
          13%positive := mkLinkedReminder (Some 2%positive) None "active" false None ]};
     patients := {[ 7%positive ]} |}.

End PrescriptionSamples.

(** * Properties of the alternative resolver *)

Module ResolverFacts.
Import Resolver ResolverData.

Lemma promiseAll_dropped (c : Catalog) (l : list Medicine) :
  (∀ a, a ∈ l → PharmacyMedicine_findOne c (_id a) = None) →
  promiseAll (withPharmacyInfo c) l = Returned (List.map (λ _, None) l).
Proof.
  induction l as [|a l IH]; intros Hall; [reflexivity|].
  cbn [promiseAll List.map]. unfold withPharmacyInfo at 1.
  rewrite (Hall a) by constructor.
  rewrite IH; [reflexivity|].
  intros a' Ha'. apply Hall. now constructor.
Qed.

Lemma notNull_all_null {A} (l : list A) :
  notNull (List.map (λ _, None) l) = [].
Proof. induction l; [reflexivity | assumption]. Qed.

(** When no curated alternative has a listing in stock, the curated branch
    leaves [alternatives] empty. *)
Lemma curated_all_dropped (c : Catalog) (medicine : Medicine) :
  (∀ a, a ∈ populateAlternatives c medicine → PharmacyMedicine_findOne c (_id a) = None) →
  curatedAlternatives c medicine = Returned [].
Proof.
  intros Hall. unfold curatedAlternatives.
  case_bool_decide; [|reflexivity].
  rewrite promiseAll_dropped by assumption.
  now rewrite notNull_all_null.
Qed.

Lemma length_pos_nil {A} (l : list A) : (0 < length l)%nat ↔ l ≠ [].
Proof. destruct l; cbn; split; intros; try lia; congruence. Qed.

(** C1, as stated, fails: medicine 1 of [catalog1] has a curated list whose
    only member is out of stock, and the handler answers with the
    active-ingredient match, under a source that is not ['none']. *)
Lemma C1_counterexample :
  Medicine_findById catalog1 1 = Some med1 ∧
  alternatives med1 ≠ [] ∧
  (∀ a, a ∈ populateAlternatives catalog1 med1 →
        PharmacyMedicine_findOne catalog1 (_id a) = None) ∧
  ¬ (∃ l, getMedicineAlternatives catalog1 1
          = {| code := 200; body := Alternatives l "none" |}) ∧
  body (getMedicineAlternatives catalog1 1)
    = Alternatives (findAlternativesByActiveIngredient catalog1 med1) "predefined" ∧
  findAlternativesByActiveIngredient catalog1 med1 = [alt3].
Proof.
  split; [reflexivity|].
  split; [discriminate|].
  split.
  { intros a Ha. vm_compute in Ha.
    apply list_elem_of_In in Ha. destruct Ha as [<-|[]]. reflexivity. }
  split.
  { intros [l Hl]. vm_compute in Hl. discriminate Hl. }
  split; reflexivity.
Qed.

(** C1, amended: when the curated list of a medicine is not empty and every
    curated alternative is dropped for want of an available listing in
    stock, the handler falls back to active-ingredient matching: it answers
    200 with what [findAlternativesByActiveIngredient] returns, and the
    source is ['none'] exactly when that is empty too. *)
Theorem C1_all_curated_dropped_falls_back (c : Catalog) (id : ObjectId) (medicine : Medicine) :
  Medicine_findById c id = Some medicine →
  isDeleted medicine = false →
  alternatives medicine ≠ [] →
  (∀ a, a ∈ populateAlternatives c medicine → PharmacyMedicine_findOne c (_id a) = None) →
  ∃ source,
    getMedicineAlternatives c id
      = {| code := 200;
           body := Alternatives (findAlternativesByActiveIngredient c medicine) source |}
    ∧ (source = "none" ↔ findAlternativesByActiveIngredient c medicine = []).
Proof.
  intros Hfind Hdel Hne Hall.
  exists (sourceTag medicine (findAlternativesByActiveIngredient c medicine)).
  split.
  - unfold getMedicineAlternatives. rewrite Hfind, Hdel.
    rewrite curated_all_dropped by assumption. reflexivity.
  - unfold sourceTag.
    apply length_pos_nil in Hne.
    rewrite (bool_decide_eq_true_2 _ Hne).
    case_bool_decide as Hlen.
    + split; [discriminate|]. intros E. rewrite E in Hlen. cbn in Hlen. lia.
    + split; [|reflexivity]. intros _.
      destruct (findAlternativesByActiveIngredient c medicine); [reflexivity|].
      cbn in Hlen. lia.
Qed.

Lemma C1_all_curated_dropped_falls_back_witness :
  ∃ source,
    getMedicineAlternatives catalog1 1
      = {| code := 200;
           body := Alternatives (findAlternativesByActiveIngredient catalog1 med1) source |}
    ∧ (source = "none" ↔ findAlternativesByActiveIngredient catalog1 med1 = []).
Proof.
  apply (C1_all_curated_dropped_falls_back catalog1 1 med1).
  - reflexivity.
  - reflexivity.
  - discriminate.
  - intros a Ha. vm_compute in Ha.
    apply list_elem_of_In in Ha. destruct Ha as [<-|[]]. reflexivity.
Defined.

(** C3 at a failing input: for medicine 10 of [catalog2] the curated branch
    keeps nothing, the alternatives returned are those of the
    active-ingredient fallback, and the handler tags them ['predefined']. *)
Theorem C3_fallback_result_tagged_predefined :
  curatedAlternatives catalog2 med10 = Returned [] ∧
  findAlternativesByActiveIngredient catalog2 med10
    = [ {| alt := med13;
           pharmacyInfo :=
             {| pharmacyId := 2; pharmacyName := "Nile"; price := 25; stock := 8;
                discount := 10; info_isAvailable := true |} |} ] ∧
  getMedicineAlternatives catalog2 10
    = {| code := 200;
         body := Alternatives (findAlternativesByActiveIngredient catalog2 med10)
                   "predefined" |}.
Proof. repeat split; reflexivity. Qed.

End ResolverFacts.

(** * Properties of the reminder handlers *)

(** ** Dates *)

Section ClockFacts.

Variable z : Zone.

Lemma dayIndex_setHours t h m s ms :
  0 ≤ h * msPerHour + m * msPerMinute + s * 1000 + ms < msPerDay →
  dayIndex z (setHours z t h m s ms) = dayIndex z t.
Proof.
  intros Hr. unfold setHours. rewrite dayIndex_utc. now apply dayOf_within.
Qed.

Lemma dayIndex_startOfDay t : dayIndex z (startOfDay z t) = dayIndex z t.
Proof. apply dayIndex_setHours. unfold msPerHour, msPerMinute, msPerDay. lia. Qed.

Lemma dayIndex_endOfDay t : dayIndex z (endOfDay z t) = dayIndex z t.
Proof. apply dayIndex_setHours. unfold msPerHour, msPerMinute, msPerDay. lia. Qed.

(** An instant read from a local time is not after the end of a day exactly
    when its calendar day is not after that day. *)
Lemma utc_le_endOfDay l e : utc z l ≤ endOfDay z e ↔ dayOf l ≤ dayIndex z e.
Proof.
  split.
  - intros Hle. apply (dayIndex_mono z) in Hle.
    now rewrite dayIndex_utc, dayIndex_endOfDay in Hle.
  - intros Hle. destruct (decide (dayOf l = dayIndex z e)) as [E|Hne].
    + pose proof (zone_end_is_last z l) as Hlast.
      unfold endOfDay, setHours, utc. fold (dayIndex z e). rewrite <- E.
      unfold lastMsOfDay in Hlast.
      replace (23 * msPerHour + 59 * msPerMinute + 59 * 1000 + 999) with (msPerDay - 1)
        by reflexivity.
      exact Hlast.
    + destruct (decide (utc z l ≤ endOfDay z e)) as [?|Hgt]; [assumption|].
      assert (endOfDay z e ≤ utc z l) as Hge by lia.
      apply (dayIndex_mono z) in Hge.
      rewrite dayIndex_utc, dayIndex_endOfDay in Hge. lia.
Qed.

Lemma startOfDay_le_endOfDay s e :
  startOfDay z s ≤ endOfDay z e ↔ dayIndex z s ≤ dayIndex z e.
Proof.
  unfold startOfDay at 1, setHours. rewrite utc_le_endOfDay.
  rewrite dayOf_within; [reflexivity|]. unfold msPerHour, msPerMinute, msPerDay. lia.
Qed.

Lemma next_le_endOfDay t e :
  addDays z t 1 ≤ endOfDay z e ↔ dayIndex z t + 1 ≤ dayIndex z e.
Proof.
  unfold addDays. rewrite decide_False by lia.
  rewrite utc_le_endOfDay, dayOf_add. reflexivity.
Qed.

Lemma dateOfTurn_next c k : dateOfTurn z (addDays z c 1) k = dateOfTurn z c (S k).
Proof. unfold dateOfTurn. now rewrite Nat.iter_succ_r. Qed.

Lemma dayIndex_dateOfTurn c k : dayIndex z (dateOfTurn z c k) = dayIndex z c + Z.of_nat k.
Proof.
  induction k as [|k IH]; [cbn; lia|].
  unfold dateOfTurn in *. rewrite Nat.iter_succ, dayIndex_next, IH. lia.
Qed.

End ClockFacts.

(** In a zone that keeps one offset, the days are the stretches of 24 hours
    from a local midnight. *)
Section FixedZoneFacts.

Variable tz : Z.

Lemma fixed_dayIndex t : dayIndex (fixed tz) t = (t + tz) `div` msPerDay.
Proof. reflexivity. Qed.

Lemma fixed_startOfDay t : startOfDay (fixed tz) t = dayIndex (fixed tz) t * msPerDay - tz.
Proof.
  unfold startOfDay, setHours, utc, dayIndex, localTime. cbn. lia.
Qed.

Lemma fixed_endOfDay t :
  endOfDay (fixed tz) t = dayIndex (fixed tz) t * msPerDay - tz + (msPerDay - 1).
Proof.
  unfold endOfDay, setHours, utc, dayIndex, localTime, msPerDay, msPerHour, msPerMinute.
  cbn. lia.
Qed.

Lemma fixed_addDays t n : addDays (fixed tz) t n = t + n * msPerDay.
Proof.
  unfold addDays, utc, localTime. cbn. case_decide; [subst; lia|lia].
Qed.

Lemma fixed_dateOfTurn c k : dateOfTurn (fixed tz) c k = c + Z.of_nat k * msPerDay.
Proof.
  induction k as [|k IH]; [cbn; lia|].
  unfold dateOfTurn in *. rewrite Nat.iter_succ, fixed_addDays, IH. lia.
Qed.

End FixedZoneFacts.

Lemma isoDate_utcMidnight date : isoDate (utcMidnight date) = date.
Proof. unfold isoDate, utcMidnight, msPerDay. apply Z.div_mul. lia. Qed.

(** ** The reminder collection *)

Lemma Reminder_findOne_Some id uid m r :
  Reminder_findOne id uid m = Some r ↔
  m !! id = Some r ∧ user r = uid ∧ isDeleted r = false.
Proof.
  unfold Reminder_findOne. split.
  - destruct (m !! id) as [r0|]; [|discriminate].
    case_bool_decide as Hu; destruct (isDeleted r0) eqn:Hd; cbn; intros [= <-]; auto.
  - intros (-> & Hu & Hd). rewrite Hd, (bool_decide_eq_true_2 _ Hu). reflexivity.
Qed.

Lemma Reminder_findOne_deleted id uid m r :
  m !! id = Some r → isDeleted r = true → Reminder_findOne id uid m = None.
Proof.
  intros Hm Hd. unfold Reminder_findOne. rewrite Hm, Hd.
  now rewrite andb_false_r.
Qed.

Lemma elem_of_docs d m : d ∈ docs m ↔ m !! _id d = Some (doc d).
Proof.
  unfold docs. rewrite list_elem_of_fmap. split.
  - intros [[k r] [-> Hin]]. now apply elem_of_map_to_list in Hin.
  - intros H. exists (_id d, doc d). split; [now destruct d|].
    now apply elem_of_map_to_list.
Qed.

Lemma docs_ids m : _id <$> docs m = (map_to_list m).*1.
Proof. unfold docs. rewrite <- list_fmap_compose. reflexivity. Qed.

Lemma NoDup_docs_ids m : NoDup (_id <$> docs m).
Proof. rewrite docs_ids. apply NoDup_fst_map_to_list. Qed.

Lemma elem_of_Reminder_find q d m :
  d ∈ Reminder_find q m ↔ m !! _id d = Some (doc d) ∧ q (doc d) = true.
Proof.
  unfold Reminder_find. rewrite list_elem_of_In, filter_In, <- list_elem_of_In.
  now rewrite elem_of_docs.
Qed.

Lemma NoDup_fmap_sublist {A B} (f : A → B) (l k : list A) :
  sublist l k → NoDup (f <$> k) → NoDup (f <$> l).
Proof.
  intros Hs Hk. eapply sublist_NoDup; [exact Hk|]. now apply fmap_sublist.
Qed.

Lemma filter_sublist {A} (p : A → bool) (l : list A) : sublist (List.filter p l) l.
Proof.
  induction l as [|x l IH]; cbn; [constructor|].
  destruct (p x); now constructor.
Qed.

Lemma NoDup_Reminder_find_ids q m : NoDup (_id <$> Reminder_find q m).
Proof.
  eapply NoDup_fmap_sublist; [apply filter_sublist|apply NoDup_docs_ids].
Qed.

Lemma elem_of_sortByTime d l : d ∈ sortByTime l ↔ d ∈ l.
Proof. unfold sortByTime. now rewrite merge_sort_Permutation. Qed.

Lemma NoDup_sortByTime_ids l : NoDup (_id <$> l) → NoDup (_id <$> sortByTime l).
Proof. unfold sortByTime. now rewrite merge_sort_Permutation. Qed.

Lemma alter_app_nil (uid : ObjectId) (us : gmap ObjectId (list ObjectId)) :
  alter (λ l, l ++ []) uid us = us.
Proof.
  apply map_eq. intros i. rewrite lookup_alter.
  case_decide as E; [|reflexivity]. rewrite <- E.
  destruct (us !! uid); cbn; [now rewrite app_nil_r|reflexivity].
Qed.

(** ** createReminder *)

Section GeneratorFacts.

Variable z : Zone.
Variables (uid : ObjectId) (b : CreateBody) (endDate0 : Z).

(** The end of the loop is the end of a day. *)
Let endDateTime : Z := endOfDay z endDate0.

Lemma createLoop_step currentDate m acc :
  createLoop z uid b endDateTime currentDate m acc =
  if decide (currentDate ≤ endDateTime) then
    let reminder := mkDoc (fresh (dom m)) (newReminder z uid b currentDate endDateTime) in
    createLoop z uid b endDateTime (addDays z currentDate 1) (save reminder m) (acc ++ [reminder])
  else (m, acc).
Proof.
  simp createLoop. destruct (decide (currentDate ≤ endDateTime)); simp createLoop; reflexivity.
Qed.

Lemma turns_pos currentDate :
  currentDate ≤ endDateTime → 1 ≤ turns z endDateTime currentDate.
Proof.
  intros Hle. unfold turns. rewrite (decide_True _ _ Hle).
  pose proof (dayIndex_mono z _ _ Hle). lia.
Qed.

Lemma turns_nonneg currentDate : 0 ≤ turns z endDateTime currentDate.
Proof.
  destruct (decide (currentDate ≤ endDateTime)) as [Hle|Hgt].
  - pose proof (turns_pos currentDate Hle). lia.
  - unfold turns. now rewrite decide_False.
Qed.

Lemma turns_next currentDate :
  currentDate ≤ endDateTime →
  turns z endDateTime (addDays z currentDate 1) = turns z endDateTime currentDate - 1.
Proof.
  intros Hle. pose proof (dayIndex_mono z _ _ Hle) as Hdays.
  unfold turns. rewrite (decide_True _ _ Hle), dayIndex_next.
  unfold endDateTime in *. rewrite dayIndex_endOfDay in *.
  case_decide as Hnext; [lia|].
  rewrite next_le_endOfDay in Hnext. lia.
Qed.

(** The loop always exits, after [turns z endDateTime currentDate] turns;
    turn [k] saves, under an [_id] new to the collection, the document of
    the date of that turn, which is not after [endDateTime]; the documents
    already there stay as they are. *)
Lemma createLoop_run (n : nat) : ∀ currentDate m acc,
  Z.of_nat n = turns z endDateTime currentDate →
  ∃ m' created,
    createLoop z uid b endDateTime currentDate m acc = (m', acc ++ created) ∧
    length created = n ∧
    (∀ (k : nat) d, created !! k = Some d →
       doc d = newReminder z uid b (dateOfTurn z currentDate k) endDateTime ∧
       dateOfTurn z currentDate k ≤ endDateTime ∧
       m !! _id d = None ∧ m' !! _id d = Some (doc d)) ∧
    NoDup (_id <$> created) ∧
    (∀ i r, m !! i = Some r → m' !! i = Some r) ∧
    (∀ i r, m' !! i = Some r → m !! i = Some r ∨ mkDoc i r ∈ created) ∧
    size m' = (size m + n)%nat.
Proof.
  induction n as [|n IH]; intros currentDate m acc Hn.
  - exists m, []. rewrite createLoop_step.
    assert (¬ currentDate ≤ endDateTime) as Hgt.
    { intros Hle. pose proof (turns_pos currentDate Hle). lia. }
    rewrite (decide_False _ _ Hgt), app_nil_r.
    repeat split; auto using NoDup_nil_2.
    all: try match goal with H : [] !! _ = Some _ |- _ => now rewrite lookup_nil in H end.
  - assert (currentDate ≤ endDateTime) as Hle.
    { destruct (decide (currentDate ≤ endDateTime)) as [H|H]; [exact H|].
      unfold turns in Hn. rewrite (decide_False _ _ H) in Hn. lia. }
    rewrite createLoop_step, (decide_True _ _ Hle). cbn zeta.
    set (reminder := mkDoc (fresh (dom m)) (newReminder z uid b currentDate endDateTime)).
    assert (m !! _id reminder = None) as Hfresh.
    { apply not_elem_of_dom. apply is_fresh. }
    destruct (IH (addDays z currentDate 1) (save reminder m) (acc ++ [reminder]))
      as (m' & created & Hrun & Hlen & Hdocs & Hnd & Hold & Hnew & Hsize).
    { rewrite turns_next by assumption. lia. }
    exists m', (reminder :: created).
    assert (∀ d, d ∈ created → _id d ≠ _id reminder) as Hother.
    { intros d Hd E. apply list_elem_of_lookup in Hd as [k Hk].
      destruct (Hdocs k d Hk) as (_ & _ & Hnone & _).
      unfold save in Hnone. rewrite E, lookup_insert_eq in Hnone. discriminate. }
    repeat split.
    + rewrite Hrun. rewrite <- app_assoc. reflexivity.
    + cbn. now rewrite Hlen.
    + destruct k as [|k]; cbn in *.
      * injection H as <-. reflexivity.
      * destruct (Hdocs k d H) as (Hdoc & _). rewrite Hdoc.
        now rewrite dateOfTurn_next.
    + destruct k as [|k]; cbn in H.
      * exact Hle.
      * destruct (Hdocs k d H) as (_ & Hk & _). now rewrite dateOfTurn_next in Hk.
    + destruct k as [|k]; cbn in *.
      * injection H as <-. exact Hfresh.
      * destruct (Hdocs k d H) as (_ & _ & Hnone & _).
        unfold save in Hnone.
        rewrite lookup_insert_ne in Hnone; [exact Hnone|].
        intros E. apply (Hother d); [|now symmetry].
        apply list_elem_of_lookup. now exists k.
    + destruct k as [|k]; cbn in *.
      * injection H as <-. apply Hold. unfold save. apply lookup_insert_eq.
      * now destruct (Hdocs k d H) as (_ & _ & _ & Hsome).
    + cbn. constructor; [|exact Hnd].
      intros Hin. apply list_elem_of_fmap in Hin as [d [E Hd]].
      now apply (Hother d).
    + intros i r Hi. apply Hold. unfold save.
      rewrite lookup_insert_ne; [exact Hi|]. intros E. subst i. congruence.
    + intros i r Hi. destruct (Hnew i r Hi) as [Hs|Hin].
      * unfold save in Hs. rewrite lookup_insert in Hs.
        case_decide as E; [|now left].
        right. injection Hs as <-. subst i. left.
      * right. now right.
    + rewrite Hsize. unfold save. rewrite map_size_insert_None by exact Hfresh. lia.
Qed.

End GeneratorFacts.

(** All that [createReminder] does to the database. *)
Lemma createReminder_spec z db uid b :
  ∃ m' created,
    createReminder z db uid b
    = ({| reminders := m'; users := alter (λ l, l ++ (_id <$> created)) uid (users db) |},
       {| code := 201; body := ReminderDocs created |}) ∧
    Z.of_nat (length created)
    = turns z (endOfDay z (cb_endDate b)) (startOfDay z (cb_startDate b)) ∧
    (∀ (k : nat) d, created !! k = Some d →
       doc d = newReminder z uid b
                 (dateOfTurn z (startOfDay z (cb_startDate b)) k)
                 (endOfDay z (cb_endDate b)) ∧
       dateOfTurn z (startOfDay z (cb_startDate b)) k ≤ endOfDay z (cb_endDate b) ∧
       reminders db !! _id d = None ∧ m' !! _id d = Some (doc d)) ∧
    NoDup (_id <$> created) ∧
    (∀ i r, reminders db !! i = Some r → m' !! i = Some r) ∧
    (∀ i r, m' !! i = Some r → reminders db !! i = Some r ∨ mkDoc i r ∈ created) ∧
    size m' = (size (reminders db) + length created)%nat.
Proof.
  pose proof (turns_nonneg z (cb_endDate b) (startOfDay z (cb_startDate b))) as Hnn.
  destruct (createLoop_run z uid b (cb_endDate b)
              (Z.to_nat (turns z (endOfDay z (cb_endDate b)) (startOfDay z (cb_startDate b))))
              (startOfDay z (cb_startDate b)) (reminders db) [])
    as (m' & created & Hrun & Hlen & Hdocs & Hnd & Hold & Hnew & Hsize); [lia|].
  exists m', created. unfold createReminder. rewrite Hrun. cbn.
  split; [reflexivity|].
  split; [rewrite Hlen; lia|].
  split; [exact Hdocs|]. split; [exact Hnd|]. split; [exact Hold|].
  split; [exact Hnew|]. now rewrite Hsize, Hlen.
Qed.







(** ** The validation of the schema *)

Lemma validates_spec strict r :
  validates strict r = true ↔
  (strict = true → validStatus (status r) = true) ∧
  Forall (λ e, validStatus (ds_status e) = true) (dailyStatuses r).
Proof.
  unfold validates. rewrite andb_true_iff, forallb_forall, Forall_forall.
  setoid_rewrite <- list_elem_of_In.
  destruct strict; cbn; intuition congruence.
Qed.

Lemma validates_pushed strict r t :
  validates strict r = true →
  validates strict (setDailyStatuses (dailyStatuses r ++ [activeEntry t]) r) = true.
Proof.
  rewrite !validates_spec. cbn. intros [Htop Hall]. split; [exact Htop|].
  apply Forall_app. split; [exact Hall|]. now constructor.
Qed.

Lemma validates_updated strict r i e :
  validates strict r = true → validStatus (ds_status e) = true →
  validates strict (setDailyStatuses (<[i := e]> (dailyStatuses r)) r) = true.
Proof.
  rewrite !validates_spec. cbn. intros [Htop Hall] He. split; [exact Htop|].
  now apply Forall_insert.
Qed.

Lemma validates_setStatus strict s t r :
  validates strict r = true → validStatus s = true →
  validates strict (setStatus s t r) = true.
Proof.
  rewrite !validates_spec. cbn. intros [_ Hall] Hs. split; [intros _; exact Hs|exact Hall].
Qed.

(** ** getRemindersByDate *)

Lemma pushedFor_found date q r ie :
  list_find (onDay date) (dailyStatuses r) = Some ie → pushedFor date q r = r.
Proof. intros H. unfold pushedFor. now rewrite H. Qed.

Lemma touch_found strict date q r ie :
  list_find (onDay date) (dailyStatuses r) = Some ie → touch strict date q r = r.
Proof.
  intros H. unfold touch. rewrite (pushedFor_found date q r ie H). now destruct (validates _ _).
Qed.

Lemma touch_pushed strict date q r :
  list_find (onDay date) (dailyStatuses r) = None →
  validates strict r = true →
  touch strict date q r = setDailyStatuses (dailyStatuses r ++ [activeEntry q]) r.
Proof.
  intros H Hv. unfold touch, pushedFor. rewrite H.
  now rewrite validates_pushed.
Qed.

Section ByDateFacts.

Variables (strict : bool) (date : DateText) (q e : Z).

Lemma attachStatus_eq m vs d :
  attachStatus strict date q (m, vs) d
  = (saveTouched strict date q m d, vs ++ [viewOf date q d]).
Proof.
  unfold attachStatus, saveTouched, viewOf, pushedFor, statusOn. cbn.
  destruct (list_find (onDay date) (dailyStatuses (doc d))) as [[i e0]|]; reflexivity.
Qed.

Lemma foldl_attachStatus l : ∀ m vs,
  foldl (attachStatus strict date q) (m, vs) l
  = (foldl (saveTouched strict date q) m l, vs ++ (viewOf date q <$> l)).
Proof.
  induction l as [|d l IH]; intros m vs; cbn.
  - now rewrite app_nil_r.
  - rewrite attachStatus_eq, IH. now rewrite <- app_assoc.
Qed.

Lemma saveTouched_lookup_eq m d :
  m !! _id d = Some (doc d) →
  saveTouched strict date q m d !! _id d = Some (touch strict date q (doc d)).
Proof.
  intros Hm. unfold saveTouched.
  destruct (list_find (onDay date) (dailyStatuses (doc d))) as [ie|] eqn:Hf.
  - now rewrite (touch_found strict date q (doc d) ie Hf).
  - unfold saveValid, touch. cbn [doc _id].
    destruct (validates strict (pushedFor date q (doc d))); [|exact Hm].
    unfold save. cbn. apply lookup_insert_eq.
Qed.

Lemma saveTouched_lookup_ne m d i :
  i ≠ _id d → saveTouched strict date q m d !! i = m !! i.
Proof.
  intros Hne. unfold saveTouched.
  destruct (list_find (onDay date) (dailyStatuses (doc d))); [reflexivity|].
  unfold saveValid. destruct (validates _ _); [|reflexivity].
  unfold save. cbn. now rewrite lookup_insert_ne.
Qed.

Lemma foldl_saveTouched_lookup l : ∀ m,
  NoDup (_id <$> l) →
  (∀ d, d ∈ l → m !! _id d = Some (doc d)) →
  ∀ i, foldl (saveTouched strict date q) m l !! i
       = if decide (i ∈ _id <$> l) then touch strict date q <$> m !! i else m !! i.
Proof.
  induction l as [|d l IH]; intros m Hnd Hin i; cbn.
  - rewrite decide_False; [reflexivity|]. apply not_elem_of_nil.
  - inversion Hnd as [|? ? Hnotin Hnd']; subst.
    rewrite IH; [|exact Hnd'|].
    2:{ intros d' Hd'. rewrite saveTouched_lookup_ne.
        - apply Hin. now right.
        - intros E. apply Hnotin. rewrite <- E. apply list_elem_of_fmap. now exists d'. }
    destruct (decide (i = _id d)) as [->|Hne].
    + rewrite (decide_False _ _ Hnotin).
      rewrite decide_True by now left.
      rewrite saveTouched_lookup_eq by (apply Hin; now left).
      rewrite (Hin d) by now left. reflexivity.
    + rewrite saveTouched_lookup_ne by exact Hne.
      destruct (decide (i ∈ _id <$> l)) as [Hi|Hi].
      * rewrite decide_True by now right. reflexivity.
      * rewrite decide_False; [reflexivity|].
        intros Hi'. apply elem_of_cons in Hi' as [?|?]; contradiction.
Qed.

Hypothesis Hstart : startOfText date = Some q.
Hypothesis Hend : endOfText date = Some e.

(** The handler in closed form, for a date text that denotes instants. *)
Lemma getRemindersByDate_closed (db : Db) (uid : ObjectId) :
  ∃ m',
    getRemindersByDate strict db uid date
    = ({| reminders := m'; users := users db |},
       {| code := 200;
          body := ReminderViews
            (viewOf date q <$>
               sortByTime (Reminder_find (overlaps uid q e) (reminders db))) |}) ∧
    ∀ i, m' !! i = touchIfOverlaps strict uid date q e <$> reminders db !! i.
Proof.
  set (p := overlaps uid q e).
  set (found := sortByTime (Reminder_find p (reminders db))).
  exists (foldl (saveTouched strict date q) (reminders db) found).
  split.
  - unfold getRemindersByDate. rewrite Hstart, Hend. fold p. fold found.
    now rewrite foldl_attachStatus.
  - intros i. rewrite foldl_saveTouched_lookup.
    + unfold touchIfOverlaps. fold p.
      destruct (decide (i ∈ _id <$> found)) as [Hi|Hi].
      * apply list_elem_of_fmap in Hi as [d [-> Hd]].
        apply elem_of_sortByTime, elem_of_Reminder_find in Hd as [Hm Hp].
        rewrite Hm. cbn. now rewrite Hp.
      * destruct (reminders db !! i) as [r|] eqn:Hm; [|reflexivity]. cbn.
        destruct (p r) eqn:Hp; [|reflexivity].
        exfalso. apply Hi. apply list_elem_of_fmap. exists (mkDoc i r).
        split; [reflexivity|]. now apply elem_of_sortByTime, elem_of_Reminder_find.
    + apply NoDup_sortByTime_ids, NoDup_Reminder_find_ids.
    + intros d Hd. now apply elem_of_sortByTime, elem_of_Reminder_find in Hd as [Hm _].
Qed.

(** The views of a response that belong to one overlapping reminder. *)
Lemma views_of_reminder (db : Db) (uid : ObjectId) (id : ObjectId) (r : Reminder) :
  reminders db !! id = Some r →
  overlaps uid q e r = true →
  ∀ v,
    v ∈ viewOf date q <$>
          sortByTime (Reminder_find (overlaps uid q e) (reminders db))
    ∧ view_id v = id
    ↔ v = viewOf date q (mkDoc id r).
Proof.
  intros Hm Hp v. split.
  - intros [Hin Hid]. apply list_elem_of_fmap in Hin as [d [-> Hd]].
    apply elem_of_sortByTime, elem_of_Reminder_find in Hd as [Hd _].
    cbn in Hid. destruct d as [i r']. cbn in *. subst i. congruence.
  - intros ->. split; [|reflexivity].
    apply list_elem_of_fmap. exists (mkDoc id r). split; [reflexivity|].
    now apply elem_of_sortByTime, elem_of_Reminder_find.
Qed.

End ByDateFacts.

Lemma startOfText_endOfText date :
  (∃ q e, startOfText date = Some q ∧ endOfText date = Some e) ∨
  (startOfText date = None ∧ endOfText date = None).
Proof. destruct date; cbn; eauto. Qed.

Lemma getRemindersByDate_reminders strict (db : Db) (uid : ObjectId) (date : DateText)
  (i : ObjectId) :
  reminders (getRemindersByDate strict db uid date).1 !! i
  = afterByDate strict uid date <$> reminders db !! i.
Proof.
  unfold afterByDate.
  destruct (startOfText_endOfText date) as [(q & e & Hq & He)|[Hq He]].
  - destruct (getRemindersByDate_closed strict date q e Hq He db uid) as (m' & -> & Hm').
    rewrite Hq, He. apply Hm'.
  - unfold getRemindersByDate. rewrite Hq. cbn. now destruct (reminders db !! i).
Qed.

Lemma getRemindersByDate_users strict (db : Db) (uid : ObjectId) (date : DateText) :
  users (getRemindersByDate strict db uid date).1 = users db.
Proof.
  destruct (startOfText_endOfText date) as [(q & e & Hq & He)|[Hq He]].
  - now destruct (getRemindersByDate_closed strict date q e Hq He db uid) as (m' & -> & _).
  - unfold getRemindersByDate. now rewrite Hq.
Qed.

(** The ids that a response of [getRemindersByDate] shows are those of the
    reminders that pass its filter. *)
Lemma getRemindersByDate_mentions strict (db : Db) (uid : ObjectId) (date : DateText)
  (id : ObjectId) :
  mentions id (body (getRemindersByDate strict db uid date).2) ↔
  ∃ q e r, startOfText date = Some q ∧ endOfText date = Some e ∧
           reminders db !! id = Some r ∧ overlaps uid q e r = true.
Proof.
  destruct (startOfText_endOfText date) as [(q & e & Hq & He)|[Hq He]].
  - destruct (getRemindersByDate_closed strict date q e Hq He db uid) as (m' & -> & _).
    cbn. rewrite <- list_fmap_compose. split.
    + intros Hin. apply list_elem_of_fmap in Hin as [d [E Hd]]. cbn in E.
      apply elem_of_sortByTime, elem_of_Reminder_find in Hd as [Hm Hp].
      exists q, e, (doc d). subst id. auto.
    + intros (q' & e' & r & Hq' & He' & Hm & Hp).
      rewrite Hq in Hq'. rewrite He in He'. injection Hq' as <-. injection He' as <-.
      apply list_elem_of_fmap. exists (mkDoc id r). split; [reflexivity|].
      now apply elem_of_sortByTime, elem_of_Reminder_find.
  - unfold getRemindersByDate. rewrite Hq. cbn. split; [tauto|].
    intros (q & e & r & Hq' & _). congruence.
Qed.

Lemma Db_eq (a b : Db) : reminders a = reminders b → users a = users b → a = b.
Proof. destruct a, b. cbn. now intros -> ->. Qed.

Lemma afterByDate_frame strict uid date r :
  user (afterByDate strict uid date r) = user r ∧
  isDeleted (afterByDate strict uid date r) = isDeleted r ∧
  status (afterByDate strict uid date r) = status r ∧
  isTaken (afterByDate strict uid date r) = isTaken r.
Proof.
  unfold afterByDate, touchIfOverlaps, touch, pushedFor.
  destruct (startOfText date), (endOfText date); try (repeat split; reflexivity).
  destruct (overlaps _ _ _ r); [|repeat split; reflexivity].
  destruct (list_find _ _); cbn; destruct (validates _ _); repeat split; reflexivity.
Qed.

(** The days of a reminder after [getRemindersByDate]: as before, or with
    one more day, which is new to the reminder when the text is canonical. *)
Lemma afterByDate_days strict uid date r :
  days (afterByDate strict uid date r) = days r ∨
  ∃ day, days (afterByDate strict uid date r) = days r ++ [day] ∧
         (canonical date → day ∉ days r).
Proof.
  unfold afterByDate.
  destruct (startOfText date) as [q|] eqn:Hq; [|now left].
  destruct (endOfText date) as [e|]; [|now left].
  unfold touchIfOverlaps. destruct (overlaps uid q e r); [|now left].
  unfold touch, pushedFor.
  destruct (list_find (onDay date) (dailyStatuses r)) eqn:Hf.
  { left. now destruct (validates _ _). }
  destruct (validates _ _); [|now left].
  right. exists (isoDate q). split.
  - unfold days. cbn. now rewrite fmap_app.
  - intros Hcan Hin. destruct date as [|day|]; try discriminate; [|contradiction].
    injection Hq as <-. rewrite isoDate_utcMidnight in Hin.
    apply list_elem_of_fmap in Hin as [x [Hx Hin]].
    apply list_find_None in Hf. rewrite Forall_forall in Hf.
    apply (Hf x Hin). unfold onDay. now symmetry.
Qed.

(** ** Date texts that are not the ISO text of a day *)

Lemma list_find_appended (date : DateText) (l : list DailyStatus) e :
  list_find (onDay date) l = None →
  onDay date e →
  list_find (onDay date) (l ++ [e]) = Some (length l, e).
Proof.
  intros Hnone Hon. apply list_find_Some. split; [|split].
  - rewrite lookup_app_r by lia. now rewrite Nat.sub_diag.
  - exact Hon.
  - intros j y Hj Hlt. rewrite lookup_app_l in Hj by exact Hlt.
    apply list_find_None in Hnone. rewrite Forall_forall in Hnone.
    apply Hnone. eapply list_elem_of_lookup_2. exact Hj.
Qed.

Lemma list_find_Loose q e (l : list DailyStatus) : list_find (onDay (Loose q e)) l = None.
Proof. apply list_find_None, Forall_forall. intros x _ H. exact H. Qed.

(** For the ISO text of a day, what the handler has done once it does not
    do again. *)
Lemma touch_Iso_idem strict day r :
  touch strict (Iso day) (utcMidnight day) (touch strict (Iso day) (utcMidnight day) r)
  = touch strict (Iso day) (utcMidnight day) r.
Proof.
  destruct (list_find (onDay (Iso day)) (dailyStatuses r)) as [ie|] eqn:Hf.
  - now rewrite !(touch_found strict _ _ r ie Hf).
  - set (pushed := setDailyStatuses (dailyStatuses r ++ [activeEntry (utcMidnight day)]) r).
    assert (touch strict (Iso day) (utcMidnight day) r
            = if validates strict pushed then pushed else r) as E
      by (unfold touch, pushedFor; now rewrite Hf).
    rewrite E. destruct (validates strict pushed) eqn:Hv; [|exact E].
    eapply touch_found. unfold pushed. cbn. apply list_find_appended; [exact Hf|].
    unfold onDay. cbn. apply isoDate_utcMidnight.
Qed.

Lemma getRemindersByDate_twice strict (db : Db) (uid : ObjectId) (day : Z) :
  (getRemindersByDate strict (getRemindersByDate strict db uid (Iso day)).1 uid (Iso day)).1
  = (getRemindersByDate strict db uid (Iso day)).1.
Proof.
  apply Db_eq.
  - apply map_eq. intros i. rewrite !getRemindersByDate_reminders.
    destruct (reminders db !! i) as [r|]; cbn; [|reflexivity]. f_equal.
    unfold afterByDate. cbn. unfold touchIfOverlaps.
    destruct (overlaps uid (utcMidnight day) (utcLastMs day) r) eqn:Ho.
    + assert (overlaps uid (utcMidnight day) (utcLastMs day)
                (touch strict (Iso day) (utcMidnight day) r) = true) as ->.
      { rewrite <- Ho. unfold touch, pushedFor.
        destruct (list_find _ _); [now destruct (validates _ _)|].
        now destruct (validates _ _). }
      apply touch_Iso_idem.
    + now rewrite Ho.
  - now rewrite !getRemindersByDate_users.
Qed.

(** C5: with a date text that denotes a day without being the ISO text of
    that day, the entry that the first call pushes is not found by the
    second call, which pushes and saves another one: the state of the
    reminder changes at every call. *)
Theorem C5_second_call_pushes_again
  (strict : bool) (db : Db) (uid : ObjectId) (q e : Z) (id : ObjectId) (r : Reminder) :
  reminders db !! id = Some r →
  overlaps uid q e r = true →
  validates strict r = true →
  let entry := {| ds_date := q; ds_status := "active"; ds_isTaken := false |} in
  let r1 := setDailyStatuses (dailyStatuses r ++ [entry]) r in
  let r2 := setDailyStatuses (dailyStatuses r ++ [entry; entry]) r in
  ∃ db1 db2 views1 views2,
    getRemindersByDate strict db uid (Loose q e)
      = (db1, {| code := 200; body := ReminderViews views1 |}) ∧
    reminders db1 !! id = Some r1 ∧
    (∀ v, v ∈ views1 ∧ view_id v = id ↔ v = mkView id r1 entry) ∧
    getRemindersByDate strict db1 uid (Loose q e)
      = (db2, {| code := 200; body := ReminderViews views2 |}) ∧
    reminders db2 !! id = Some r2 ∧
    (∀ v, v ∈ views2 ∧ view_id v = id ↔ v = mkView id r2 entry) ∧
    db2 ≠ db1.
Proof.
  intros Hm Ho Hv entry r1 r2.
  assert (∀ x, overlaps uid q e x = true → validates strict x = true →
            touchIfOverlaps strict uid (Loose q e) q e x
            = setDailyStatuses (dailyStatuses x ++ [entry]) x) as Htouch.
  { intros x Hx Hvx. unfold touchIfOverlaps. rewrite Hx.
    apply touch_pushed; [apply list_find_Loose|exact Hvx]. }
  assert (∀ x, viewOf (Loose q e) q (mkDoc id x)
               = mkView id (setDailyStatuses (dailyStatuses x ++ [entry]) x) entry) as Hview.
  { intros x. unfold viewOf, pushedFor, statusOn. cbn. now rewrite list_find_Loose. }
  destruct (getRemindersByDate_closed strict (Loose q e) q e eq_refl eq_refl db uid)
    as (m1 & E1 & Hm1).
  set (db1 := {| reminders := m1; users := users db |}) in *.
  assert (reminders db1 !! id = Some r1) as Hr1.
  { cbn. rewrite Hm1, Hm. cbn. now rewrite Htouch. }
  assert (overlaps uid q e r1 = true) as Ho1 by exact Ho.
  assert (validates strict r1 = true) as Hv1 by now apply validates_pushed.
  destruct (getRemindersByDate_closed strict (Loose q e) q e eq_refl eq_refl db1 uid)
    as (m2 & E2 & Hm2).
  set (db2 := {| reminders := m2; users := users db1 |}) in *.
  assert (reminders db2 !! id = Some r2) as Hr2.
  { cbn. rewrite Hm2, Hr1. cbn. rewrite Htouch by assumption.
    unfold r1, r2. cbn. now rewrite <- app_assoc. }
  exists db1, db2. eexists _, _.
  split; [exact E1|]. split; [exact Hr1|].
  split.
  { intros v. rewrite (views_of_reminder (Loose q e) q e db uid id r Hm Ho v).
    now rewrite Hview. }
  split; [exact E2|]. split; [exact Hr2|].
  split.
  { intros v. rewrite (views_of_reminder (Loose q e) q e db1 uid id r1 Hr1 Ho1 v).
    rewrite Hview. unfold r1, r2. cbn. now rewrite <- app_assoc. }
  intros E. rewrite E, Hr1 in Hr2. injection Hr2 as Hr2.
  apply (f_equal length) in Hr2. rewrite !length_app in Hr2. cbn in Hr2. lia.
Qed.

Lemma C5_second_call_pushes_again_witness :
  let entry :=
    {| ds_date := utcMidnight firstOfMarch; ds_status := "active"; ds_isTaken := false |} in
  let r1 := setDailyStatuses (dailyStatuses marchReminder ++ [entry]) marchReminder in
  let r2 := setDailyStatuses (dailyStatuses marchReminder ++ [entry; entry]) marchReminder in
  ∃ db1 db2 views1 views2,
    getRemindersByDate true marchDb 1 feb30
      = (db1, {| code := 200; body := ReminderViews views1 |}) ∧
    reminders db1 !! 7%positive = Some r1 ∧
    (∀ v, v ∈ views1 ∧ view_id v = 7%positive ↔ v = mkView 7 r1 entry) ∧
    getRemindersByDate true db1 1 feb30
      = (db2, {| code := 200; body := ReminderViews views2 |}) ∧
    reminders db2 !! 7%positive = Some r2 ∧
    (∀ v, v ∈ views2 ∧ view_id v = 7%positive ↔ v = mkView 7 r2 entry) ∧
    db2 ≠ db1.
Proof.
  apply (C5_second_call_pushes_again true marchDb 1 (utcMidnight firstOfMarch)
           (utcLastMs firstOfMarch) 7 marchReminder);
    vm_compute; reflexivity.
Defined.

(** ** markReminderAsTaken *)

Lemma isoDate_today now : isoDate (utcMidnight (isoDate now)) = isoDate now.
Proof. apply isoDate_utcMidnight. Qed.

Section MarkFacts.

Variables (now : Z) (date : DateText) (t : Z) (s : string).

(** [markEntry] when the [find] gives an entry: the entry is changed. *)
Lemma markEntry_found r i e0 :
  list_find (onDay date) (dailyStatuses r) = Some (i, e0) →
  let r1 := setDailyStatuses (<[i := marked s e0]> (dailyStatuses r)) r in
  markEntry now date t s r
  = (if bool_decide (isoDate t = isoDate now)
     then setStatus s (bool_decide (s = "completed")) r1 else r1,
     marked s e0).
Proof.
  intros Hf r1. unfold markEntry. rewrite Hf. cbn zeta.
  now rewrite isoDate_today.
Qed.

(** [markEntry] when the [find] gives none: a default entry is stored, and
    the object that the answer shows is changed. *)
Lemma markEntry_pushed r :
  list_find (onDay date) (dailyStatuses r) = None →
  let r1 := setDailyStatuses (dailyStatuses r ++ [activeEntry t]) r in
  markEntry now date t s r
  = (if bool_decide (isoDate t = isoDate now)
     then setStatus s (bool_decide (s = "completed")) r1 else r1,
     marked s (activeEntry t)).
Proof.
  intros Hf r1. unfold markEntry. rewrite Hf. cbn zeta.
  now rewrite isoDate_today.
Qed.

Lemma markEntry_frame r :
  user (markEntry now date t s r).1 = user r ∧
  isDeleted (markEntry now date t s r).1 = isDeleted r ∧
  deletedAt (markEntry now date t s r).1 = deletedAt r ∧
  startDate (markEntry now date t s r).1 = startDate r ∧
  endDate (markEntry now date t s r).1 = endDate r ∧
  time (markEntry now date t s r).1 = time r.
Proof.
  unfold markEntry.
  destruct (list_find (onDay date) (dailyStatuses r)) as [[i e]|]; cbn;
    destruct (bool_decide (isoDate t = isoDate (utcMidnight (isoDate now))));
    cbn; repeat split; reflexivity.
Qed.

(** The days of a reminder after [markEntry]: as before, or with one more
    day, which is new to the reminder when the text is canonical. *)
Lemma markEntry_days r :
  startOfText date = Some t →
  days (markEntry now date t s r).1 = days r ∨
  ∃ day, days (markEntry now date t s r).1 = days r ++ [day] ∧
         (canonical date → day ∉ days r).
Proof.
  intros Ht.
  destruct (list_find (onDay date) (dailyStatuses r)) as [[i e0]|] eqn:Hf.
  - left. rewrite (markEntry_found r i e0 Hf). cbn zeta.
    assert (∀ l, (λ x, isoDate (ds_date x)) <$> <[i := marked s e0]> l
                 = <[i := isoDate (ds_date e0)]> ((λ x, isoDate (ds_date x)) <$> l)) as Hins
      by (intros l; now rewrite list_fmap_insert).
    assert (days (setDailyStatuses (<[i := marked s e0]> (dailyStatuses r)) r) = days r) as E.
    { unfold days. cbn. rewrite Hins. apply list_insert_id.
      apply list_find_Some in Hf as (Hi & _ & _).
      rewrite list_lookup_fmap, Hi. reflexivity. }
    now destruct (bool_decide _).
  - right. exists (isoDate t). rewrite (markEntry_pushed r Hf). cbn zeta. split.
    + assert (days (setDailyStatuses (dailyStatuses r ++ [activeEntry t]) r)
              = days r ++ [isoDate t]) as E
        by (unfold days; cbn; now rewrite fmap_app).
      now destruct (bool_decide _).
    + intros Hcan Hin. destruct date as [|day|]; try discriminate; [|contradiction].
      injection Ht as <-. rewrite isoDate_utcMidnight in Hin.
      apply list_elem_of_fmap in Hin as [x [Hx Hin]].
      apply list_find_None in Hf. rewrite Forall_forall in Hf.
      apply (Hf x Hin). unfold onDay. now symmetry.
Qed.

End MarkFacts.

(** The handler once the reminder is found, for a date text that denotes
    an instant. *)
Lemma markReminderAsTaken_found strict db uid now id date t s r :
  Reminder_findOne id uid (reminders db) = Some r →
  s ≠ "" →
  startOfText date = Some t →
  markReminderAsTaken strict db uid now id (Some date) (Some s)
  = if validates strict (markEntry now date t s r).1 then
      ({| reminders := <[id := (markEntry now date t s r).1]> (reminders db);
          users := users db |},
       {| code := 200;
          body := OneView (mkView id (markEntry now date t s r).1
                             (markEntry now date t s r).2) |})
    else (db, {| code := 500; body := Failure "Error marking reminder as taken" |}).
Proof.
  intros Hfind Hs Ht. unfold markReminderAsTaken. cbn [noDate falsy orb].
  rewrite (bool_decide_eq_false_2 _ Hs), Hfind, Ht.
  now destruct (markEntry now date t s r).
Qed.

(** The database after the handler, whatever it answers. *)
Lemma markReminderAsTaken_lookup strict db uid now id od st i r' :
  reminders (markReminderAsTaken strict db uid now id od st).1 !! i = Some r' →
  ∃ r, reminders db !! i = Some r ∧
       (r' = r ∨
        ∃ date t s, od = Some date ∧ startOfText date = Some t ∧ st = Some s ∧
                    i = id ∧ user r = uid ∧ isDeleted r = false ∧
                    r' = (markEntry now date t s r).1 ∧ validates strict r' = true).
Proof.
  unfold markReminderAsTaken.
  destruct (noDate od || falsy st); [cbn; intros; exists r'; auto|].
  destruct (Reminder_findOne id uid (reminders db)) as [r|] eqn:Hfind;
    [|cbn; intros; exists r'; auto].
  destruct od as [date|], st as [s|]; try (cbn; intros; exists r'; auto; fail).
  destruct (startOfText date) as [t|] eqn:Ht; [|cbn; intros; exists r'; auto].
  destruct (markEntry now date t s r) as [r1 e] eqn:Hmark.
  destruct (validates strict r1) eqn:Hv; [|cbn; intros; exists r'; auto].
  cbn. unfold save. cbn.
  apply Reminder_findOne_Some in Hfind as (Hm & Hu & Hd).
  rewrite lookup_insert. case_decide as E.
  - intros [= <-]. subst i. exists r. split; [exact Hm|]. right.
    exists date, t, s. rewrite Hmark. cbn. auto 10.
  - intros Hi. exists r'. auto.
Qed.

Lemma markReminderAsTaken_users strict db uid now id od st :
  users (markReminderAsTaken strict db uid now id od st).1 = users db.
Proof.
  unfold markReminderAsTaken.
  destruct (noDate od || falsy st); [reflexivity|].
  destruct (Reminder_findOne _ _ _); [|reflexivity].
  destruct od as [date|], st as [s|]; try reflexivity.
  destruct (startOfText date); [|reflexivity].
  destruct (markEntry _ _ _ _ _). now destruct (validates _ _).
Qed.

(** The reminder that a response of the handler shows is the one named. *)
Lemma markReminderAsTaken_mentions strict db uid now id od st i :
  mentions i (body (markReminderAsTaken strict db uid now id od st).2) →
  i = id ∧ ∃ r, Reminder_findOne id uid (reminders db) = Some r.
Proof.
  unfold markReminderAsTaken.
  destruct (noDate od || falsy st); [cbn; tauto|].
  destruct (Reminder_findOne id uid (reminders db)) as [r|] eqn:Hfind; [|cbn; tauto].
  destruct od as [date|], st as [s|]; try (cbn; tauto).
  destruct (startOfText date); [|cbn; tauto].
  destruct (markEntry _ _ _ _ _). destruct (validates _ _); cbn; [|tauto].
  intros <-. eauto.
Qed.

Lemma validates_marked_found strict now date t s r i e0 :
  list_find (onDay date) (dailyStatuses r) = Some (i, e0) →
  validates strict r = true →
  validates strict (markEntry now date t s r).1 = validStatus s.
Proof.
  intros Hf Hv. rewrite (markEntry_found now date t s r i e0 Hf). cbn zeta.
  apply list_find_Some in Hf as (Hi & _ & _).
  destruct (validStatus s) eqn:Hs.
  - destruct (bool_decide _).
    + apply validates_setStatus; [|exact Hs]. now apply validates_updated.
    + now apply validates_updated.
  - assert (∀ x, dailyStatuses x = <[i := marked s e0]> (dailyStatuses r) →
                 validates strict x = false) as Hbad.
    { intros x Hx. unfold validates. rewrite Hx. apply andb_false_iff. right.
      apply not_true_is_false. rewrite forallb_forall. intros Hall.
      assert (marked s e0 ∈ <[i := marked s e0]> (dailyStatuses r)) as Hin.
      { eapply list_elem_of_lookup_2. apply list_lookup_insert_eq.
        now apply lookup_lt_Some in Hi. }
      apply list_elem_of_In, Hall in Hin. cbn in Hin. congruence. }
    destruct (bool_decide _); now apply Hbad.
Qed.

Lemma validates_marked_pushed strict now date t s r :
  list_find (onDay date) (dailyStatuses r) = None →
  validates strict r = true →
  (isoDate t = isoDate now → strict = true → validStatus s = true) →
  validates strict (markEntry now date t s r).1 = true.
Proof.
  intros Hf Hv Htop. rewrite (markEntry_pushed now date t s r Hf). cbn zeta.
  pose proof (validates_pushed strict r t Hv) as Hp.
  destruct (bool_decide_reflect (isoDate t = isoDate now)) as [Htoday|_]; [|exact Hp].
  apply validates_spec in Hp as [_ Hall]. apply validates_spec. cbn.
  split; [now apply Htop|exact Hall].
Qed.

(** C4: when the reminder has no entry for the date, the entry that the
    handler creates is stored with the default status, active and not
    taken, whatever status is given; only the answer, and the top-level
    fields when the date is the current date, show the given status. *)
Theorem C4_created_entry_keeps_default
  (strict : bool) (db : Db) (uid : ObjectId) (now : Z) (id : ObjectId) (day : Z) (s : string)
  (r : Reminder) :
  Reminder_findOne id uid (reminders db) = Some r →
  list_find (onDay (Iso day)) (dailyStatuses r) = None →
  validates strict r = true →
  validStatus s = true →
  let created := {| ds_date := utcMidnight day; ds_status := "active"; ds_isTaken := false |} in
  let shown := {| ds_date := utcMidnight day; ds_status := s;
                  ds_isTaken := bool_decide (s = "completed") |} in
  ∃ r',
    markReminderAsTaken strict db uid now id (Some (Iso day)) (Some s)
      = ({| reminders := <[id := r']> (reminders db); users := users db |},
         {| code := 200; body := OneView (mkView id r' shown) |}) ∧
    dailyStatuses r' = dailyStatuses r ++ [created] ∧
    list_find (onDay (Iso day)) (dailyStatuses r') = Some (length (dailyStatuses r), created) ∧
    (day = isoDate now →
       status r' = s ∧ isTaken r' = bool_decide (s = "completed")) ∧
    (day ≠ isoDate now → status r' = status r ∧ isTaken r' = isTaken r).
Proof.
  intros Hfind Hf Hv Hs created shown.
  assert (s ≠ "") as Hne by (intros ->; vm_compute in Hs; discriminate).
  rewrite (markReminderAsTaken_found strict db uid now id (Iso day) (utcMidnight day) s r
             Hfind Hne eq_refl).
  rewrite validates_marked_pushed; [|exact Hf|exact Hv|auto].
  rewrite (markEntry_pushed now (Iso day) (utcMidnight day) s r Hf). cbn zeta.
  rewrite isoDate_utcMidnight.
  eexists. split; [reflexivity|].
  assert (list_find (onDay (Iso day)) (dailyStatuses r ++ [created])
          = Some (length (dailyStatuses r), created)) as Hfound.
  { apply list_find_appended; [exact Hf|]. unfold onDay. cbn. apply isoDate_utcMidnight. }
  destruct (bool_decide_reflect (day = isoDate now)) as [Htoday|Htoday]; cbn.
  all: split; [reflexivity|].
  all: split; [exact Hfound|].
  all: split; intros; try contradiction; split; reflexivity.
Qed.

Lemma C4_created_entry_keeps_default_witness :
  let created := {| ds_date := utcMidnight 1; ds_status := "active"; ds_isTaken := false |} in
  let shown := {| ds_date := utcMidnight 1; ds_status := "completed";
                  ds_isTaken := bool_decide ("completed" = "completed") |} in
  ∃ r',
    markReminderAsTaken true sampleDb 1 (noonOfDay 1) 5 (Some (Iso 1)) (Some "completed")
      = ({| reminders := <[5%positive := r']> (reminders sampleDb); users := users sampleDb |},
         {| code := 200; body := OneView (mkView 5 r' shown) |}) ∧
    dailyStatuses r' = dailyStatuses sampleReminder ++ [created] ∧
    list_find (onDay (Iso 1)) (dailyStatuses r')
      = Some (length (dailyStatuses sampleReminder), created) ∧
    (1 = isoDate (noonOfDay 1) →
       status r' = "completed" ∧ isTaken r' = bool_decide ("completed" = "completed")) ∧
    (1 ≠ isoDate (noonOfDay 1) →
       status r' = status sampleReminder ∧ isTaken r' = isTaken sampleReminder).
Proof.
  apply (C4_created_entry_keeps_default true sampleDb 1 (noonOfDay 1) 5 1 "completed"
           sampleReminder); vm_compute; reflexivity.
Defined.

(** C9, as stated, fails on a status outside the enum: the save is
    rejected, the answer is 500, and the entry keeps its status. *)
Lemma C9_counterexample :
  markReminderAsTaken false sampleDb 1 (noonOfDay 0) 5 (Some (Iso 0)) (Some "Completed!")
  = (sampleDb, {| code := 500; body := Failure "Error marking reminder as taken" |}) ∧
  markReminderAsTaken true sampleDb 1 (noonOfDay 0) 5 (Some (Iso 0)) (Some "Completed!")
  = (sampleDb, {| code := 500; body := Failure "Error marking reminder as taken" |}) ∧
  reminders sampleDb !! 5%positive = Some sampleReminder ∧
  list_find (onDay (Iso 0)) (dailyStatuses sampleReminder) = Some (0%nat, activeEntry 0).
Proof. repeat split; vm_compute; reflexivity. Qed.

(** C9, amended: on a reminder that satisfies the schema and has an entry
    for the date, a status of the enum is stored as it is on that entry,
    [isTaken] on the entry, and on the reminder when the date is the
    current date, is true exactly when the status is ['completed'], and the
    top-level fields keep their values when the date is another one.  A
    status that is not empty and not in the enum is refused when the
    document is saved: the answer is 500 and nothing is stored. *)
Theorem C9_status_checked_against_enum
  (strict : bool) (db : Db) (uid : ObjectId) (now : Z) (id : ObjectId) (day : Z) (s : string)
  (r : Reminder) (i : nat) (e0 : DailyStatus) :
  Reminder_findOne id uid (reminders db) = Some r →
  list_find (onDay (Iso day)) (dailyStatuses r) = Some (i, e0) →
  validates strict r = true →
  s ≠ "" →
  (s ∈ statusEnum →
     ∃ r' e,
       markReminderAsTaken strict db uid now id (Some (Iso day)) (Some s)
         = ({| reminders := <[id := r']> (reminders db); users := users db |},
            {| code := 200; body := OneView (mkView id r' e) |}) ∧
       list_find (onDay (Iso day)) (dailyStatuses r') = Some (i, e) ∧
       ds_date e = ds_date e0 ∧
       ds_status e = s ∧
       (ds_isTaken e = true ↔ s = "completed") ∧
       (∀ j, j ≠ i → dailyStatuses r' !! j = dailyStatuses r !! j) ∧
       (day = isoDate now → status r' = s ∧ (isTaken r' = true ↔ s = "completed")) ∧
       (day ≠ isoDate now → status r' = status r ∧ isTaken r' = isTaken r)) ∧
  (s ∉ statusEnum →
     markReminderAsTaken strict db uid now id (Some (Iso day)) (Some s)
     = (db, {| code := 500; body := Failure "Error marking reminder as taken" |})).
Proof.
  intros Hfind Hf Hv Hne.
  rewrite (markReminderAsTaken_found strict db uid now id (Iso day) (utcMidnight day) s r
             Hfind Hne eq_refl).
  rewrite (validates_marked_found strict now (Iso day) (utcMidnight day) s r i e0 Hf Hv).
  unfold validStatus. split; intros Hs.
  - rewrite (bool_decide_eq_true_2 _ Hs).
    rewrite (markEntry_found now (Iso day) (utcMidnight day) s r i e0 Hf). cbn zeta.
    rewrite isoDate_utcMidnight.
    assert (list_find (onDay (Iso day)) (<[i := marked s e0]> (dailyStatuses r))
            = Some (i, marked s e0)) as Hf'.
    { apply list_find_Some in Hf as (Hi & Hon & Hbefore).
      apply list_find_Some. split; [|split].
      - apply list_lookup_insert_eq. now apply lookup_lt_Some in Hi.
      - exact Hon.
      - intros j y Hj Hlt. rewrite list_lookup_insert_ne in Hj by lia.
        now apply (Hbefore j). }
    eexists _, (marked s e0). split; [reflexivity|].
    destruct (bool_decide_reflect (day = isoDate now)) as [Htoday|Htoday]; cbn.
    all: split; [exact Hf'|].
    all: do 2 (split; [reflexivity|]).
    all: split; [apply bool_decide_eq_true|].
    all: split; [intros j Hj; now apply list_lookup_insert_ne|].
    all: split; intros; try contradiction; split; try reflexivity.
    all: apply bool_decide_eq_true.
  - now rewrite (bool_decide_eq_false_2 _ Hs).
Qed.

Lemma C9_status_checked_against_enum_witness :
  ("missed" ∈ statusEnum →
     ∃ r' e,
       markReminderAsTaken true sampleDb 1 (noonOfDay 0) 5 (Some (Iso 0)) (Some "missed")
         = ({| reminders := <[5%positive := r']> (reminders sampleDb);
               users := users sampleDb |},
            {| code := 200; body := OneView (mkView 5 r' e) |}) ∧
       list_find (onDay (Iso 0)) (dailyStatuses r') = Some (0%nat, e) ∧
       ds_date e = ds_date (activeEntry 0) ∧
       ds_status e = "missed" ∧
       (ds_isTaken e = true ↔ "missed" = "completed") ∧
       (∀ j, j ≠ 0%nat → dailyStatuses r' !! j = dailyStatuses sampleReminder !! j) ∧
       (0 = isoDate (noonOfDay 0) →
          status r' = "missed" ∧ (isTaken r' = true ↔ "missed" = "completed")) ∧
       (0 ≠ isoDate (noonOfDay 0) →
          status r' = status sampleReminder ∧ isTaken r' = isTaken sampleReminder)) ∧
  ("missed" ∉ statusEnum →
     markReminderAsTaken true sampleDb 1 (noonOfDay 0) 5 (Some (Iso 0)) (Some "missed")
     = (sampleDb, {| code := 500; body := Failure "Error marking reminder as taken" |})).
Proof.
  apply (C9_status_checked_against_enum true sampleDb 1 (noonOfDay 0) 5 0 "missed"
           sampleReminder 0 (activeEntry 0)).
  - vm_compute. reflexivity.
  - vm_compute. reflexivity.
  - vm_compute. reflexivity.
  - discriminate.
Defined.

(** C7: the handler answers 400 exactly when the date or the status of the
    body is missing (absent or empty), and then echoes both as received;
    when both are there and the user has no such undeleted reminder it
    answers 404; the database is the same after either answer. *)
Theorem C7_markTaken_validation_and_not_found
  (strict : bool) (db : Db) (uid : ObjectId) (now : Z) (id : ObjectId)
  (date : option DateText) (st : option string) :
  let out := markReminderAsTaken strict db uid now id date st in
  (code out.2 = 400 ↔ date = None ∨ st = None ∨ st = Some "") ∧
  (date = None ∨ st = None ∨ st = Some "" →
     out = (db, {| code := 400;
                   body := Received "Date and status are required" date st |})) ∧
  ((∃ d s, date = Some d ∧ st = Some s ∧ s ≠ "") →
   (¬ ∃ r, reminders db !! id = Some r ∧ user r = uid ∧ isDeleted r = false) →
     out = (db, {| code := 404; body := Message "Reminder not found" |})).
Proof.
  cbn zeta.
  assert (noDate date || falsy st = true ↔ date = None ∨ st = None ∨ st = Some "") as Hmiss.
  { destruct date as [d|], st as [s|]; cbn; try (split; [intros _|]; auto; fail).
    rewrite bool_decide_eq_true. split; [intros ->; auto|].
    intros [?|[?|?]]; congruence. }
  assert (date = None ∨ st = None ∨ st = Some "" →
          markReminderAsTaken strict db uid now id date st
          = (db, {| code := 400;
                    body := Received "Date and status are required" date st |})) as H400.
  { intros Hm. apply Hmiss in Hm. unfold markReminderAsTaken. now rewrite Hm. }
  split; [|split].
  - split; [|intros Hm; now rewrite (H400 Hm)].
    intros Hcode. apply Hmiss.
    destruct (noDate date || falsy st) eqn:E; [reflexivity|].
    unfold markReminderAsTaken in Hcode. rewrite E in Hcode.
    destruct (Reminder_findOne id uid (reminders db)); [|discriminate Hcode].
    destruct date as [d|], st as [s|]; try discriminate Hcode.
    destruct (startOfText d); [|discriminate Hcode].
    destruct (markEntry _ _ _ _ _). destruct (validates _ _); discriminate Hcode.
  - exact H400.
  - intros (d & s & -> & -> & Hs) Hnone.
    unfold markReminderAsTaken. cbn [noDate falsy orb].
    rewrite (bool_decide_eq_false_2 _ Hs).
    destruct (Reminder_findOne id uid (reminders db)) as [r|] eqn:Hfind; [|reflexivity].
    exfalso. apply Hnone. exists r. now apply Reminder_findOne_Some.
Qed.

(** ** At most one daily status per day *)

(** A document of the collection after [createReminder] was there before or
    was built by a turn of the loop. *)
Lemma createReminder_lookup z db uid b i r' :
  reminders (createReminder z db uid b).1 !! i = Some r' →
  reminders db !! i = Some r' ∨
  (reminders db !! i = None ∧
   ∃ currentDate endDateTime, r' = newReminder z uid b currentDate endDateTime).
Proof.
  destruct (createReminder_spec z db uid b) as (m' & created & -> & _ & Hdocs & _ & _ & Hnew & _).
  cbn. intros Hi. destruct (Hnew i r' Hi) as [?|Hin]; [now left|right].
  apply list_elem_of_lookup in Hin as [k Hk].
  destruct (Hdocs k _ Hk) as (Hdoc & _ & Hnone & _). cbn in *.
  split; [exact Hnone|]. eauto.
Qed.

Lemma createReminder_old z db uid b i r :
  reminders db !! i = Some r → reminders (createReminder z db uid b).1 !! i = Some r.
Proof.
  destruct (createReminder_spec z db uid b) as (m' & created & -> & _ & _ & _ & Hold & _).
  cbn. apply Hold.
Qed.

Lemma createReminder_fresh z db uid b :
  ∃ created,
    (createReminder z db uid b).2 = {| code := 201; body := ReminderDocs created |} ∧
    ∀ d, d ∈ created → reminders db !! _id d = None.
Proof.
  destruct (createReminder_spec z db uid b) as (m' & created & -> & _ & Hdocs & _).
  exists created. split; [reflexivity|]. intros d Hd.
  apply list_elem_of_lookup in Hd as [k Hk]. now destruct (Hdocs k d Hk) as (_ & _ & ? & _).
Qed.

Lemma grown_onePerDay r r' :
  onePerDay r →
  days r' = days r ∨ (∃ day, days r' = days r ++ [day] ∧ (day ∉ days r)) →
  onePerDay r'.
Proof.
  unfold onePerDay. intros Hnd [->|(day & -> & Hnotin)]; [exact Hnd|].
  apply NoDup_app. split; [exact Hnd|]. split.
  - intros x Hx Hx'. apply list_elem_of_singleton in Hx'. now subst.
  - apply NoDup_singleton.
Qed.

Lemma doubled_not_onePerDay r r' day :
  day ∈ days r → days r' = days r ++ [day] → ¬ onePerDay r'.
Proof.
  unfold onePerDay. intros Hin -> Hnd.
  apply NoDup_app in Hnd as (_ & Hdisj & _).
  apply (Hdisj day Hin). now left.
Qed.

(** C6: with a date text that denotes a day without being the ISO text of
    that day, [getRemindersByDate] and [markReminderAsTaken] find no entry
    whatever the reminder holds, and append one: a reminder that has an
    entry for that day then has two. *)
Theorem C6_noncanonical_date_adds_second_entry
  (strict : bool) (db : Db) (uid : ObjectId) (now : Z) (id : ObjectId) (q e : Z) (s : string)
  (r : Reminder) :
  Reminder_findOne id uid (reminders db) = Some r →
  validates strict r = true →
  isoDate q ∈ days r →
  (overlaps uid q e r = true →
     ∃ r', reminders (getRemindersByDate strict db uid (Loose q e)).1 !! id = Some r' ∧
           days r' = days r ++ [isoDate q] ∧ ¬ onePerDay r') ∧
  (s ∈ statusEnum →
     ∃ r', reminders (markReminderAsTaken strict db uid now id (Some (Loose q e)) (Some s)).1
             !! id = Some r' ∧
           days r' = days r ++ [isoDate q] ∧ ¬ onePerDay r').
Proof.
  intros Hfind Hv Hin. pose proof Hfind as Hfind0.
  apply Reminder_findOne_Some in Hfind as (Hm & Hu & Hd).
  split.
  - intros Ho. eexists. rewrite getRemindersByDate_reminders, Hm. cbn.
    split; [reflexivity|].
    unfold afterByDate. cbn. unfold touchIfOverlaps. rewrite Ho.
    rewrite touch_pushed; [|apply list_find_Loose|exact Hv].
    assert (days (setDailyStatuses (dailyStatuses r ++ [activeEntry q]) r)
            = days r ++ [isoDate q]) as E
      by (unfold days; cbn; now rewrite fmap_app).
    split; [exact E|]. now apply (doubled_not_onePerDay r _ (isoDate q)).
  - intros Hs.
    assert (s ≠ "") as Hne.
    { intros ->. vm_compute in Hs. repeat (apply elem_of_cons in Hs as [Hs|Hs]; [discriminate|]).
      now apply elem_of_nil in Hs. }
    rewrite (markReminderAsTaken_found strict db uid now id (Loose q e) q s r
               Hfind0 Hne eq_refl).
    rewrite validates_marked_pushed;
      [|apply list_find_Loose|exact Hv|intros _ _; now apply bool_decide_eq_true].
    cbn [fst reminders]. rewrite lookup_insert_eq. eexists. split; [reflexivity|].
    rewrite (markEntry_pushed now (Loose q e) q s r (list_find_Loose q e _)). cbn zeta.
    assert (days (setDailyStatuses (dailyStatuses r ++ [activeEntry q]) r)
            = days r ++ [isoDate q]) as E
      by (unfold days; cbn; now rewrite fmap_app).
    destruct (bool_decide _); cbn [fst].
    all: split; [exact E|]; now apply (doubled_not_onePerDay r _ (isoDate q)).
Qed.

Lemma C6_noncanonical_date_adds_second_entry_witness :
  (overlaps 1 (utcMidnight firstOfMarch) (utcLastMs firstOfMarch) marchReminderSeen = true →
     ∃ r', reminders (getRemindersByDate true marchDbSeen 1 feb30).1 !! 7%positive = Some r' ∧
           days r' = days marchReminderSeen ++ [isoDate (utcMidnight firstOfMarch)] ∧
           ¬ onePerDay r') ∧
  ("completed" ∈ statusEnum →
     ∃ r', reminders
             (markReminderAsTaken true marchDbSeen 1 (noonOfDay firstOfMarch) 7 (Some feb30)
                (Some "completed")).1 !! 7%positive = Some r' ∧
           days r' = days marchReminderSeen ++ [isoDate (utcMidnight firstOfMarch)] ∧
           ¬ onePerDay r').
Proof.
  apply (C6_noncanonical_date_adds_second_entry true marchDbSeen 1 (noonOfDay firstOfMarch) 7
           (utcMidnight firstOfMarch) (utcLastMs firstOfMarch) "completed" marchReminderSeen).
  - vm_compute. reflexivity.
  - vm_compute. reflexivity.
  - vm_compute. right. left.
Defined.

(** ** What a request leaves alone *)

Lemma afterByDate_not_overlapping strict uid date r :
  (∀ q e, overlaps uid q e r = false) → afterByDate strict uid date r = r.
Proof.
  intros H. unfold afterByDate, touchIfOverlaps.
  destruct (startOfText date), (endOfText date); try reflexivity. now rewrite H.
Qed.

Lemma markReminderAsTaken_frame strict db uid now id od st i :
  i ≠ id ∨ Reminder_findOne id uid (reminders db) = None →
  reminders (markReminderAsTaken strict db uid now id od st).1 !! i = reminders db !! i.
Proof.
  intros Hi. unfold markReminderAsTaken.
  destruct (noDate od || falsy st); [reflexivity|].
  destruct (Reminder_findOne id uid (reminders db)) as [r|] eqn:Hf; [|reflexivity].
  destruct Hi as [Hne|?]; [|discriminate].
  destruct od as [date|], st as [s|]; try reflexivity.
  destruct (startOfText date); [|reflexivity].
  destruct (markEntry _ _ _ _ _). destruct (validates _ _); [|reflexivity].
  cbn. unfold save. cbn. now rewrite lookup_insert_ne by congruence.
Qed.

Lemma updateReminder_frame db uid id u i :
  i ≠ id ∨ Reminder_findOne id uid (reminders db) = None →
  reminders (updateReminder db uid id u).1 !! i = reminders db !! i.
Proof.
  intros Hi. unfold updateReminder.
  destruct (Reminder_findOne id uid (reminders db)) as [r|] eqn:Hf; [|reflexivity].
  destruct Hi as [Hne|?]; [|discriminate].
  cbn. unfold save. cbn. now rewrite lookup_insert_ne by congruence.
Qed.

Lemma deleteReminder_frame db uid now id i :
  i ≠ id ∨ Reminder_findOne id uid (reminders db) = None →
  reminders (deleteReminder db uid now id).1 !! i = reminders db !! i.
Proof.
  intros Hi. unfold deleteReminder.
  destruct (Reminder_findOne id uid (reminders db)) as [r|] eqn:Hf; [|reflexivity].
  destruct Hi as [Hne|?]; [|discriminate].
  cbn. unfold save. cbn. now rewrite lookup_insert_ne by congruence.
Qed.

(** ** Reminders a user cannot see *)

Section HiddenFacts.

Variables (db : Db) (uid id : ObjectId) (r : Reminder).
Hypothesis Hstored : reminders db !! id = Some r.
Hypothesis Hhidden : user r ≠ uid ∨ isDeleted r = true.

Lemma hidden_not_found : Reminder_findOne id uid (reminders db) = None.
Proof.
  destruct (Reminder_findOne id uid (reminders db)) as [r'|] eqn:Hf; [|reflexivity].
  apply Reminder_findOne_Some in Hf as (Hm & Hu & Hd).
  rewrite Hstored in Hm. injection Hm as <-.
  destruct Hhidden; congruence.
Qed.

Lemma hidden_not_owned : ownedBy uid r = false.
Proof.
  unfold ownedBy. destruct Hhidden as [Hu|Hd].
  - now rewrite (bool_decide_eq_false_2 _ Hu).
  - rewrite Hd. apply andb_false_r.
Qed.

Lemma hidden_not_overlapping a z : overlaps uid a z r = false.
Proof.
  unfold overlaps. fold (ownedBy uid r). now rewrite hidden_not_owned.
Qed.

Lemma step_keeps_hidden op :
  requester op = uid → reminders (step db op).1 !! id = Some r.
Proof.
  destruct op as [z u b|u|u id'|u id' upd|u now id'|strict u dt|strict u now id' od st]; cbn;
    intros ->.
  - now apply createReminder_old.
  - exact Hstored.
  - unfold getReminder. now destruct (Reminder_findOne _ _ _).
  - rewrite updateReminder_frame; [exact Hstored|].
    destruct (decide (id = id')) as [<-|?]; [right; apply hidden_not_found|now left].
  - rewrite deleteReminder_frame; [exact Hstored|].
    destruct (decide (id = id')) as [<-|?]; [right; apply hidden_not_found|now left].
  - rewrite getRemindersByDate_reminders, Hstored. cbn.
    now rewrite afterByDate_not_overlapping by apply hidden_not_overlapping.
  - rewrite markReminderAsTaken_frame; [exact Hstored|].
    destruct (decide (id = id')) as [<-|?]; [right; apply hidden_not_found|now left].
Qed.

Lemma step_hides_hidden op :
  requester op = uid → ¬ mentions id (body (step db op).2).
Proof.
  destruct op as [z u b|u|u id'|u id' upd|u now id'|strict u dt|strict u now id' od st]; cbn;
    intros ->.
  - destruct (createReminder_fresh z db uid b) as (created & -> & Hfresh). cbn.
    intros Hin. apply list_elem_of_fmap in Hin as [d [E Hd]].
    rewrite E, (Hfresh d Hd) in Hstored. discriminate.
  - intros Hin. apply list_elem_of_fmap in Hin as [d [E Hd]].
    apply elem_of_sortByTime, elem_of_Reminder_find in Hd as [Hm Hq].
    rewrite <- E, Hstored in Hm. injection Hm as Hr.
    rewrite <- Hr, hidden_not_owned in Hq. discriminate.
  - unfold getReminder.
    destruct (Reminder_findOne id' uid (reminders db)) as [r'|] eqn:Hf; cbn; [|tauto].
    intros ->. now rewrite hidden_not_found in Hf.
  - unfold updateReminder.
    destruct (Reminder_findOne id' uid (reminders db)) as [r'|] eqn:Hf; cbn; [|tauto].
    intros ->. now rewrite hidden_not_found in Hf.
  - unfold deleteReminder.
    destruct (Reminder_findOne id' uid (reminders db)) as [r'|] eqn:Hf; cbn; tauto.
  - rewrite getRemindersByDate_mentions. intros (q & e & r' & _ & _ & Hm & Ho).
    rewrite Hstored in Hm. injection Hm as <-.
    now rewrite hidden_not_overlapping in Ho.
  - intros Hin. apply markReminderAsTaken_mentions in Hin as [E [r' Hf]].
    rewrite <- E in Hf. now rewrite hidden_not_found in Hf.
Qed.

End HiddenFacts.

(** ** Soft deletion *)

(** No request changes a deleted reminder, and no response shows it. *)
Lemma step_keeps_deleted db id r op :
  reminders db !! id = Some r → isDeleted r = true →
  reminders (step db op).1 !! id = Some r.
Proof.
  intros Hm Hd. apply (step_keeps_hidden db (requester op) id r); auto.
Qed.

Lemma step_hides_deleted db id r op :
  reminders db !! id = Some r → isDeleted r = true →
  ¬ mentions id (body (step db op).2).
Proof.
  intros Hm Hd. apply (step_hides_hidden db (requester op) id r); auto.
Qed.

Lemma run_keeps_deleted ops : ∀ db id r,
  reminders db !! id = Some r → isDeleted r = true →
  reminders (run db ops) !! id = Some r.
Proof.
  induction ops as [|op ops IH]; intros db id r Hm Hd; [exact Hm|].
  cbn. apply IH; [|exact Hd]. now apply step_keeps_deleted.
Qed.

Lemma not_elem_of_pull id l : id ∉ pull id l.
Proof.
  unfold pull. rewrite list_elem_of_In, filter_In.
  intros [_ H]. now rewrite bool_decide_eq_true_2 in H.
Qed.

(** C10: [deleteReminder] on a reminder of the user marks it deleted, with
    the time of deletion, and pulls its id from the user's list.  After any
    sequence of requests the document is still exactly that; no response
    shows it, and the requests that name it ([getReminder],
    [updateReminder], [markReminderAsTaken], [deleteReminder]) answer 404. *)
Theorem C10_soft_delete_is_final
  (db : Db) (uid : ObjectId) (now : Z) (id : ObjectId) (r : Reminder) :
  Reminder_findOne id uid (reminders db) = Some r →
  let db1 := (deleteReminder db uid now id).1 in
  let gone := markDeleted now r in
  (deleteReminder db uid now id).2
    = {| code := 200; body := Message "Reminder deleted successfully" |} ∧
  reminders db1 !! id = Some gone ∧
  isDeleted gone = true ∧ deletedAt gone = Some now ∧
  users db1 = alter (pull id) uid (users db) ∧
  (∀ l, users db1 !! uid = Some l → id ∉ l) ∧
  ∀ ops,
    let dbn := run db1 ops in
    reminders dbn !! id = Some gone ∧
    (∀ op, reminders (step dbn op).1 !! id = Some gone ∧
           ¬ mentions id (body (step dbn op).2)) ∧
    (∀ u, getReminder dbn u id = (dbn, notFound)) ∧
    (∀ u upd, updateReminder dbn u id upd = (dbn, notFound)) ∧
    (∀ u t, deleteReminder dbn u t id = (dbn, notFound)) ∧
    (∀ strict u t d s, s ≠ "" →
       markReminderAsTaken strict dbn u t id (Some d) (Some s) = (dbn, notFound)).
Proof.
  intros Hfind db1 gone.
  assert (deleteReminder db uid now id
          = ({| reminders := <[id := gone]> (reminders db);
                users := alter (pull id) uid (users db) |},
             {| code := 200; body := Message "Reminder deleted successfully" |})) as Hdel.
  { unfold deleteReminder. now rewrite Hfind. }
  unfold db1. rewrite Hdel. cbn [fst snd reminders users].
  split; [reflexivity|].
  split; [apply lookup_insert_eq|].
  split; [reflexivity|]. split; [reflexivity|]. split; [reflexivity|].
  split.
  { intros l. rewrite lookup_alter, decide_True by reflexivity.
    destruct (users db !! uid) as [l0|]; [|discriminate].
    cbn. intros [= <-]. apply not_elem_of_pull. }
  intros ops. cbn zeta.
  set (dbn := run _ ops).
  assert (reminders dbn !! id = Some gone) as Hn.
  { apply run_keeps_deleted; [apply lookup_insert_eq|reflexivity]. }
  assert (∀ u, Reminder_findOne id u (reminders dbn) = None) as Hnone.
  { intros u. apply (hidden_not_found dbn u id gone Hn). now right. }
  split; [exact Hn|].
  split.
  { intros op. split.
    - now apply step_keeps_deleted.
    - now apply (step_hides_deleted dbn id gone). }
  split; [intros u; unfold getReminder; now rewrite Hnone|].
  split; [intros u upd; unfold updateReminder; now rewrite Hnone|].
  split; [intros u t; unfold deleteReminder; now rewrite Hnone|].
  intros strict u t d s Hs. unfold markReminderAsTaken. cbn [noDate falsy orb].
  now rewrite (bool_decide_eq_false_2 _ Hs), Hnone.
Qed.

Lemma C10_soft_delete_is_final_witness :
  let db1 := (deleteReminder sampleDb 1 (noonOfDay 1) 5).1 in
  let gone := markDeleted (noonOfDay 1) sampleReminder in
  (deleteReminder sampleDb 1 (noonOfDay 1) 5).2
    = {| code := 200; body := Message "Reminder deleted successfully" |} ∧
  reminders db1 !! 5%positive = Some gone ∧
  isDeleted gone = true ∧ deletedAt gone = Some (noonOfDay 1) ∧
  users db1 = alter (pull 5) 1%positive (users sampleDb) ∧
  (∀ l, users db1 !! 1%positive = Some l → 5%positive ∉ l) ∧
  ∀ ops,
    let dbn := run db1 ops in
    reminders dbn !! 5%positive = Some gone ∧
    (∀ op, reminders (step dbn op).1 !! 5%positive = Some gone ∧
           ¬ mentions 5 (body (step dbn op).2)) ∧
    (∀ u, getReminder dbn u 5 = (dbn, notFound)) ∧
    (∀ u upd, updateReminder dbn u 5 upd = (dbn, notFound)) ∧
    (∀ u t, deleteReminder dbn u t 5 = (dbn, notFound)) ∧
    (∀ strict u t d s, s ≠ "" →
       markReminderAsTaken strict dbn u t 5 (Some d) (Some s) = (dbn, notFound)).
Proof.
  apply (C10_soft_delete_is_final sampleDb 1 (noonOfDay 1) 5 sampleReminder).
  vm_compute. reflexivity.
Defined.

(** * Further properties of the reminder handlers *)

(** The list of a user is touched only by that user's own requests. *)
Lemma step_users_other db op v :
  v ≠ requester op → users (step db op).1 !! v = users db !! v.
Proof.
  destruct op as [z u b|u|u id'|u id' upd|u now id'|strict u dt|strict u now id' od st]; cbn;
    intros Hv.
  - unfold createReminder. destruct (createLoop _ _ _ _ _ _ _) as [m created]. cbn.
    now rewrite lookup_alter_ne by congruence.
  - reflexivity.
  - unfold getReminder. now destruct (Reminder_findOne _ _ _).
  - unfold updateReminder. now destruct (Reminder_findOne _ _ _).
  - unfold deleteReminder. destruct (Reminder_findOne _ _ _); [|reflexivity]. cbn.
    now rewrite lookup_alter_ne by congruence.
  - now rewrite getRemindersByDate_users.
  - now rewrite markReminderAsTaken_users.
Qed.

(** X1: a request never changes a reminder that belongs to another user,
    never shows it in its response, and never changes the list of another
    user. *)
Theorem X1_requests_are_confined_to_their_user
  (db : Db) (op : Op) (id : ObjectId) (r : Reminder) :
  reminders db !! id = Some r →
  user r ≠ requester op →
  reminders (step db op).1 !! id = Some r ∧
  ¬ mentions id (body (step db op).2) ∧
  users (step db op).1 !! user r = users db !! user r.
Proof.
  intros Hm Hu. split; [|split].
  - apply (step_keeps_hidden db (requester op) id r); auto.
  - apply (step_hides_hidden db (requester op) id r); auto.
  - now apply step_users_other.
Qed.

Lemma X1_requests_are_confined_to_their_user_witness :
  reminders (step sampleDb (DeleteReminder 2 0 5)).1 !! 5%positive = Some sampleReminder ∧
  ¬ mentions 5 (body (step sampleDb (DeleteReminder 2 0 5)).2) ∧
  users (step sampleDb (DeleteReminder 2 0 5)).1 !! user sampleReminder
    = users sampleDb !! user sampleReminder.
Proof.
  apply (X1_requests_are_confined_to_their_user sampleDb (DeleteReminder 2 0 5) 5 sampleReminder).
  - vm_compute. reflexivity.
  - vm_compute. discriminate.
Defined.

(** ** What the handlers leave alone *)

(** A request keeps every reminder in the collection, with its owner; the
    days of its entries stay or grow by one day, which is new to the
    reminder when the date of the request is canonical; its deletion mark
    stays, unless the request is the owner's deletion of that reminder. *)
Lemma step_preserves_reminder db op id r :
  reminders db !! id = Some r →
  ∃ r', reminders (step db op).1 !! id = Some r' ∧ user r' = user r ∧
        (days r' = days r ∨
         ∃ day, days r' = days r ++ [day] ∧ (canonicalOp op → day ∉ days r)) ∧
        (isDeleted r' = isDeleted r ∨
         (∃ now, op = DeleteReminder (user r) now id) ∧ isDeleted r = false).
Proof.
  intros Hm.
  destruct op as [z u b|u|u id'|u id' upd|u now id'|strict u dt|strict u now id' od st]; cbn.
  - exists r. split; [now apply createReminder_old|]. auto.
  - exists r. auto.
  - exists r. unfold getReminder. destruct (Reminder_findOne _ _ _); auto.
  - unfold updateReminder.
    destruct (Reminder_findOne id' u (reminders db)) as [r0|] eqn:Hf; [|exists r; auto].
    cbn. unfold save. cbn. destruct (decide (id' = id)) as [->|Hne].
    + apply Reminder_findOne_Some in Hf as (Hm0 & _). rewrite Hm in Hm0. injection Hm0 as <-.
      exists (applyUpdate upd r). rewrite lookup_insert_eq. auto.
    + exists r. rewrite lookup_insert_ne by exact Hne. auto.
  - unfold deleteReminder.
    destruct (Reminder_findOne id' u (reminders db)) as [r0|] eqn:Hf; [|exists r; auto].
    cbn. unfold save. cbn. destruct (decide (id' = id)) as [->|Hne].
    + apply Reminder_findOne_Some in Hf as (Hm0 & Hu & Hd).
      rewrite Hm in Hm0. injection Hm0 as <-.
      exists (markDeleted now r). rewrite lookup_insert_eq.
      repeat split; auto. right. subst u. eauto.
    + exists r. rewrite lookup_insert_ne by exact Hne. auto.
  - exists (afterByDate strict u dt r).
    rewrite getRemindersByDate_reminders, Hm. cbn.
    destruct (afterByDate_frame strict u dt r) as (Hu & Hd & _).
    split; [reflexivity|]. split; [exact Hu|]. split; [|now left].
    apply afterByDate_days.
  - destruct (reminders (markReminderAsTaken strict db u now id' od st).1 !! id)
      as [r'|] eqn:Hi.
    + destruct (markReminderAsTaken_lookup _ _ _ _ _ _ _ _ _ Hi) as (r0 & Hr0 & Hcase).
      rewrite Hm in Hr0. injection Hr0 as <-.
      exists r'. split; [reflexivity|].
      destruct Hcase as [->|(date & t & s & -> & Ht & -> & _ & _ & _ & -> & _)]; [auto|].
      destruct (markEntry_frame now date t s r) as (Hu & Hd & _).
      split; [exact Hu|]. split; [|now left].
      apply markEntry_days. exact Ht.
    + exfalso. destruct (decide (id = id')) as [<-|Hne].
      * unfold markReminderAsTaken in Hi.
        destruct (noDate od || falsy st); [cbn in Hi; congruence|].
        destruct (Reminder_findOne id u (reminders db)); [|cbn in Hi; congruence].
        destruct od as [date|], st as [s|]; try (cbn in Hi; congruence).
        destruct (startOfText date); [|cbn in Hi; congruence].
        destruct (markEntry _ _ _ _ _). destruct (validates _ _); cbn in Hi; [|congruence].
        unfold save in Hi. cbn in Hi. now rewrite lookup_insert_eq in Hi.
      * rewrite markReminderAsTaken_frame in Hi by now left. congruence.
Qed.

(** A reminder that a request adds to the collection was built by the loop
    of [createReminder]. *)
Lemma step_new_reminder db op id r' :
  reminders db !! id = None →
  reminders (step db op).1 !! id = Some r' →
  ∃ z b currentDate endDateTime,
    op = CreateReminder z (requester op) b ∧
    r' = newReminder z (requester op) b currentDate endDateTime.
Proof.
  intros Hnone.
  destruct op as [z u b|u|u id'|u id' upd|u now id'|strict u dt|strict u now id' od st]; cbn.
  - intros Hi. destruct (createReminder_lookup _ _ _ _ _ _ Hi) as [Hold|[_ (c & e & ->)]].
    + congruence.
    + eauto 10.
  - congruence.
  - unfold getReminder. destruct (Reminder_findOne _ _ _); cbn; congruence.
  - unfold updateReminder.
    destruct (Reminder_findOne id' u (reminders db)) as [r0|] eqn:Hf; cbn; [|congruence].
    apply Reminder_findOne_Some in Hf as (Hm0 & _). unfold save. cbn.
    rewrite lookup_insert. case_decide; congruence.
  - unfold deleteReminder.
    destruct (Reminder_findOne id' u (reminders db)) as [r0|] eqn:Hf; cbn; [|congruence].
    apply Reminder_findOne_Some in Hf as (Hm0 & _). unfold save. cbn.
    rewrite lookup_insert. case_decide; congruence.
  - rewrite getRemindersByDate_reminders, Hnone. discriminate.
  - intros Hi. destruct (markReminderAsTaken_lookup _ _ _ _ _ _ _ _ _ Hi) as (r & Hr & _).
    congruence.
Qed.

Lemma step_onePerDay db op : canonicalOp op → dbOnePerDay db → dbOnePerDay (step db op).1.
Proof.
  intros Hcan Hinv id r' Hi.
  destruct (reminders db !! id) as [r|] eqn:Hm.
  - destruct (step_preserves_reminder db op id r Hm) as (r'' & Hi' & _ & Hdays & _).
    rewrite Hi in Hi'. injection Hi' as <-.
    apply (grown_onePerDay r r'); [now apply (Hinv id)|].
    destruct Hdays as [?|(day & ? & Hnew)]; [now left|right]. eauto.
  - destruct (step_new_reminder db op id r' Hm Hi) as (tz & b & c & e & _ & ->).
    unfold onePerDay, days. cbn. apply NoDup_singleton.
Qed.

(** X2: as long as the requests carry no date text that denotes a day
    without being the ISO text of that day, a database in which no reminder
    has two daily statuses for one UTC day stays so, whatever requests are
    served, in whatever order. *)
Theorem X2_one_status_per_day_along_any_run (db : Db) (ops : list Op) :
  Forall canonicalOp ops → dbOnePerDay db → dbOnePerDay (run db ops).
Proof.
  revert db. induction ops as [|op ops IH]; intros db Hcan Hinv; [exact Hinv|].
  inversion Hcan as [|? ? Hop Hops]; subst.
  cbn. apply IH; [exact Hops|]. now apply step_onePerDay.
Qed.

Lemma sampleDb_onePerDay : dbOnePerDay sampleDb.
Proof.
  intros i r Hi. unfold sampleDb in Hi. cbn in Hi.
  apply lookup_singleton_Some in Hi as [_ <-].
  unfold onePerDay. vm_compute. apply NoDup_singleton.
Qed.

Lemma X2_one_status_per_day_along_any_run_witness :
  dbOnePerDay
    (run sampleDb
       [ GetRemindersByDate true 1 (Iso 1);
         MarkReminderAsTaken true 1 (noonOfDay 1) 5 (Some (Iso 1)) (Some "completed");
         UpdateReminder 1 5
           (mkUpdateBody (Some "Pill, with water") None None None None None None None None
              None None);
         CreateReminder cairo 1 twoDays;
         GetRemindersByDate true 1 Malformed;
         DeleteReminder 1 (noonOfDay 1) 5 ]).
Proof.
  apply X2_one_status_per_day_along_any_run; [|exact sampleDb_onePerDay].
  repeat constructor.
Defined.

(** ** The users' lists *)

Lemma elem_of_pull x id l : x ∈ pull id l ↔ x ∈ l ∧ x ≠ id.
Proof.
  unfold pull. rewrite list_elem_of_In, filter_In, <- list_elem_of_In.
  rewrite negb_true_iff, bool_decide_eq_false. tauto.
Qed.

Lemma step_listsPointToOwn db op : listsPointToOwn db → listsPointToOwn (step db op).1.
Proof.
  intros Hinv v l' id Hl' Hin.
  assert (∀ l, users db !! v = Some l → id ∈ l →
               ¬ (∃ now, op = DeleteReminder v now id) →
               ∃ r, reminders (step db op).1 !! id = Some r ∧ user r = v ∧
                    isDeleted r = false) as Hkeep.
  { intros l Hl Hid Hnodel. destruct (Hinv v l id Hl Hid) as (r & Hm & Hu & Hd).
    destruct (step_preserves_reminder db op id r Hm) as (r' & Hm' & Hu' & _ & Hd').
    exists r'. split; [exact Hm'|]. split; [congruence|].
    destruct Hd' as [Hd'|[(now & ->) _]]; [congruence|].
    exfalso. apply Hnodel. exists now. now rewrite Hu. }
  destruct op as [z u b|u|u id'|u id' upd|u now id'|strict u dt|strict u now id' od st].
  - cbn in *. destruct (createReminder_spec z db u b)
      as (m' & created & E & _ & Hdocs & _ & Hold & _).
    rewrite E in *. cbn in *.
    rewrite lookup_alter in Hl'. case_decide as Hv.
    + subst v. destruct (users db !! u) as [l|] eqn:Hl; [|discriminate].
      cbn in Hl'. injection Hl' as <-.
      apply elem_of_app in Hin as [Hin|Hin].
      * destruct (Hinv u l id Hl Hin) as (r & Hm & Hu & Hd).
        exists r. split; [now apply Hold|auto].
      * apply list_elem_of_fmap in Hin as [d [-> Hd]].
        apply list_elem_of_lookup in Hd as [k Hk].
        destruct (Hdocs k d Hk) as (Hdoc & _ & _ & Hsome).
        exists (doc d). split; [exact Hsome|]. rewrite Hdoc. split; reflexivity.
    + destruct (Hinv v l' id Hl' Hin) as (r & Hm & Hu & Hd).
      exists r. split; [now apply Hold|auto].
  - apply (Hkeep l'); auto. intros [? ?]; discriminate.
  - apply (Hkeep l'); [|auto|intros [? ?]; discriminate].
    cbn in Hl'. unfold getReminder in Hl'. now destruct (Reminder_findOne _ _ _).
  - apply (Hkeep l'); [|auto|intros [? ?]; discriminate].
    cbn in Hl'. unfold updateReminder in Hl'. now destruct (Reminder_findOne _ _ _).
  - cbn in Hl'. unfold deleteReminder in Hl'.
    destruct (Reminder_findOne id' u (reminders db)) as [r0|] eqn:Hf.
    + cbn in Hl'. rewrite lookup_alter in Hl'. case_decide as Hv.
      * subst v. destruct (users db !! u) as [l|] eqn:Hl; [|discriminate].
        cbn in Hl'. injection Hl' as <-.
        apply elem_of_pull in Hin as [Hin Hne].
        apply (Hkeep l); auto. intros [now' Heq]. inversion Heq. congruence.
      * apply (Hkeep l'); auto. intros [now' Heq]. inversion Heq. congruence.
    + apply (Hkeep l'); auto. intros [now' Heq]. inversion Heq. subst u now' id'.
      destruct (Hinv v l' id Hl' Hin) as (r & Hm & Hu & Hd).
      assert (Reminder_findOne id v (reminders db) = Some r) as Hf'
        by now apply Reminder_findOne_Some.
      congruence.
  - apply (Hkeep l'); [|auto|intros [? ?]; discriminate].
    cbn in Hl'. now rewrite getRemindersByDate_users in Hl'.
  - apply (Hkeep l'); [|auto|intros [? ?]; discriminate].
    cbn in Hl'. now rewrite markReminderAsTaken_users in Hl'.
Qed.

Lemma sampleDb_listsPointToOwn : listsPointToOwn sampleDb.
Proof.
  intros v l id Hl Hin. unfold sampleDb in *. cbn in *.
  apply lookup_singleton_Some in Hl as [<- <-].
  apply list_elem_of_singleton in Hin as ->.
  exists sampleReminder. repeat split; reflexivity.
Qed.

(** X3: if every id on a user's list is that of an undeleted reminder of
    that user, this is still so after any sequence of requests:
    [createReminder] pushes the ids of documents it has just saved for the
    user, and [deleteReminder] pulls the id it marks deleted. *)
Theorem X3_user_lists_point_to_own_live_reminders (db : Db) (ops : list Op) :
  listsPointToOwn db → listsPointToOwn (run db ops).
Proof.
  revert db. induction ops as [|op ops IH]; intros db Hinv; [exact Hinv|].
  cbn. apply IH. now apply step_listsPointToOwn.
Qed.

Lemma X3_user_lists_point_to_own_live_reminders_witness :
  listsPointToOwn
    (run sampleDb
       [ CreateReminder (fixed 0) 1 twoDays;
         DeleteReminder 1 (noonOfDay 1) 5;
         GetRemindersByDate true 1 (Iso 1) ]).
Proof.
  apply X3_user_lists_point_to_own_live_reminders. exact sampleDb_listsPointToOwn.
Defined.

(** ** getUserReminders *)

#[local] Instance byTime_total : Total byTime.
Proof. intros a b. unfold byTime. lia. Qed.

#[local] Instance byTime_transitive : Transitive byTime.
Proof. intros a b c. unfold byTime. lia. Qed.

(** X4: [getUserReminders] changes nothing and answers 200 with the
    undeleted reminders of the user, all of them, each once, in ascending
    order of [time]. *)
Theorem X4_getUserReminders_lists_own_live_sorted (db : Db) (uid : ObjectId) :
  ∃ l,
    getUserReminders db uid = (db, {| code := 200; body := ReminderDocs l |}) ∧
    (∀ d, d ∈ l ↔
          reminders db !! _id d = Some (doc d) ∧ user (doc d) = uid ∧
          isDeleted (doc d) = false) ∧
    NoDup (_id <$> l) ∧
    StronglySorted (λ a b, time (doc a) ≤ time (doc b)) l.
Proof.
  exists (sortByTime (Reminder_find (ownedBy uid) (reminders db))).
  split; [reflexivity|]. split; [|split].
  - intros d. rewrite elem_of_sortByTime, elem_of_Reminder_find.
    unfold ownedBy. rewrite andb_true_iff, bool_decide_eq_true, negb_true_iff. tauto.
  - apply NoDup_sortByTime_ids, NoDup_Reminder_find_ids.
  - apply (StronglySorted_merge_sort byTime).
Qed.

(** ** markReminderAsTaken *)

Lemma setDailyStatuses_same r : setDailyStatuses (dailyStatuses r) r = r.
Proof. now destruct r. Qed.

Lemma setStatus_same r : setStatus (status r) (isTaken r) r = r.
Proof. now destruct r. Qed.

Lemma validStatus_not_empty s : validStatus s = true → s ≠ "".
Proof. intros Hs ->. vm_compute in Hs. discriminate. Qed.

Lemma validates_marked strict now date t s r :
  validates strict r = true → validStatus s = true →
  validates strict (markEntry now date t s r).1 = true.
Proof.
  intros Hv Hs. destruct (list_find (onDay date) (dailyStatuses r)) as [[i e0]|] eqn:Hf.
  - now rewrite (validates_marked_found strict now date t s r i e0 Hf Hv).
  - apply validates_marked_pushed; auto.
Qed.

(** X5: [markReminderAsTaken] answers 200 only when the date text denotes
    an instant, the status is not empty and the user has that reminder,
    undeleted; it does answer 200 when moreover the status is one of the
    enum and the reminder satisfies the schema; every other answer (400,
    404 or 500) leaves the database as it was. *)
Theorem X5_markTaken_succeeds_or_changes_nothing
  (strict : bool) (db : Db) (uid : ObjectId) (now : Z) (id : ObjectId)
  (date : option DateText) (st : option string) :
  let out := markReminderAsTaken strict db uid now id date st in
  (code out.2 = 200 →
     ∃ d t s r, date = Some d ∧ startOfText d = Some t ∧ st = Some s ∧ s ≠ "" ∧
                reminders db !! id = Some r ∧ user r = uid ∧ isDeleted r = false) ∧
  (∀ d t s r, date = Some d → startOfText d = Some t → st = Some s → s ∈ statusEnum →
              reminders db !! id = Some r → user r = uid → isDeleted r = false →
              validates strict r = true →
              code out.2 = 200) ∧
  (code out.2 ≠ 200 →
     out.1 = db ∧ (code out.2 = 400 ∨ code out.2 = 404 ∨ code out.2 = 500)).
Proof.
  cbn zeta. split; [|split].
  - unfold markReminderAsTaken.
    destruct (noDate date || falsy st) eqn:Hmiss; [discriminate|].
    destruct (Reminder_findOne id uid (reminders db)) as [r|] eqn:Hf; [|discriminate].
    destruct date as [d|], st as [s|]; try discriminate.
    destruct (startOfText d) as [t|] eqn:Ht; [|discriminate].
    intros _. cbn in Hmiss. rewrite bool_decide_eq_false in Hmiss.
    apply Reminder_findOne_Some in Hf. exists d, t, s, r. tauto.
  - intros d t s r -> Ht -> Hs Hm Hu Hd Hv.
    assert (Reminder_findOne id uid (reminders db) = Some r) as Hf
      by now apply Reminder_findOne_Some.
    assert (validStatus s = true) as Hs' by now apply bool_decide_eq_true.
    rewrite (markReminderAsTaken_found strict db uid now id d t s r Hf
               (validStatus_not_empty s Hs') Ht).
    now rewrite validates_marked.
  - unfold markReminderAsTaken.
    destruct (noDate date || falsy st); [cbn; auto|].
    destruct (Reminder_findOne id uid (reminders db)) as [r|]; [|cbn; auto].
    destruct date as [d|], st as [s|]; try (cbn; auto; fail).
    destruct (startOfText d) as [t|]; [|cbn; auto].
    destruct (markEntry _ _ _ _ _). destruct (validates _ _); cbn; [congruence|auto].
Qed.

Lemma overlaps_frame uid a z r r' :
  user r' = user r → isDeleted r' = isDeleted r → startDate r' = startDate r →
  endDate r' = endDate r → time r' = time r →
  overlaps uid a z r' = overlaps uid a z r.
Proof. unfold overlaps. now intros -> -> -> -> ->. Qed.

(** X6: once a date of a reminder is marked with a status of the enum,
    [getRemindersByDate] for that date reports as [currentStatus] of the
    reminder the entry that is stored for the date, and pushes nothing on
    it: the entry with the given status when the reminder had an entry for
    the date, and the default one, active and not taken, when it had
    none. *)
Theorem X6_marked_status_is_reported
  (strict : bool) (db : Db) (uid : ObjectId) (now : Z) (id : ObjectId) (day : Z) (s : string)
  (r : Reminder) :
  Reminder_findOne id uid (reminders db) = Some r →
  validates strict r = true →
  s ∈ statusEnum →
  overlaps uid (utcMidnight day) (utcLastMs day) r = true →
  let db1 := (markReminderAsTaken strict db uid now id (Some (Iso day)) (Some s)).1 in
  let out := getRemindersByDate strict db1 uid (Iso day) in
  let e :=
    match list_find (onDay (Iso day)) (dailyStatuses r) with
    | Some (_, e0) => {| ds_date := ds_date e0; ds_status := s;
                         ds_isTaken := bool_decide (s = "completed") |}
    | None => {| ds_date := utcMidnight day; ds_status := "active"; ds_isTaken := false |}
    end in
  ∃ r1,
    reminders db1 !! id = Some r1 ∧
    reminders out.1 !! id = Some r1 ∧
    e ∈ dailyStatuses r1 ∧
    isoDate (ds_date e) = day ∧
    code out.2 = 200 ∧
    (∀ v, v ∈ viewsOf (body out.2) ∧ view_id v = id ↔ v = mkView id r1 e).
Proof.
  intros Hfind Hv Hs Hover db1 out e.
  assert (validStatus s = true) as Hs' by now apply bool_decide_eq_true.
  set (t := utcMidnight day).
  set (r1 := (markEntry now (Iso day) t s r).1).
  assert (reminders db1 !! id = Some r1) as Hm1.
  { unfold db1.
    rewrite (markReminderAsTaken_found strict db uid now id (Iso day) t s r Hfind
               (validStatus_not_empty s Hs') eq_refl).
    rewrite validates_marked by assumption. cbn. apply lookup_insert_eq. }
  destruct (markEntry_frame now (Iso day) t s r) as (Hu & Hd & _ & Hsd & Hed & Htm).
  fold r1 in Hu, Hd, Hsd, Hed, Htm.
  assert (overlaps uid (utcMidnight day) (utcLastMs day) r1 = true) as Hover1.
  { rewrite <- Hover. now apply overlaps_frame. }
  assert (∃ i, list_find (onDay (Iso day)) (dailyStatuses r1) = Some (i, e)) as [i Hf1].
  { unfold r1, e.
    destruct (list_find (onDay (Iso day)) (dailyStatuses r)) as [[i e0]|] eqn:Hf.
    - exists i. rewrite (markEntry_found now (Iso day) t s r i e0 Hf). cbn zeta.
      assert (list_find (onDay (Iso day)) (<[i := marked s e0]> (dailyStatuses r))
              = Some (i, marked s e0)) as Hf'.
      { apply list_find_Some in Hf as (Hi & Hon & Hbefore).
        apply list_find_Some. split; [|split].
        - apply list_lookup_insert_eq. now apply lookup_lt_Some in Hi.
        - exact Hon.
        - intros j y Hj Hlt. rewrite list_lookup_insert_ne in Hj by lia.
          now apply (Hbefore j). }
      cbn [fst]. destruct (bool_decide (isoDate _ = isoDate now)); exact Hf'.
    - exists (length (dailyStatuses r)).
      rewrite (markEntry_pushed now (Iso day) t s r Hf). cbn zeta.
      assert (list_find (onDay (Iso day)) (dailyStatuses r ++ [activeEntry t])
              = Some (length (dailyStatuses r), activeEntry t)) as Hf'.
      { apply list_find_appended; [exact Hf|]. unfold onDay. cbn. apply isoDate_utcMidnight. }
      cbn [fst]. destruct (bool_decide (isoDate _ = isoDate now)); exact Hf'. }
  exists r1. split; [exact Hm1|].
  split.
  { unfold out. rewrite getRemindersByDate_reminders, Hm1. cbn. f_equal.
    unfold afterByDate. cbn. unfold touchIfOverlaps. rewrite Hover1.
    eapply touch_found. exact Hf1. }
  pose proof Hf1 as Hf1'. apply list_find_Some in Hf1' as (Hi & Hon & _).
  split; [eapply list_elem_of_lookup_2; exact Hi|].
  split; [exact Hon|].
  unfold out.
  destruct (getRemindersByDate_closed strict (Iso day) (utcMidnight day) (utcLastMs day)
              eq_refl eq_refl db1 uid) as (m' & -> & _). cbn.
  split; [reflexivity|].
  intros v.
  rewrite (views_of_reminder (Iso day) (utcMidnight day) (utcLastMs day) db1 uid id r1
             Hm1 Hover1 v).
  unfold viewOf. cbn. unfold statusOn, pushedFor. now rewrite Hf1.
Qed.

Lemma X6_marked_status_is_reported_witness :
  let db1 :=
    (markReminderAsTaken true sampleDb 1 (noonOfDay 3) 5 (Some (Iso 1)) (Some "missed")).1 in
  let out := getRemindersByDate true db1 1 (Iso 1) in
  let e :=
    match list_find (onDay (Iso 1)) (dailyStatuses sampleReminder) with
    | Some (_, e0) => {| ds_date := ds_date e0; ds_status := "missed";
                         ds_isTaken := bool_decide ("missed" = "completed") |}
    | None => {| ds_date := utcMidnight 1; ds_status := "active"; ds_isTaken := false |}
    end in
  ∃ r1,
    reminders db1 !! 5%positive = Some r1 ∧
    reminders out.1 !! 5%positive = Some r1 ∧
    e ∈ dailyStatuses r1 ∧
    isoDate (ds_date e) = 1 ∧
    code out.2 = 200 ∧
    (∀ v, v ∈ viewsOf (body out.2) ∧ view_id v = 5%positive ↔ v = mkView 5 r1 e).
Proof.
  apply (X6_marked_status_is_reported true sampleDb 1 (noonOfDay 3) 5 1 "missed" sampleReminder).
  - vm_compute. reflexivity.
  - vm_compute. reflexivity.
  - vm_compute. right. right. left.
  - vm_compute. reflexivity.
Defined.

(** X7: on a reminder that satisfies the schema and has an entry for the
    date, marking the date with a status of the enum a second time on the
    same UTC day gives the same answer and leaves the database as the first
    call left it. *)
Theorem X7_markTaken_is_idempotent
  (strict : bool) (db : Db) (uid : ObjectId) (now now' : Z) (id : ObjectId) (day : Z)
  (s : string) (r : Reminder) (i : nat) (e0 : DailyStatus) :
  Reminder_findOne id uid (reminders db) = Some r →
  list_find (onDay (Iso day)) (dailyStatuses r) = Some (i, e0) →
  validates strict r = true →
  s ∈ statusEnum →
  isoDate now' = isoDate now →
  let first := markReminderAsTaken strict db uid now id (Some (Iso day)) (Some s) in
  code first.2 = 200 ∧
  markReminderAsTaken strict first.1 uid now' id (Some (Iso day)) (Some s) = first.
Proof.
  intros Hfind Hf Hv Hs Hday first.
  assert (validStatus s = true) as Hs' by now apply bool_decide_eq_true.
  pose proof (validStatus_not_empty s Hs') as Hne.
  set (t := utcMidnight day).
  destruct (markEntry_frame now (Iso day) t s r) as (Hu & Hd & _).
  pose proof (validates_marked strict now (Iso day) t s r Hv Hs') as Hv1.
  unfold first.
  rewrite (markReminderAsTaken_found strict db uid now id (Iso day) t s r Hfind Hne eq_refl).
  rewrite Hv1. cbn [fst snd code].
  split; [reflexivity|].
  pose proof (markEntry_found now (Iso day) t s r i e0 Hf) as Hmark. cbn zeta in Hmark.
  set (r1 := (markEntry now (Iso day) t s r).1) in *.
  assert ((markEntry now (Iso day) t s r).2 = marked s e0) as He by now rewrite Hmark.
  rewrite He.
  apply Reminder_findOne_Some in Hfind as (Hm & Hur & Hdr).
  assert (Reminder_findOne id uid (<[id := r1]> (reminders db)) = Some r1) as Hfind1.
  { apply Reminder_findOne_Some. rewrite lookup_insert_eq. split; [reflexivity|].
    split; congruence. }
  assert (list_find (onDay (Iso day)) (dailyStatuses r1) = Some (i, marked s e0)) as Hf1.
  { assert (list_find (onDay (Iso day)) (<[i := marked s e0]> (dailyStatuses r))
            = Some (i, marked s e0)) as Hf'.
    { apply list_find_Some in Hf as (Hi & Hon & Hbefore).
      apply list_find_Some. split; [|split].
      - apply list_lookup_insert_eq. now apply lookup_lt_Some in Hi.
      - exact Hon.
      - intros j y Hj Hlt. rewrite list_lookup_insert_ne in Hj by lia.
        now apply (Hbefore j). }
    unfold r1. rewrite Hmark. cbn [fst]. destruct (bool_decide (isoDate _ = isoDate now)); exact Hf'. }
  assert (markEntry now' (Iso day) t s r1 = (r1, marked s e0)) as Hmark'.
  { rewrite (markEntry_found now' (Iso day) t s r1 i (marked s e0) Hf1). cbn zeta.
    assert (marked s (marked s e0) = marked s e0) as -> by reflexivity.
    rewrite list_insert_id; [|now apply list_find_Some in Hf1 as (? & _)].
    rewrite setDailyStatuses_same. rewrite Hday.
    destruct (bool_decide_reflect (isoDate t = isoDate now)) as [Hnow|Hnow]; [|reflexivity].
    assert (status r1 = s ∧ isTaken r1 = bool_decide (s = "completed")) as [Hs1 Ht1].
    { unfold r1. rewrite Hmark. split; reflexivity. }
    rewrite <- Hs1 at 1. rewrite <- Ht1. now rewrite setStatus_same. }
  rewrite (markReminderAsTaken_found strict _ uid now' id (Iso day) t s r1);
    [|exact Hfind1|exact Hne|reflexivity].
  cbn [reminders users]. rewrite Hmark'. cbn [fst snd]. rewrite Hv1.
  now rewrite insert_insert_eq.
Qed.

Lemma X7_markTaken_is_idempotent_witness :
  let first :=
    markReminderAsTaken true sampleDb 1 (noonOfDay 0) 5 (Some (Iso 0)) (Some "completed") in
  code first.2 = 200 ∧
  markReminderAsTaken true first.1 1 (noonOfDay 0 + 60000) 5 (Some (Iso 0)) (Some "completed")
    = first.
Proof.
  apply (X7_markTaken_is_idempotent true sampleDb 1 (noonOfDay 0) (noonOfDay 0 + 60000) 5 0
           "completed" sampleReminder 0 (activeEntry 0)).
  - vm_compute. reflexivity.
  - vm_compute. reflexivity.
  - vm_compute. reflexivity.
  - vm_compute. right. left.
  - vm_compute. reflexivity.
Defined.

(** ** getRemindersByDate *)

(** X27: for the ISO text of a day, a reminder that satisfies the schema,
    overlaps the day and has no entry for it gets an active, not taken
    entry for that day; the entry is saved and is the [currentStatus] of
    the reminder in the answer.  A second call with the same text finds
    that entry, reports it again and leaves the database as it was. *)
Theorem X27_getByDate_default_entry_once
  (strict : bool) (db : Db) (uid : ObjectId) (day : Z) (id : ObjectId) (r : Reminder) :
  reminders db !! id = Some r →
  overlaps uid (utcMidnight day) (utcLastMs day) r = true →
  list_find (onDay (Iso day)) (dailyStatuses r) = None →
  validates strict r = true →
  let entry := {| ds_date := utcMidnight day; ds_status := "active"; ds_isTaken := false |} in
  let r1 := setDailyStatuses (dailyStatuses r ++ [entry]) r in
  ∃ db1 views1 views2,
    getRemindersByDate strict db uid (Iso day)
      = (db1, {| code := 200; body := ReminderViews views1 |}) ∧
    reminders db1 !! id = Some r1 ∧
    (∀ v, v ∈ views1 ∧ view_id v = id ↔ v = mkView id r1 entry) ∧
    list_find (onDay (Iso day)) (dailyStatuses r1) = Some (length (dailyStatuses r), entry) ∧
    getRemindersByDate strict db1 uid (Iso day)
      = (db1, {| code := 200; body := ReminderViews views2 |}) ∧
    (∀ v, v ∈ views2 ∧ view_id v = id ↔ v = mkView id r1 entry).
Proof.
  intros Hm Hq Hnone Hv entry r1.
  pose proof (getRemindersByDate_twice strict db uid day) as Htwice.
  pose proof (getRemindersByDate_reminders strict db uid (Iso day) id) as Hlook.
  destruct (getRemindersByDate_closed strict (Iso day) (utcMidnight day) (utcLastMs day)
              eq_refl eq_refl db uid) as (m1 & E1 & _).
  rewrite E1 in Htwice, Hlook. cbn [fst] in Htwice, Hlook.
  set (db1 := {| reminders := m1; users := users db |}) in *.
  assert (touch strict (Iso day) (utcMidnight day) r = r1) as Htouch
    by now apply touch_pushed.
  assert (reminders db1 !! id = Some r1) as Hm1.
  { rewrite Hlook, Hm. cbn. unfold afterByDate. cbn. unfold touchIfOverlaps.
    now rewrite Hq, Htouch. }
  assert (list_find (onDay (Iso day)) (dailyStatuses r1)
          = Some (length (dailyStatuses r), entry)) as Hfound.
  { apply list_find_appended; [exact Hnone|]. unfold onDay. cbn. apply isoDate_utcMidnight. }
  assert (overlaps uid (utcMidnight day) (utcLastMs day) r1 = true) as Hq1 by exact Hq.
  destruct (getRemindersByDate_closed strict (Iso day) (utcMidnight day) (utcLastMs day)
              eq_refl eq_refl db1 uid) as (m2 & E2 & _).
  rewrite E2 in Htwice. cbn [fst] in Htwice.
  eexists db1, _, _.
  split; [exact E1|].
  split; [exact Hm1|].
  split.
  { intros v.
    rewrite (views_of_reminder (Iso day) (utcMidnight day) (utcLastMs day) db uid id r Hm Hq v).
    unfold viewOf, pushedFor, statusOn. cbn. now rewrite Hnone. }
  split; [exact Hfound|].
  split.
  { rewrite E2. f_equal. exact Htwice. }
  intros v.
  rewrite (views_of_reminder (Iso day) (utcMidnight day) (utcLastMs day) db1 uid id r1
             Hm1 Hq1 v).
  unfold viewOf, pushedFor, statusOn. cbn.
  change (dailyStatuses r ++ [entry]) with (dailyStatuses r1).
  now rewrite Hfound.
Qed.

Lemma X27_getByDate_default_entry_once_witness :
  let entry := {| ds_date := utcMidnight 1; ds_status := "active"; ds_isTaken := false |} in
  let r1 := setDailyStatuses (dailyStatuses sampleReminder ++ [entry]) sampleReminder in
  ∃ db1 views1 views2,
    getRemindersByDate true sampleDb 1 (Iso 1)
      = (db1, {| code := 200; body := ReminderViews views1 |}) ∧
    reminders db1 !! 5%positive = Some r1 ∧
    (∀ v, v ∈ views1 ∧ view_id v = 5%positive ↔ v = mkView 5 r1 entry) ∧
    list_find (onDay (Iso 1)) (dailyStatuses r1)
      = Some (length (dailyStatuses sampleReminder), entry) ∧
    getRemindersByDate true db1 1 (Iso 1)
      = (db1, {| code := 200; body := ReminderViews views2 |}) ∧
    (∀ v, v ∈ views2 ∧ view_id v = 5%positive ↔ v = mkView 5 r1 entry).
Proof.
  apply (X27_getByDate_default_entry_once true sampleDb 1 1 5 sampleReminder);
    vm_compute; reflexivity.
Defined.

(** ** The time of day of a created reminder *)

Section TimeOfDay.

Lemma getHours_range z t : 0 ≤ getHours z t < 24.
Proof.
  unfold getHours, msPerDay, msPerHour.
  pose proof (Z.mod_pos_bound (localTime z t) 86400000).
  split; [apply Z.div_pos; lia|apply Z.div_lt_upper_bound; lia].
Qed.

Lemma getMinutes_range z t : 0 ≤ getMinutes z t < 60.
Proof.
  unfold getMinutes, msPerHour, msPerMinute.
  pose proof (Z.mod_pos_bound (localTime z t) 3600000).
  split; [apply Z.div_pos; lia|apply Z.div_lt_upper_bound; lia].
Qed.

Variable tz : Z.

Lemma fixed_setHours t h m s ms :
  setHours (fixed tz) t h m s ms
  = startOfDay (fixed tz) t + h * msPerHour + m * msPerMinute + s * 1000 + ms.
Proof.
  unfold startOfDay, setHours, utc, localTime. cbn. lia.
Qed.

(** In a zone of constant offset [setHours(h, m, 0, 0)] stays on the local
    day and is read back by [getHours] and [getMinutes]. *)
Lemma setHours_read t h m :
  0 ≤ h < 24 → 0 ≤ m < 60 →
  let t' := setHours (fixed tz) t h m 0 0 in
  startOfDay (fixed tz) t' = startOfDay (fixed tz) t ∧
  getHours (fixed tz) t' = h ∧ getMinutes (fixed tz) t' = m ∧
  (t' + tz) `mod` msPerMinute = 0.
Proof.
  intros Hh Hm. cbn zeta.
  rewrite fixed_setHours, !fixed_startOfDay.
  set (L := dayIndex (fixed tz) t).
  unfold getHours, getMinutes, dayIndex, localTime, dayOf, msPerDay, msPerHour, msPerMinute.
  cbn [offsetAt fixed].
  replace (L * 86400000 - tz + h * 3600000 + m * 60000 + 0 * 1000 + 0 + tz)
    with (h * 3600000 + m * 60000 + L * 86400000) by lia.
  assert ((h * 3600000 + m * 60000 + L * 86400000) `div` 86400000 = L) as HL.
  { rewrite Z.div_add by lia. rewrite Z.div_small by lia. lia. }
  assert ((h * 3600000 + m * 60000 + L * 86400000) `mod` 86400000
          = h * 3600000 + m * 60000) as Hmod.
  { rewrite Z.mod_add by lia. apply Z.mod_small. lia. }
  split; [rewrite HL; lia|].
  split.
  { rewrite Hmod. replace (h * 3600000 + m * 60000) with (m * 60000 + h * 3600000) by lia.
    rewrite Z.div_add by lia. rewrite Z.div_small by lia. lia. }
  split.
  { replace (h * 3600000 + m * 60000 + L * 86400000)
      with (m * 60000 + (h + L * 24) * 3600000) by lia.
    rewrite Z.mod_add by lia. rewrite Z.mod_small by lia.
    apply Z.div_mul. lia. }
  replace (h * 3600000 + m * 60000 + L * 86400000)
    with (0 + (h * 60 + m + L * 1440) * 60000) by lia.
  rewrite Z.mod_add by lia. reflexivity.
Qed.

(** In a zone of constant offset the date of every turn of the loop is the
    first instant of its day. *)
Lemma fixed_turn_is_midnight c k :
  startOfDay (fixed tz) (dateOfTurn (fixed tz) (startOfDay (fixed tz) c) k)
  = dateOfTurn (fixed tz) (startOfDay (fixed tz) c) k.
Proof.
  rewrite fixed_startOfDay, dayIndex_dateOfTurn, dayIndex_startOfDay.
  rewrite fixed_dateOfTurn, fixed_startOfDay. lia.
Qed.

End TimeOfDay.



(** ** On which dates a created reminder is listed *)

Lemma isoDate_le_utcLastMs t j : t ≤ utcLastMs j ↔ isoDate t ≤ j.
Proof.
  unfold utcLastMs, isoDate, msPerDay.
  pose proof (Z.div_mod t 86400000). pose proof (Z.mod_pos_bound t 86400000). lia.
Qed.

Lemma utcMidnight_le_isoDate t j : utcMidnight j ≤ t ↔ j ≤ isoDate t.
Proof.
  unfold utcMidnight, isoDate, msPerDay.
  pose proof (Z.div_mod t 86400000). pose proof (Z.mod_pos_bound t 86400000). lia.
Qed.

Lemma isoDate_mono t u : t ≤ u → isoDate t ≤ isoDate u.
Proof. unfold isoDate, msPerDay. intros. apply Z.div_le_mono; lia. Qed.

(** The query of [getRemindersByDate], read on UTC dates. *)
Lemma overlaps_dates uid j r :
  overlaps uid (utcMidnight j) (utcLastMs j) r = true ↔
  user r = uid ∧ isDeleted r = false ∧
  ((isoDate (startDate r) ≤ j ∧ j ≤ isoDate (endDate r)) ∨ isoDate (time r) = j).
Proof.
  unfold overlaps.
  rewrite !andb_true_iff, orb_true_iff, !andb_true_iff, negb_true_iff, !bool_decide_eq_true.
  rewrite !isoDate_le_utcLastMs, !utcMidnight_le_isoDate. intuition lia.
Qed.

(** X9: a record made by [createReminder] is listed by
    [getRemindersByDate], for its owner, on every UTC date from the date of
    its own start to the date of the end of the whole series, and on no
    other date. *)
Theorem X9_created_record_listed_until_series_end
  (strict : bool) (tz : Z) (db : Db) (uid : ObjectId) (b : CreateBody) (d : ReminderDoc)
  (j : Z) :
  let db' := (createReminder (fixed tz) db uid b).1 in
  d ∈ docsOf (body (createReminder (fixed tz) db uid b).2) →
  (mentions (_id d) (body (getRemindersByDate strict db' uid (Iso j)).2) ↔
   isoDate (startDate (doc d)) ≤ j ≤ isoDate (endOfDay (fixed tz) (cb_endDate b))).
Proof.
  cbn zeta.
  destruct (createReminder_spec (fixed tz) db uid b) as (m' & created & -> & _ & Hdocs & _).
  cbn [fst snd body docsOf]. intros Hd. apply list_elem_of_lookup in Hd as [k Hk].
  destruct (Hdocs k d Hk) as (Hdoc & Hle & _ & Hsome).
  set (db' := {| reminders := m'; users := _ |}).
  rewrite getRemindersByDate_mentions. cbn [startOfText endOfText].
  assert ((∃ q e r, Some (utcMidnight j) = Some q ∧ Some (utcLastMs j) = Some e ∧
                    reminders db' !! _id d = Some r ∧ overlaps uid q e r = true)
          ↔ overlaps uid (utcMidnight j) (utcLastMs j) (doc d) = true) as ->.
  { split.
    - intros (q & e & r & [= <-] & [= <-] & Hm & Ho). cbn in Hm. congruence.
    - intros Ho. exists (utcMidnight j), (utcLastMs j), (doc d). auto. }
  rewrite overlaps_dates, Hdoc. cbn.
  set (c := dateOfTurn (fixed tz) (startOfDay (fixed tz) (cb_startDate b)) k) in *.
  set (e := endOfDay (fixed tz) (cb_endDate b)) in *.
  destruct (setHours_read tz c (getHours (fixed tz) (cb_time b))
              (getMinutes (fixed tz) (cb_time b))
              (getHours_range _ _) (getMinutes_range _ _)) as (H1 & H2 & H3 & _).
  set (t := setHours (fixed tz) c (getHours (fixed tz) (cb_time b))
              (getMinutes (fixed tz) (cb_time b)) 0 0) in *.
  assert (startOfDay (fixed tz) c = c) as Hc by apply fixed_turn_is_midnight.
  assert (c ≤ t ∧ t ≤ e) as [Hct Hte].
  { pose proof (getHours_range (fixed tz) (cb_time b)).
    pose proof (getMinutes_range (fixed tz) (cb_time b)).
    assert (c ≤ t ∧ t < c + msPerDay) as [Hlo Hhi].
    { unfold t. rewrite fixed_setHours, Hc. unfold msPerHour, msPerMinute, msPerDay. lia. }
    split; [assumption|].
    assert (dayIndex (fixed tz) c ≤ dayIndex (fixed tz) (cb_endDate b)) as Hdays.
    { rewrite <- Hc in Hle. now apply startOfDay_le_endOfDay in Hle. }
    assert (c = dayIndex (fixed tz) c * msPerDay - tz) as Hc'
      by (rewrite <- Hc at 1; apply fixed_startOfDay).
    assert (e = dayIndex (fixed tz) (cb_endDate b) * msPerDay - tz + (msPerDay - 1)) as He
      by apply fixed_endOfDay.
    unfold msPerDay in *. lia. }
  pose proof (isoDate_mono c t Hct). pose proof (isoDate_mono t e Hte).
  split.
  - intros (_ & _ & [?|?]); lia.
  - intros ?. repeat split; auto.
Qed.

Lemma X9_created_record_listed_until_series_end_witness :
  ∃ d,
    (mentions (_id d)
       (body (getRemindersByDate true (createReminder (fixed 0) emptyDb 1 twoDays).1 1
                (Iso 1)).2) ↔
     isoDate (startDate (doc d)) ≤ 1 ≤ isoDate (endOfDay (fixed 0) (cb_endDate twoDays))).
Proof.
  eexists.
  apply (X9_created_record_listed_until_series_end true 0 emptyDb 1 twoDays).
  vm_compute. left.
Defined.

(** ** updateReminder *)

Lemma overwrite_idem {A} (new old : option A) :
  overwrite new (overwrite new old) = overwrite new old.
Proof. now destruct new. Qed.

Lemma default_idem {A} (new : option A) (old : A) :
  default (default old new) new = default old new.
Proof. now destruct new. Qed.

Lemma applyUpdate_idem u r : applyUpdate u (applyUpdate u r) = applyUpdate u r.
Proof.
  unfold applyUpdate. cbn. f_equal; auto using overwrite_idem, default_idem.
Qed.

(** X10: [updateReminder] on a reminder of the user answers 200 with the
    updated document, which is the one stored: every field that the body
    gives has the value of the body, and every field that it leaves out
    keeps its value; the update cannot change the owner, the taken flag,
    the daily statuses, the medicine or the deletion mark, and sending the
    same update again changes nothing more. *)
Theorem X10_updateReminder_frame_and_idempotence
  (db : Db) (uid id : ObjectId) (u : UpdateBody) (r : Reminder) :
  Reminder_findOne id uid (reminders db) = Some r →
  let out := updateReminder db uid id u in
  let given {A} (new : option A) (old : A) : A :=
    match new with Some v => v | None => old end in
  let givenText (new old : option string) : option string :=
    match new with Some v => Some v | None => old end in
  ∃ r',
    out = ({| reminders := <[id := r']> (reminders db); users := users db |},
           {| code := 200; body := OneReminder (mkDoc id r') |}) ∧
    title r' = givenText (ub_title u) (title r) ∧
    description r' = givenText (ub_description u) (description r) ∧
    time r' = given (ub_time u) (time r) ∧
    frequency r' = givenText (ub_frequency u) (frequency r) ∧
    startDate r' = given (ub_startDate u) (startDate r) ∧
    endDate r' = given (ub_endDate u) (endDate r) ∧
    dosage r' = givenText (ub_dosage u) (dosage r) ∧
    notes r' = givenText (ub_notes u) (notes r) ∧
    product r' = givenText (ub_product u) (product r) ∧
    notificationPreferences r'
      = givenText (ub_notificationPreferences u) (notificationPreferences r) ∧
    status r' = given (ub_status u) (status r) ∧
    user r' = user r ∧ medicineId r' = medicineId r ∧
    isTaken r' = isTaken r ∧ dailyStatuses r' = dailyStatuses r ∧
    isDeleted r' = false ∧ deletedAt r' = deletedAt r ∧
    updateReminder out.1 uid id u = out.
Proof.
  intros Hfind. cbn zeta. exists (applyUpdate u r).
  assert (updateReminder db uid id u
          = ({| reminders := <[id := applyUpdate u r]> (reminders db); users := users db |},
             {| code := 200; body := OneReminder (mkDoc id (applyUpdate u r)) |})) as E.
  { unfold updateReminder. now rewrite Hfind. }
  rewrite E. apply Reminder_findOne_Some in Hfind as (Hm & Hu & Hd).
  split; [reflexivity|].
  do 11 (split; [unfold applyUpdate, overwrite, default; cbn;
                 repeat match goal with |- context [match ?x with _ => _ end] =>
                   destruct x end; reflexivity|]).
  repeat split; auto.
  cbn [fst]. unfold updateReminder. cbn [reminders users].
  assert (Reminder_findOne id uid (<[id := applyUpdate u r]> (reminders db))
          = Some (applyUpdate u r)) as ->.
  { apply Reminder_findOne_Some. rewrite lookup_insert_eq. auto. }
  cbn. unfold save. cbn. now rewrite applyUpdate_idem, insert_insert_eq.
Qed.

Lemma X10_updateReminder_frame_and_idempotence_witness :
  let u := mkUpdateBody (Some "Pill, with water") None (Some 34200000) None None None None
             None None None (Some "missed") in
  let out := updateReminder sampleDb 1 5 u in
  let given {A} (new : option A) (old : A) : A :=
    match new with Some v => v | None => old end in
  let givenText (new old : option string) : option string :=
    match new with Some v => Some v | None => old end in
  ∃ r',
    out = ({| reminders := <[5%positive := r']> (reminders sampleDb);
              users := users sampleDb |},
           {| code := 200; body := OneReminder (mkDoc 5 r') |}) ∧
    title r' = givenText (ub_title u) (title sampleReminder) ∧
    description r' = givenText (ub_description u) (description sampleReminder) ∧
    time r' = given (ub_time u) (time sampleReminder) ∧
    frequency r' = givenText (ub_frequency u) (frequency sampleReminder) ∧
    startDate r' = given (ub_startDate u) (startDate sampleReminder) ∧
    endDate r' = given (ub_endDate u) (endDate sampleReminder) ∧
    dosage r' = givenText (ub_dosage u) (dosage sampleReminder) ∧
    notes r' = givenText (ub_notes u) (notes sampleReminder) ∧
    product r' = givenText (ub_product u) (product sampleReminder) ∧
    notificationPreferences r'
      = givenText (ub_notificationPreferences u) (notificationPreferences sampleReminder) ∧
    status r' = given (ub_status u) (status sampleReminder) ∧
    user r' = user sampleReminder ∧ medicineId r' = medicineId sampleReminder ∧
    isTaken r' = isTaken sampleReminder ∧
    dailyStatuses r' = dailyStatuses sampleReminder ∧
    isDeleted r' = false ∧ deletedAt r' = deletedAt sampleReminder ∧
    updateReminder out.1 1 5 u = out.
Proof.
  apply (X10_updateReminder_frame_and_idempotence sampleDb 1 5 _ sampleReminder).
  vm_compute. reflexivity.
Defined.

(** ** deleteReminder *)

(** X11: after a user deletes a reminder, [getUserReminders] lists, for
    every user, what it listed before except that reminder. *)
Theorem X11_delete_removes_one_from_the_listing
  (db : Db) (uid : ObjectId) (now : Z) (id : ObjectId) (r : Reminder) (v : ObjectId)
  (d : ReminderDoc) :
  Reminder_findOne id uid (reminders db) = Some r →
  let db1 := (deleteReminder db uid now id).1 in
  d ∈ docsOf (body (getUserReminders db1 v).2) ↔
  d ∈ docsOf (body (getUserReminders db v).2) ∧ _id d ≠ id.
Proof.
  intros Hfind. cbn zeta. unfold deleteReminder. rewrite Hfind.
  cbn [fst snd body docsOf getUserReminders reminders].
  rewrite !elem_of_sortByTime, !elem_of_Reminder_find. unfold save. cbn [_id doc].
  destruct (decide (_id d = id)) as [E|Hne].
  - rewrite E, lookup_insert_eq. split; [|tauto].
    intros [[= <-] Hown]. unfold ownedBy in Hown. cbn in Hown.
    now rewrite andb_false_r in Hown.
  - rewrite lookup_insert_ne by congruence. tauto.
Qed.

Lemma X11_delete_removes_one_from_the_listing_witness :
  let db1 := (deleteReminder sampleDb 1 (noonOfDay 1) 5).1 in
  mkDoc 5 sampleReminder ∈ docsOf (body (getUserReminders db1 1).2) ↔
  mkDoc 5 sampleReminder ∈ docsOf (body (getUserReminders sampleDb 1).2) ∧
  _id (mkDoc 5 sampleReminder) ≠ 5%positive.
Proof.
  apply (X11_delete_removes_one_from_the_listing sampleDb 1 (noonOfDay 1) 5 sampleReminder 1).
  vm_compute. reflexivity.
Defined.

(** * Further properties of the alternative resolver *)

Module ResolverMore.
Import Resolver ResolverData ResolverTerms ResolverSamples.

Lemma promiseAll_Returned {A B} (f : A → Outcome B) l ys :
  promiseAll f l = Returned ys ↔ Forall2 (λ x y, f x = Returned y) l ys.
Proof.
  revert ys. induction l as [|x l IH]; intros ys; cbn.
  - split; [intros [= <-]; constructor|intros H; now inversion H].
  - destruct (f x) as [y|] eqn:Hx.
    + destruct (promiseAll f l) as [ys'|] eqn:Hl.
      * split.
        -- intros [= <-]. constructor; [exact Hx|now apply IH].
        -- intros H. inversion H as [|? y' ? ys'' Hy Hys]; subst.
           apply IH in Hys. congruence.
      * split; [discriminate|].
        intros H. inversion H as [|? y' ? ys'' Hy Hys]; subst.
        apply IH in Hys. discriminate.
    + split; [destruct (promiseAll f l); discriminate|].
      intros H. inversion H; subst. congruence.
Qed.

Lemma promiseAll_Thrown {A B} (f : A → Outcome B) l :
  promiseAll f l = Thrown ↔ ∃ x, x ∈ l ∧ f x = Thrown.
Proof.
  induction l as [|x l IH]; cbn.
  - split; [discriminate|]. intros (x & Hx & _). now apply elem_of_nil in Hx.
  - destruct (f x) as [y|] eqn:Hx.
    + destruct (promiseAll f l) as [ys|].
      * split; [discriminate|]. intros (x' & Hin & Hx').
        apply elem_of_cons in Hin as [->|Hin]; [congruence|].
        assert (Thrown (A := list B) = Thrown) as _ by reflexivity.
        enough (Returned ys = Thrown) by discriminate. apply IH. eauto.
      * split; [|reflexivity]. intros _.
        destruct (proj1 IH eq_refl) as (x' & Hin & Hx'). exists x'. split; [now right|exact Hx'].
    + split; [|reflexivity]. intros _. exists x. split; [now left|exact Hx].
Qed.

Lemma withPharmacyInfo_Some c m a :
  withPharmacyInfo c m = Returned (Some a) → alt a = m ∧ stockedAt c a.
Proof.
  unfold withPharmacyInfo, PharmacyMedicine_findOne, populatePharmacy.
  destruct (List.find (inStockListing (_id m)) (pharmacyMedicines c)) as [pm|] eqn:Hpm;
    [|discriminate].
  destruct (List.find _ (pharmacies c)) as [ph|] eqn:Hph; [|discriminate].
  intros [= <-]. cbn. split; [reflexivity|].
  apply find_some in Hpm as [Hpm Hq]. apply find_some in Hph as [Hph Hp].
  unfold inStockListing in Hq.
  rewrite !andb_true_iff, negb_true_iff, !bool_decide_eq_true in Hq.
  rewrite bool_decide_eq_true in Hp.
  destruct Hq as [[[Hid Hav] Hdel] Hst].
  exists pm, ph. cbn. rewrite Hav.
  repeat split; auto; now apply list_elem_of_In.
Qed.

Lemma elem_of_notNull a (ys : list (option Alternative)) : a ∈ notNull ys ↔ Some a ∈ ys.
Proof.
  unfold notNull. rewrite list_elem_of_omap. split.
  - intros (y & Hy & E). cbn in E. now subst.
  - intros H. now exists (Some a).
Qed.

Lemma Forall2_elem_of_r {A B} (P : A → B → Prop) l k y :
  Forall2 P l k → y ∈ k → ∃ x, x ∈ l ∧ P x y.
Proof.
  induction 1 as [|x y' l k Hxy _ IH]; intros Hin.
  - now apply elem_of_nil in Hin.
  - apply elem_of_cons in Hin as [->|Hin].
    + exists x. split; [now left|exact Hxy].
    + destruct (IH Hin) as (x' & ? & ?). exists x'. split; [now right|assumption].
Qed.

(** The alternatives kept from a list of candidates. *)
Lemma kept_alternatives c l ys a :
  promiseAll (withPharmacyInfo c) l = Returned ys →
  a ∈ notNull ys → alt a ∈ l ∧ stockedAt c a.
Proof.
  intros Hall Ha. apply promiseAll_Returned in Hall. apply elem_of_notNull in Ha.
  destruct (Forall2_elem_of_r _ _ _ _ Hall Ha) as (m & Hm & Hw).
  apply withPharmacyInfo_Some in Hw as [<- Hs]. auto.
Qed.

Lemma elem_of_populateAlternatives c medicine m :
  m ∈ populateAlternatives c medicine →
  _id m ∈ alternatives medicine ∧ m ∈ medicines c.
Proof.
  unfold populateAlternatives. rewrite list_elem_of_omap.
  intros (i & Hi & Hf). unfold Medicine_findById in Hf.
  apply find_some in Hf as [Hin Hid]. rewrite bool_decide_eq_true in Hid.
  split; [now rewrite Hid|now apply list_elem_of_In].
Qed.

Lemma elem_of_fallback c medicine a :
  a ∈ findAlternativesByActiveIngredient c medicine →
  alt a ∈ medicines c ∧ sameIngredient medicine (alt a) = true ∧ stockedAt c a.
Proof.
  unfold findAlternativesByActiveIngredient.
  destruct (promiseAll _ _) as [ys|] eqn:Hall; [|intros H; now apply elem_of_nil in H].
  intros Ha. destruct (kept_alternatives c _ ys a Hall Ha) as [Hin Hs].
  apply list_elem_of_In, filter_In in Hin as [Hin Hq].
  split; [now apply list_elem_of_In|auto].
Qed.

(** X12: every alternative that [getMedicineAlternatives] returns is a
    medicine of the catalog with a listing that is available, not deleted
    and in stock at an existing pharmacy, and its [pharmacyInfo] is that of
    this listing; it comes from the curated list of the medicine or shares
    its active ingredient. *)
Theorem X12_returned_alternatives_are_in_stock
  (c : Catalog) (id : ObjectId) (medicine : Medicine) (l : list Alternative)
  (source : string) (a : Alternative) :
  Medicine_findById c id = Some medicine →
  getMedicineAlternatives c id = {| code := 200; body := Alternatives l source |} →
  a ∈ l →
  alt a ∈ medicines c ∧ stockedAt c a ∧
  (_id (alt a) ∈ alternatives medicine ∨
   (_id (alt a) ≠ _id medicine ∧ activeIngredient (alt a) = activeIngredient medicine ∧
    isDeleted (alt a) = false ∧ isAvailable (alt a) = true)).
Proof.
  intros Hfind. unfold getMedicineAlternatives. rewrite Hfind.
  destruct (isDeleted medicine); [discriminate|].
  destruct (curatedAlternatives c medicine) as [cur|] eqn:Hcur; [|discriminate].
  assert (∀ a, a ∈ cur →
            alt a ∈ medicines c ∧ stockedAt c a ∧ _id (alt a) ∈ alternatives medicine) as Hc.
  { intros a' Ha'. unfold curatedAlternatives in Hcur.
    case_bool_decide; [|injection Hcur as <-; now apply elem_of_nil in Ha'].
    destruct (promiseAll _ _) as [ys|] eqn:Hall; [|discriminate].
    injection Hcur as <-.
    destruct (kept_alternatives c _ ys a' Hall Ha') as [Hin Hs].
    apply elem_of_populateAlternatives in Hin as [? ?]. auto. }
  intros [= <- _] Ha.
  case_bool_decide as Hlen.
  - destruct (elem_of_fallback c medicine a Ha) as (Hin & Hq & Hs).
    split; [exact Hin|]. split; [exact Hs|]. right.
    unfold sameIngredient in Hq.
    rewrite !andb_true_iff, !negb_true_iff, bool_decide_eq_false, bool_decide_eq_true in Hq.
    tauto.
  - destruct (Hc a Ha) as (? & ? & ?). auto.
Qed.

Lemma X12_returned_alternatives_are_in_stock_witness :
  alt alt3 ∈ medicines catalog1 ∧ stockedAt catalog1 alt3 ∧
  (_id (alt alt3) ∈ alternatives med1 ∨
   (_id (alt alt3) ≠ _id med1 ∧ activeIngredient (alt alt3) = activeIngredient med1 ∧
    isDeleted (alt alt3) = false ∧ isAvailable (alt alt3) = true)).
Proof.
  apply (X12_returned_alternatives_are_in_stock catalog1 1 med1 [alt3] "predefined" alt3).
  - reflexivity.
  - vm_compute. reflexivity.
  - left.
Defined.

Lemma withPharmacyInfo_Thrown c m : withPharmacyInfo c m = Thrown ↔ danglingListing c m.
Proof.
  unfold withPharmacyInfo, danglingListing.
  destruct (PharmacyMedicine_findOne c (_id m)) as [pm|].
  - destruct (populatePharmacy c pm) eqn:Hp.
    + split; [discriminate|]. intros (pm' & [= <-] & ?). congruence.
    + split; [|reflexivity]. intros _. eauto.
  - split; [discriminate|]. intros (pm' & ? & _). discriminate.
Qed.

Lemma kept_in_order c l ys :
  promiseAll (withPharmacyInfo c) l = Returned ys →
  alt <$> notNull ys = List.filter (hasStock c) l.
Proof.
  intros Hall. apply promiseAll_Returned in Hall.
  induction Hall as [|m y l ys Hm _ IH]; [reflexivity|].
  unfold notNull in *. cbn. unfold hasStock at 1.
  unfold withPharmacyInfo in Hm.
  destruct (PharmacyMedicine_findOne c (_id m)) as [pm|].
  - destruct (populatePharmacy c pm); [|discriminate].
    injection Hm as <-. cbn. now rewrite IH.
  - injection Hm as <-. cbn. exact IH.
Qed.

Lemma curatedAlternatives_Thrown c medicine :
  curatedAlternatives c medicine = Thrown ↔
  ∃ a, a ∈ populateAlternatives c medicine ∧ danglingListing c a.
Proof.
  unfold curatedAlternatives. split.
  - case_bool_decide; [|discriminate].
    destruct (promiseAll _ _) eqn:Hall; [discriminate|]. intros _.
    apply promiseAll_Thrown in Hall as (a & Ha & Ht).
    exists a. split; [exact Ha|now apply withPharmacyInfo_Thrown].
  - intros (a & Ha & Hd).
    assert (0 < length (alternatives medicine))%nat as Hlen.
    { destruct (alternatives medicine) eqn:E; [|cbn; lia].
      unfold populateAlternatives in Ha. rewrite E in Ha. now apply elem_of_nil in Ha. }
    rewrite (bool_decide_eq_true_2 _ Hlen).
    assert (promiseAll (withPharmacyInfo c) (populateAlternatives c medicine) = Thrown) as ->;
      [|reflexivity].
    apply promiseAll_Thrown. exists a. split; [exact Ha|now apply withPharmacyInfo_Thrown].
Qed.

(** X13: [getMedicineAlternatives] answers 404 exactly when the medicine is
    absent or deleted, and 500 exactly when the medicine is there and one
    of its curated alternatives has an accepted listing whose pharmacy does
    not exist; in every other case it answers 200. *)
Theorem X13_alternatives_status_codes (c : Catalog) (id : ObjectId) :
  let resp := getMedicineAlternatives c id in
  (code resp = 404 ↔ ∀ m, Medicine_findById c id = Some m → isDeleted m = true) ∧
  (code resp = 500 ↔
     ∃ m a, Medicine_findById c id = Some m ∧ isDeleted m = false ∧
            a ∈ populateAlternatives c m ∧ danglingListing c a) ∧
  (code resp = 200 ∨ code resp = 404 ∨ code resp = 500).
Proof.
  cbn zeta. unfold getMedicineAlternatives.
  destruct (Medicine_findById c id) as [m|] eqn:Hfind.
  - destruct (isDeleted m) eqn:Hdel; cbn.
    + split; [split; [intros _ m' [= <-]; exact Hdel|reflexivity]|].
      split; [|auto]. split; [discriminate|].
      intros (m' & a & [= <-] & ? & _). congruence.
    + destruct (curatedAlternatives c m) as [cur|] eqn:Hcur; cbn.
      * split; [split; [discriminate|intros H; specialize (H m eq_refl); congruence]|].
        split; [|auto]. split; [discriminate|].
        intros (m' & a & [= <-] & _ & Ha & Hd).
        assert (curatedAlternatives c m = Thrown) as E
          by (apply curatedAlternatives_Thrown; eauto).
        congruence.
      * split; [split; [discriminate|intros H; specialize (H m eq_refl); congruence]|].
        split; [|auto]. split; [intros _|reflexivity].
        apply curatedAlternatives_Thrown in Hcur as (a & Ha & Hd). eauto 6.
  - cbn. split; [split; [intros _ m [=]|reflexivity]|].
    split; [|auto]. split; [discriminate|]. intros (m & a & [=] & _).
Qed.

(** X14: with no curated list, a candidate of the active-ingredient search
    whose accepted listing names a pharmacy that does not exist empties the
    whole answer: the handler answers 200 with no alternatives and source
    ['none'], whatever the other candidates have in stock. *)
Theorem X14_fallback_error_is_swallowed
  (c : Catalog) (id : ObjectId) (medicine m : Medicine) :
  Medicine_findById c id = Some medicine →
  isDeleted medicine = false →
  alternatives medicine = [] →
  m ∈ medicines c →
  sameIngredient medicine m = true →
  danglingListing c m →
  findAlternativesByActiveIngredient c medicine = [] ∧
  getMedicineAlternatives c id = {| code := 200; body := Alternatives [] "none" |}.
Proof.
  intros Hfind Hdel Hnone Hin Hsame Hdang.
  assert (findAlternativesByActiveIngredient c medicine = []) as Hfb.
  { unfold findAlternativesByActiveIngredient.
    assert (promiseAll (withPharmacyInfo c)
              (List.filter (sameIngredient medicine) (medicines c)) = Thrown) as ->;
      [|reflexivity].
    apply promiseAll_Thrown. exists m. split; [|now apply withPharmacyInfo_Thrown].
    apply list_elem_of_In, filter_In. split; [now apply list_elem_of_In|exact Hsame]. }
  split; [exact Hfb|].
  unfold getMedicineAlternatives, curatedAlternatives, sourceTag.
  rewrite Hfind, Hdel, Hnone. cbn. now rewrite Hfb.
Qed.

Lemma X14_fallback_error_is_swallowed_witness :
  findAlternativesByActiveIngredient catalog3 med20 = [] ∧
  getMedicineAlternatives catalog3 20 = {| code := 200; body := Alternatives [] "none" |}.
Proof.
  apply (X14_fallback_error_is_swallowed catalog3 20 med20 med22).
  - reflexivity.
  - reflexivity.
  - reflexivity.
  - vm_compute. right. right. left.
  - reflexivity.
  - exists listing22. split; reflexivity.
Defined.

(** X15: when no curated alternative raises an error and at least one has
    an accepted listing, the answer is exactly the curated alternatives
    that have one, in the order of the curated list, tagged
    ['predefined']; the active-ingredient search plays no part. *)
Theorem X15_curated_results_take_precedence
  (c : Catalog) (id : ObjectId) (medicine a : Medicine) :
  Medicine_findById c id = Some medicine →
  isDeleted medicine = false →
  (∀ m, m ∈ populateAlternatives c medicine → ¬ danglingListing c m) →
  a ∈ populateAlternatives c medicine →
  hasStock c a = true →
  ∃ l,
    getMedicineAlternatives c id = {| code := 200; body := Alternatives l "predefined" |} ∧
    alt <$> l = List.filter (hasStock c) (populateAlternatives c medicine) ∧
    (∀ x, x ∈ l → stockedAt c x).
Proof.
  intros Hfind Hdel Hsafe Ha Hstock.
  assert (0 < length (alternatives medicine))%nat as Hlen.
  { destruct (alternatives medicine) eqn:E; [|cbn; lia].
    unfold populateAlternatives in Ha. rewrite E in Ha. now apply elem_of_nil in Ha. }
  destruct (promiseAll (withPharmacyInfo c) (populateAlternatives c medicine))
    as [ys|] eqn:Hall.
  2:{ apply promiseAll_Thrown in Hall as (m & Hm & Ht).
      apply withPharmacyInfo_Thrown in Ht. now destruct (Hsafe m Hm). }
  pose proof (kept_in_order c _ ys Hall) as Hord.
  exists (notNull ys).
  assert (notNull ys ≠ []) as Hne.
  { intros E. rewrite E in Hord. cbn in Hord.
    assert (a ∈ List.filter (hasStock c) (populateAlternatives c medicine)) as Hin
      by (apply list_elem_of_In, filter_In; split; [now apply list_elem_of_In|exact Hstock]).
    rewrite <- Hord in Hin. now apply elem_of_nil in Hin. }
  split; [|split; [exact Hord|]].
  - unfold getMedicineAlternatives, curatedAlternatives, sourceTag.
    rewrite Hfind, Hdel, (bool_decide_eq_true_2 _ Hlen), Hall.
    destruct (notNull ys) as [|x xs] eqn:E; [congruence|].
    cbn. reflexivity.
  - intros x Hx. now destruct (kept_alternatives c _ ys x Hall Hx).
Qed.

Lemma X15_curated_results_take_precedence_witness :
  ∃ l,
    getMedicineAlternatives catalog4 30
      = {| code := 200; body := Alternatives l "predefined" |} ∧
    alt <$> l = List.filter (hasStock catalog4) (populateAlternatives catalog4 med30) ∧
    (∀ x, x ∈ l → stockedAt catalog4 x).
Proof.
  apply (X15_curated_results_take_precedence catalog4 30 med30 med31).
  - reflexivity.
  - reflexivity.
  - intros m Hm (pm & Hpm & Hph). vm_compute in Hm.
    repeat (apply elem_of_cons in Hm as [->|Hm]);
      [| | |now apply elem_of_nil in Hm]; vm_compute in Hpm; try discriminate Hpm;
      injection Hpm as <-; vm_compute in Hph; discriminate Hph.
  - vm_compute. right. left.
  - reflexivity.
Defined.

(** X16: for a medicine without curated list, when no candidate raises an
    error, the answer is exactly the other medicines that share its active
    ingredient, are available and not deleted, and have an accepted
    listing, in catalog order; the source is ['activeIngredient'] when
    there is one and ['none'] when there is none. *)
Theorem X16_active_ingredient_results
  (c : Catalog) (id : ObjectId) (medicine : Medicine) :
  Medicine_findById c id = Some medicine →
  isDeleted medicine = false →
  alternatives medicine = [] →
  (∀ m, m ∈ medicines c → sameIngredient medicine m = true → ¬ danglingListing c m) →
  ∃ l,
    getMedicineAlternatives c id
      = {| code := 200;
           body := Alternatives l (if bool_decide (l = []) then "none" else "activeIngredient") |} ∧
    alt <$> l
      = List.filter (hasStock c) (List.filter (sameIngredient medicine) (medicines c)) ∧
    (∀ x, x ∈ l →
       stockedAt c x ∧ _id (alt x) ≠ _id medicine ∧
       activeIngredient (alt x) = activeIngredient medicine ∧
       isDeleted (alt x) = false ∧ isAvailable (alt x) = true).
Proof.
  intros Hfind Hdel Hnone Hsafe.
  destruct (promiseAll (withPharmacyInfo c)
              (List.filter (sameIngredient medicine) (medicines c))) as [ys|] eqn:Hall.
  2:{ apply promiseAll_Thrown in Hall as (m & Hm & Ht).
      apply withPharmacyInfo_Thrown in Ht.
      apply list_elem_of_In, filter_In in Hm as [Hm Hq].
      apply list_elem_of_In in Hm. now destruct (Hsafe m Hm Hq). }
  assert (findAlternativesByActiveIngredient c medicine = notNull ys) as Hfb
    by (unfold findAlternativesByActiveIngredient; now rewrite Hall).
  exists (notNull ys). split; [|split].
  - unfold getMedicineAlternatives, curatedAlternatives, sourceTag.
    rewrite Hfind, Hdel, Hnone. cbn. rewrite Hfb.
    destruct (notNull ys); reflexivity.
  - now apply kept_in_order.
  - intros x Hx. rewrite <- Hfb in Hx.
    destruct (elem_of_fallback c medicine x Hx) as (_ & Hq & Hs).
    unfold sameIngredient in Hq.
    rewrite !andb_true_iff, !negb_true_iff, bool_decide_eq_false, bool_decide_eq_true in Hq.
    tauto.
Qed.

Lemma X16_active_ingredient_results_witness :
  ∃ l,
    getMedicineAlternatives catalog1 3
      = {| code := 200;
           body := Alternatives l (if bool_decide (l = []) then "none" else "activeIngredient") |} ∧
    alt <$> l
      = List.filter (hasStock catalog1) (List.filter (sameIngredient med3) (medicines catalog1)) ∧
    (∀ x, x ∈ l →
       stockedAt catalog1 x ∧ _id (alt x) ≠ _id med3 ∧
       activeIngredient (alt x) = activeIngredient med3 ∧
       isDeleted (alt x) = false ∧ isAvailable (alt x) = true).
Proof.
  apply (X16_active_ingredient_results catalog1 3 med3).
  - reflexivity.
  - reflexivity.
  - reflexivity.
  - intros m Hm Hq (pm & Hpm & Hph). vm_compute in Hm.
    repeat (apply elem_of_cons in Hm as [->|Hm]);
      [| | |now apply elem_of_nil in Hm]; vm_compute in Hpm; try discriminate Hpm;
      injection Hpm as <-; vm_compute in Hph; discriminate Hph.
Defined.

End ResolverMore.

(** * Properties of the catalogue page *)

Module BrowseFacts.
Import Resolver Browse BrowseTerms BrowseSamples.

(** A page of a list, for a page number and a page size that are positive. *)
Lemma slice_page {A} (l : list A) (page limit : Z) :
  1 ≤ page → 1 ≤ limit →
  slice l ((page - 1) * limit) (page * limit)
  = take (Z.to_nat limit) (drop (Z.to_nat ((page - 1) * limit)) l).
Proof.
  intros Hp Hl. unfold slice.
  set (len := Z.of_nat (length l)).
  assert (0 ≤ (page - 1) * limit) as Hs by nia.
  assert (page * limit = (page - 1) * limit + limit) as He by lia.
  rewrite !bool_decide_eq_false_2 by lia.
  destruct (decide (len ≤ (page - 1) * limit)) as [Hout|Hin].
  - rewrite !Z.min_r by lia. rewrite Z.sub_diag. cbn.
    rewrite (drop_ge l (Z.to_nat ((page - 1) * limit))) by (unfold len in Hout; lia).
    now rewrite take_nil.
  - rewrite (Z.min_l ((page - 1) * limit)) by lia.
    destruct (decide (page * limit ≤ len)) as [Hfull|Hshort].
    + rewrite Z.min_l by lia. f_equal. lia.
    + rewrite Z.min_r by lia.
      rewrite !take_ge; [reflexivity| |]; rewrite length_drop; unfold len in *; lia.
Qed.

Lemma ceilDiv_bounds (a b : Z) :
  0 < b → (ceilDiv a b - 1) * b < a ≤ ceilDiv a b * b.
Proof.
  intros Hb. unfold ceilDiv.
  pose proof (Z.div_mod (- a) b). pose proof (Z.mod_pos_bound (- a) b). nia.
Qed.

Section Pages.

Variable regexOk : string → bool.
Variable regexMatch : string → string → bool.
Variable st : Store.

(** X17: for a page number and a page size that are positive, the page
    returned by [getMedicines] holds, at each rank below the page size, the
    item of the filtered list at rank [(page - 1) * limit + rank], and
    nothing else; the filtered list does not depend on the page asked for;
    [totalMedicines] is its length and [totalPages] the least number of
    pages that covers it, and the page is empty exactly when the page
    number is beyond [totalPages]. *)
Theorem X17_pages_tile_the_filtered_list (q : Query) (filtered : list Item) (page limit : Z) :
  filteredMedicines regexOk regexMatch st q = Returned filtered →
  1 ≤ page → 1 ≤ limit →
  ∃ items totalPages,
    getMedicines regexOk regexMatch st (turnTo (Some page) (Some limit) q)
      = {| status := 200;
           payload := Listing items page totalPages (Z.of_nat (length filtered)) |} ∧
    (∀ i : nat,
       items !! i = if decide (Z.of_nat i < limit)
                    then filtered !! (Z.to_nat ((page - 1) * limit) + i)%nat
                    else None) ∧
    (totalPages - 1) * limit < Z.of_nat (length filtered) ≤ totalPages * limit ∧
    (items = [] ↔ totalPages < page).
Proof.
  intros Hf Hp Hl.
  assert (filteredMedicines regexOk regexMatch st (turnTo (Some page) (Some limit) q)
          = Returned filtered) as Hf' by exact Hf.
  exists (take (Z.to_nat limit) (drop (Z.to_nat ((page - 1) * limit)) filtered)),
         (ceilDiv (Z.of_nat (length filtered)) limit).
  pose proof (ceilDiv_bounds (Z.of_nat (length filtered)) limit ltac:(lia)) as Hceil.
  split; [|split; [|split; [exact Hceil|]]].
  - unfold getMedicines. rewrite Hf'. cbn [q_page q_limit turnTo orDefault].
    rewrite !bool_decide_eq_false_2 by lia.
    now rewrite slice_page by lia.
  - intros i. case_decide as Hi.
    + rewrite lookup_take_lt by lia. now rewrite lookup_drop.
    + apply lookup_take_ge. lia.
  - set (total := ceilDiv (Z.of_nat (length filtered)) limit) in *.
    assert (0 ≤ (page - 1) * limit) by nia.
    split.
    + intros E. apply (f_equal length) in E. rewrite length_take, length_drop in E.
      cbn in E. assert (Z.of_nat (length filtered) ≤ (page - 1) * limit) by lia. nia.
    + intros Hbeyond.
      rewrite drop_ge; [apply take_nil|]. nia.
Qed.

Lemma elem_of_filterM {A} (f : A → Outcome bool) l ys y :
  filterM f l = Returned ys → (y ∈ ys ↔ y ∈ l ∧ f y = Returned true).
Proof.
  revert ys. induction l as [|x l IH]; intros ys; cbn.
  - intros [= <-]. split; [intros H; now apply elem_of_nil in H|].
    intros [H _]; now apply elem_of_nil in H.
  - destruct (f x) as [[|]|] eqn:Hx; [| |discriminate];
      (destruct (filterM f l) as [ys'|]; [|discriminate]); intros [= <-].
    + rewrite !elem_of_cons, (IH ys' eq_refl). split.
      * intros [->|[? ?]]; auto.
      * intros [[->|?] ?]; auto.
    + rewrite elem_of_cons, (IH ys' eq_refl). split.
      * intros [? ?]; auto.
      * intros [[->|?] ?]; [congruence|auto].
Qed.

Lemma filterM_Thrown {A} (f : A → Outcome bool) l x :
  x ∈ l → f x = Thrown → filterM f l = Thrown.
Proof.
  induction l as [|y l IH]; intros Hin Hx; [now apply elem_of_nil in Hin|].
  cbn. apply elem_of_cons in Hin as [<-|Hin].
  - now rewrite Hx.
  - rewrite (IH Hin Hx). now destruct (f y) as [[|]|].
Qed.

Lemma elem_of_availableMedicines pms items i :
  availableMedicines st pms = Returned items → i ∈ items →
  ∃ pm ph, pm ∈ pms ∧ backedBy st pm ph i.
Proof.
  revert items. induction pms as [|pm pms IH]; intros items; cbn.
  - intros [= <-] H. now apply elem_of_nil in H.
  - destruct (populateMedicine st pm) as [m|] eqn:Hm.
    + destruct (populatePharmacyDoc st pm) as [ph|] eqn:Hph; [|discriminate].
      destruct (availableMedicines st pms) as [rest|]; [|discriminate].
      intros [= <-] Hin. apply elem_of_cons in Hin as [->|Hin].
      * exists pm, ph. split; [now left|]. repeat split; auto.
      * destruct (IH rest eq_refl Hin) as (pm' & ph' & ? & ?).
        exists pm', ph'. split; [now right|assumption].
    + intros Hr Hin. destruct (IH items Hr Hin) as (pm' & ph' & ? & ?).
      exists pm', ph'. split; [now right|assumption].
Qed.

Lemma availableMedicines_Thrown pms pm m :
  pm ∈ pms → populateMedicine st pm = Some m → populatePharmacyDoc st pm = None →
  availableMedicines st pms = Thrown.
Proof.
  induction pms as [|pm' pms IH]; intros Hin Hm Hph; [now apply elem_of_nil in Hin|].
  cbn. apply elem_of_cons in Hin as [<-|Hin].
  - now rewrite Hm, Hph.
  - rewrite (IH Hin Hm Hph).
    destruct (populateMedicine st pm'); [|reflexivity].
    now destruct (populatePharmacyDoc st pm').
Qed.

(** X18: every item that [getMedicines] keeps comes from a listing that is
    available and not deleted (of the requested pharmacy, if one is
    requested), of a medicine that is not deleted, at a pharmacy that
    exists, and passes each filter that the request sets: category, search,
    prescription flag and price bounds. *)
Theorem X18_listed_items_pass_the_filters (q : Query) (filtered : list Item) (i : Item) :
  filteredMedicines regexOk regexMatch st q = Returned filtered →
  i ∈ filtered →
  (∃ pm ph,
     pm ∈ listings st ∧ backedBy st pm ph i ∧
     pm_isAvailable pm = true ∧ pm_isDeleted pm = false ∧
     (∀ p, q_pharmacyId q = Some p → pm_pharmacyId pm = p) ∧
     isDeleted (core (item_medicine i)) = false ∧
     _id (core (item_medicine i)) = pm_medicineId pm) ∧
  (∀ c, q_category q = Some c → ∃ k, item_category i = Some k ∧ cat_id k = c) ∧
  (∀ s, q_search q = Some s →
     (∃ n, med_name (item_medicine i) = Some n ∧ regexMatch s n = true) ∨
     (∃ d, description (item_medicine i) = Some d ∧ regexMatch s d = true)) ∧
  (∀ p, q_prescriptionRequired q = Some p →
     prescriptionRequired (item_medicine i) = Some (bool_decide (p = "true"))) ∧
  (∀ lo, q_minPrice q = Some lo → ∃ n, lo = Num n ∧ n ≤ price (item_pharmacyInfo i)) ∧
  (∀ hi, q_maxPrice q = Some hi → ∃ n, hi = Num n ∧ price (item_pharmacyInfo i) ≤ n).
Proof.
  unfold filteredMedicines.
  destruct (availableMedicines st _) as [l0|] eqn:H0; [|discriminate].
  destruct (match q_category q with Some c => filterM (inCategory c) l0 | None => Returned l0 end)
    as [l1|] eqn:H1; [|discriminate].
  destruct (match q_search q with
            | Some s => if regexOk s then filterM (matchesSearch regexMatch s) l1 else Thrown
            | None => Returned l1 end) as [l2|] eqn:H2; [|discriminate].
  intros [= <-] Hin.
  set (l3 := match q_prescriptionRequired q with
             | Some p => List.filter (needsPrescription p) l2 | None => l2 end) in *.
  assert (i ∈ l3 ∧ (∀ lo, q_minPrice q = Some lo → ∃ n, lo = Num n ∧ n ≤ price (item_pharmacyInfo i))
          ∧ (∀ hi, q_maxPrice q = Some hi → ∃ n, hi = Num n ∧ price (item_pharmacyInfo i) ≤ n))
    as (Hin3 & Hlo & Hhi).
  { destruct (q_minPrice q) as [lo|], (q_maxPrice q) as [hi|].
    4:{ split; [exact Hin|]. split; intros ? [=]. }
    all: apply list_elem_of_In, filter_In in Hin as [Hin Hp];
      apply list_elem_of_In in Hin; split; [exact Hin|]; unfold inPriceRange in Hp.
    - apply andb_true_iff in Hp as [Hge Hle].
      destruct lo as [|n]; [discriminate|]. destruct hi as [|n']; [discriminate|].
      cbn in *. rewrite bool_decide_eq_true in Hge, Hle.
      split; intros ? [= <-]; eauto.
    - destruct lo as [|n]; [discriminate|]. cbn in *. rewrite bool_decide_eq_true in Hp.
      split; [intros ? [= <-]; eauto|intros ? [=]].
    - destruct hi as [|n]; [discriminate|]. cbn in *. rewrite bool_decide_eq_true in Hp.
      split; [intros ? [=]|intros ? [= <-]; eauto]. }
  assert (i ∈ l2 ∧ (∀ p, q_prescriptionRequired q = Some p →
                      prescriptionRequired (item_medicine i) = Some (bool_decide (p = "true"))))
    as (Hin2 & Hpr).
  { unfold l3 in Hin3. destruct (q_prescriptionRequired q) as [p|].
    - apply list_elem_of_In, filter_In in Hin3 as [Hin3 Hp]. apply list_elem_of_In in Hin3.
      split; [exact Hin3|]. intros ? [= <-]. unfold needsPrescription in Hp.
      destruct (prescriptionRequired (item_medicine i)) as [b|]; [|discriminate].
      rewrite bool_decide_eq_true in Hp. now subst.
    - split; [exact Hin3|intros ? [=]]. }
  assert (i ∈ l1 ∧ (∀ s, q_search q = Some s →
     (∃ n, med_name (item_medicine i) = Some n ∧ regexMatch s n = true) ∨
     (∃ d, description (item_medicine i) = Some d ∧ regexMatch s d = true)))
    as (Hin1 & Hse).
  { destruct (q_search q) as [s|].
    - destruct (regexOk s); [|discriminate].
      apply (elem_of_filterM _ _ _ i) in H2. apply H2 in Hin2 as [Hin1 Hm].
      split; [exact Hin1|]. intros ? [= <-]. unfold matchesSearch in Hm.
      destruct (med_name (item_medicine i)) as [n|]; [|discriminate].
      destruct (regexMatch s n) eqn:En; [left; eauto|].
      destruct (description (item_medicine i)) as [d|]; [|discriminate].
      injection Hm as Hm. right. eauto.
    - injection H2 as <-. split; [exact Hin2|intros ? [=]]. }
  assert (i ∈ l0 ∧ (∀ c, q_category q = Some c → ∃ k, item_category i = Some k ∧ cat_id k = c))
    as (Hin0 & Hca).
  { destruct (q_category q) as [c|].
    - apply (elem_of_filterM _ _ _ i) in H1. apply H1 in Hin1 as [Hin0 Hm].
      split; [exact Hin0|]. intros ? [= <-]. unfold inCategory in Hm.
      destruct (item_category i) as [k|]; [|discriminate].
      injection Hm as Hm. rewrite bool_decide_eq_true in Hm. eauto.
    - injection H1 as <-. split; [exact Hin1|intros ? [=]]. }
  split; [|auto].
  destruct (elem_of_availableMedicines _ _ i H0 Hin0) as (pm & ph & Hpm & Hb).
  apply list_elem_of_In, filter_In in Hpm as [Hpm Hq].
  exists pm, ph. split; [now apply list_elem_of_In|]. split; [exact Hb|].
  unfold listed in Hq. rewrite !andb_true_iff, negb_true_iff in Hq.
  destruct Hq as [[Hav Hdel] Hph].
  destruct Hb as (Hm & _). unfold populateMedicine in Hm.
  apply find_some in Hm as [_ Hm].
  rewrite andb_true_iff, negb_true_iff, bool_decide_eq_true in Hm.
  repeat split; try tauto.
  intros p Hp. rewrite Hp in Hph. now rewrite bool_decide_eq_true in Hph.
Qed.

(** X19: a listing that is available and not deleted, of a medicine that
    is not deleted, at a pharmacy that does not exist makes the handler
    answer 500 for every request that does not leave the listing out by its
    [pharmacyId] filter (no such filter, or the pharmacy of the listing),
    whatever the page and the other filters. *)
Theorem X19_missing_pharmacy_fails_the_page (q : Query) (pm : PharmacyMedicine) (m : MedicineDoc) :
  pm ∈ listings st →
  pm_isAvailable pm = true →
  pm_isDeleted pm = false →
  (∀ p, q_pharmacyId q = Some p → pm_pharmacyId pm = p) →
  populateMedicine st pm = Some m →
  populatePharmacyDoc st pm = None →
  status (getMedicines regexOk regexMatch st q) = 500.
Proof.
  intros Hin Hav Hdel Hsame Hm Hph. unfold getMedicines, filteredMedicines.
  rewrite (availableMedicines_Thrown (List.filter (listed q) (listings st)) pm m);
    [reflexivity| |exact Hm|exact Hph].
  apply list_elem_of_In, filter_In. split; [now apply list_elem_of_In|].
  unfold listed. rewrite Hav, Hdel. cbn.
  destruct (q_pharmacyId q) as [p|]; [|reflexivity].
  apply bool_decide_eq_true. now apply Hsame.
Qed.

End Pages.

Lemma X17_pages_tile_the_filtered_list_witness :
  ∃ items totalPages,
    getMedicines anyPattern prefixMatch shop (turnTo (Some 2) (Some 1) cheapPainkillers)
      = {| status := 200;
           payload := Listing items 2 totalPages (Z.of_nat (length [item1; item3])) |} ∧
    (∀ i : nat,
       items !! i = if decide (Z.of_nat i < 1)
                    then [item1; item3] !! (Z.to_nat ((2 - 1) * 1) + i)%nat
                    else None) ∧
    (totalPages - 1) * 1 < Z.of_nat (length [item1; item3]) ≤ totalPages * 1 ∧
    (items = [] ↔ totalPages < 2).
Proof.
  apply (X17_pages_tile_the_filtered_list anyPattern prefixMatch shop cheapPainkillers
           [item1; item3] 2 1).
  - vm_compute. reflexivity.
  - lia.
  - lia.
Defined.

Lemma X18_listed_items_pass_the_filters_witness :
  (∃ pm ph,
     pm ∈ listings shop ∧ backedBy shop pm ph item3 ∧
     pm_isAvailable pm = true ∧ pm_isDeleted pm = false ∧
     (∀ p, q_pharmacyId cheapPainkillers = Some p → pm_pharmacyId pm = p) ∧
     isDeleted (core (item_medicine item3)) = false ∧
     _id (core (item_medicine item3)) = pm_medicineId pm) ∧
  (∀ c, q_category cheapPainkillers = Some c →
     ∃ k, item_category item3 = Some k ∧ cat_id k = c) ∧
  (∀ s, q_search cheapPainkillers = Some s →
     (∃ n, med_name (item_medicine item3) = Some n ∧ prefixMatch s n = true) ∨
     (∃ d, description (item_medicine item3) = Some d ∧ prefixMatch s d = true)) ∧
  (∀ p, q_prescriptionRequired cheapPainkillers = Some p →
     prescriptionRequired (item_medicine item3) = Some (bool_decide (p = "true"))) ∧
  (∀ lo, q_minPrice cheapPainkillers = Some lo →
     ∃ n, lo = Num n ∧ n ≤ price (item_pharmacyInfo item3)) ∧
  (∀ hi, q_maxPrice cheapPainkillers = Some hi →
     ∃ n, hi = Num n ∧ price (item_pharmacyInfo item3) ≤ n).
Proof.
  apply (X18_listed_items_pass_the_filters anyPattern prefixMatch shop cheapPainkillers
           [item1; item3] item3).
  - vm_compute. reflexivity.
  - right. left.
Defined.

Lemma X19_missing_pharmacy_fails_the_page_witness :
  status (getMedicines anyPattern prefixMatch brokenShop cheapPainkillers) = 500.
Proof.
  apply (X19_missing_pharmacy_fails_the_page anyPattern prefixMatch brokenShop cheapPainkillers
           (plainListing 3 7 2100) (plainMedicine 3 "Panadol" false)).
  - vm_compute. right. right. right. left.
  - reflexivity.
  - reflexivity.
  - intros p Hp. discriminate Hp.
  - reflexivity.
  - reflexivity.
Defined.

End BrowseFacts.

(** * Properties of the medicine administration *)

Module AdminFacts.
Import Admin AdminSamples.

Lemma elem_of_keys (o : Object) k : k ∈ keys o ↔ is_Some (o !! k).
Proof.
  unfold keys. rewrite list_elem_of_fmap. split.
  - intros ([k' v] & -> & Hin). apply elem_of_map_to_list in Hin. eauto.
  - intros [v Hv]. exists (k, v). split; [reflexivity|now apply elem_of_map_to_list].
Qed.

Lemma allowed_body (body : Object) :
  forallb (λ update, bool_decide (update ∈ allowedUpdates)) (keys body) = true ↔
  ∀ k, is_Some (body !! k) → k ∈ allowedUpdates.
Proof.
  rewrite forallb_forall. split.
  - intros H k Hk. apply elem_of_keys, list_elem_of_In, H in Hk.
    now rewrite bool_decide_eq_true in Hk.
  - intros H k Hk. apply list_elem_of_In, elem_of_keys, H in Hk.
    now rewrite bool_decide_eq_true.
Qed.

Lemma forallb_refuted {A} (p : A → bool) l :
  forallb p l = false → ∃ x, x ∈ l ∧ p x = false.
Proof.
  induction l as [|x l IH]; cbn; [discriminate|].
  destruct (p x) eqn:Hx; cbn.
  - intros H. destruct (IH H) as (y & ? & ?). exists y. split; [now right|assumption].
  - intros _. exists x. split; [now left|exact Hx].
Qed.

(** The assignments of [updates.forEach]: once a value is refused the
    document is lost; otherwise each field of the body holds what the
    schema stores for it. *)
Lemma foldl_assign_None (schema : Schema) (body : Object) (l : list string) :
  foldl (assign schema body) None l = None.
Proof. induction l as [|x l IH]; [reflexivity|exact IH]. Qed.

Lemma foldl_assign_refused (schema : Schema) (body : Object) (l : list string) : ∀ (d : Object),
  (∃ k v, k ∈ l ∧ body !! k = Some v ∧ schema k v = None) →
  foldl (assign schema body) (Some d) l = None.
Proof.
  induction l as [|x l IH]; intros d (k & v & Hin & Hb & Hs).
  - now apply elem_of_nil in Hin.
  - cbn. destruct (body !! x) as [w|] eqn:Hx.
    + destruct (schema x w) as [stored|] eqn:Hw; [|apply foldl_assign_None].
      apply IH. exists k, v. split; [|auto].
      apply elem_of_cons in Hin as [->|Hin]; [congruence|exact Hin].
    + apply IH. exists k, v. split; [|auto].
      apply elem_of_cons in Hin as [->|Hin]; [congruence|exact Hin].
Qed.

Lemma foldl_assign_lookup (schema : Schema) (body : Object) (l : list string) :
  ∀ (d : Object),
  (∀ k v, k ∈ l → body !! k = Some v → is_Some (schema k v)) →
  ∃ d', foldl (assign schema body) (Some d) l = Some d' ∧
        ∀ k, d' !! k
             = if decide (k ∈ l)
               then (match body !! k with Some v => schema k v | None => d !! k end)
               else d !! k.
Proof.
  induction l as [|x l IH]; intros d Hok; cbn.
  - exists d. split; [reflexivity|]. intros k.
    rewrite decide_False; [reflexivity|apply not_elem_of_nil].
  - assert (∀ k v, k ∈ l → body !! k = Some v → is_Some (schema k v)) as Hok'
      by (intros k v Hk; apply Hok; now right).
    destruct (body !! x) as [w|] eqn:Hx.
    + destruct (Hok x w) as [stored Hw]; [now left|exact Hx|]. rewrite Hw.
      destruct (IH (<[x := stored]> d) Hok') as (d' & -> & Hd').
      exists d'. split; [reflexivity|]. intros k. rewrite Hd'.
      destruct (decide (k = x)) as [->|Hne].
      * rewrite (decide_True (P := x ∈ x :: l)) by now left.
        rewrite Hx, lookup_insert_eq. now case_decide.
      * rewrite lookup_insert_ne by congruence.
        destruct (decide (k ∈ l)) as [Hin|Hnin].
        -- now rewrite (decide_True (P := k ∈ x :: l)) by now right.
        -- rewrite (decide_False (P := k ∈ x :: l)); [reflexivity|].
           intros H. apply elem_of_cons in H as [?|?]; contradiction.
    + destruct (IH d Hok') as (d' & -> & Hd').
      exists d'. split; [reflexivity|]. intros k. rewrite Hd'.
      destruct (decide (k = x)) as [->|Hne].
      * rewrite (decide_True (P := x ∈ x :: l)) by now left.
        rewrite Hx. now case_decide.
      * destruct (decide (k ∈ l)) as [Hin|Hnin].
        -- now rewrite (decide_True (P := k ∈ x :: l)) by now right.
        -- rewrite (decide_False (P := k ∈ x :: l)); [reflexivity|].
           intros H. apply elem_of_cons in H as [?|?]; contradiction.
Qed.

Lemma updated_lookup (schema : Schema) (body d : Object) :
  (∀ k v, body !! k = Some v → is_Some (schema k v)) →
  ∃ d', foldl (assign schema body) (Some d) (keys body) = Some d' ∧
        ∀ k, d' !! k = match body !! k with Some v => schema k v | None => d !! k end.
Proof.
  intros Hok.
  destruct (foldl_assign_lookup schema body (keys body) d) as (d' & E & Hd').
  { intros k v _. apply Hok. }
  exists d'. split; [exact E|]. intros k. rewrite Hd'.
  case_decide as Hk; [reflexivity|].
  destruct (body !! k) eqn:Hb; [|reflexivity].
  exfalso. apply Hk, elem_of_keys. eauto.
Qed.

(** X20: [updateMedicine] answers 400 exactly when the body names a field
    outside the list of allowed updates, before it looks the medicine up;
    with an allowed body it answers 404 exactly when the medicine is absent
    or deleted; both answers leave the collection as it was. *)
Theorem X20_updateMedicine_rejections
  (schema : Schema) (db : gmap ObjectId Object) (id : ObjectId) (body : Object) :
  let out := updateMedicine schema db id body in
  (status out.2 = 400 ↔ ∃ k, is_Some (body !! k) ∧ k ∉ allowedUpdates) ∧
  (status out.2 = 404 ↔
     (∀ k, is_Some (body !! k) → k ∈ allowedUpdates) ∧
     ∀ d, db !! id = Some d → truthy (d !! "isDeleted") = true) ∧
  (status out.2 = 400 ∨ status out.2 = 404 → out.1 = db).
Proof.
  cbn zeta. unfold updateMedicine.
  destruct (forallb _ (keys body)) eqn:Hvalid; cbn [negb].
  - pose proof (proj1 (allowed_body body) Hvalid) as Hall. clear Hvalid. rename Hall into Hvalid.
    assert (¬ ∃ k, is_Some (body !! k) ∧ k ∉ allowedUpdates) as Hno
      by (intros (k & Hk & Hn); auto).
    destruct (db !! id) as [d|] eqn:Hd.
    + destruct (truthy (d !! "isDeleted")) eqn:Hdel; cbn.
      * split; [split; [discriminate|tauto]|]. split; [|auto].
        split; [|reflexivity]. intros _. split; [exact Hvalid|]. now intros ? [= <-].
      * assert (∀ o : gmap ObjectId Object * Reply,
                  status o.2 = 200 ∨ status o.2 = 500 →
                  (status o.2 = 400 ↔ ∃ k, is_Some (body !! k) ∧ k ∉ allowedUpdates) ∧
                  (status o.2 = 404 ↔
                     (∀ k, is_Some (body !! k) → k ∈ allowedUpdates) ∧
                     ∀ d0, Some d = Some d0 → truthy (d0 !! "isDeleted") = true) ∧
                  (status o.2 = 400 ∨ status o.2 = 404 → o.1 = db)) as Hother.
        { intros o Ho.
          split; [split; [intros E; destruct Ho; congruence|tauto]|].
          split; [|intros [E|E]; destruct Ho; congruence].
          split; [intros E; destruct Ho; congruence|].
          intros [_ H]. specialize (H d eq_refl). congruence. }
        destruct (foldl _ _ _); apply Hother; cbn; auto.
    + cbn. split; [split; [discriminate|tauto]|]. split; [|auto].
      split; [|reflexivity]. intros _. split; [exact Hvalid|]. intros ? [=].
  - cbn. split; [|split; [|auto]].
    + split; [intros _|reflexivity].
      apply forallb_refuted in Hvalid as (k & Hk & Hn).
      exists k. split; [now apply elem_of_keys|].
      now rewrite bool_decide_eq_false in Hn.
    + split; [discriminate|]. intros [Hall _].
      pose proof (proj2 (allowed_body body) Hall). congruence.
Qed.

(** X21: an update with an allowed body of a medicine that is there and
    not deleted goes through the schema.  When the schema takes every value
    of the body, the answer is 200 with the saved document, in which each
    field of the body holds what the schema stores for it and every other
    field its old value; no field outside the list of allowed updates
    changes, so the medicine is still not deleted.  When the schema refuses
    one value of the body, the answer is 500 and nothing is stored. *)
Theorem X21_updateMedicine_overwrites_body_fields_only
  (schema : Schema) (db : gmap ObjectId Object) (id : ObjectId) (body d : Object) :
  db !! id = Some d →
  truthy (d !! "isDeleted") = false →
  (∀ k, is_Some (body !! k) → k ∈ allowedUpdates) →
  ((∀ k v, body !! k = Some v → is_Some (schema k v)) →
   ∃ d',
     updateMedicine schema db id body
       = (<[id := d']> db, {| status := 200; payload := Document d' |}) ∧
     (∀ k, d' !! k = match body !! k with Some v => schema k v | None => d !! k end) ∧
     (∀ k, k ∉ allowedUpdates → d' !! k = d !! k) ∧
     truthy (d' !! "isDeleted") = false) ∧
  ((∃ k v, body !! k = Some v ∧ schema k v = None) →
   updateMedicine schema db id body = (db, {| status := 500; payload := Failure |})).
Proof.
  intros Hd Hlive Hall.
  assert (updateMedicine schema db id body
          = match foldl (assign schema body) (Some d) (keys body) with
            | Some medicine =>
                (<[id := medicine]> db, {| status := 200; payload := Document medicine |})
            | None => (db, {| status := 500; payload := Failure |})
            end) as E.
  { unfold updateMedicine.
    rewrite (proj2 (allowed_body body) Hall). cbn [negb]. now rewrite Hd, Hlive. }
  split.
  - intros Hok. destruct (updated_lookup schema body d Hok) as (d' & Hfold & Hd').
    exists d'. rewrite E, Hfold.
    assert (∀ k, k ∉ allowedUpdates → d' !! k = d !! k) as Hframe.
    { intros k Hk. rewrite Hd'.
      destruct (body !! k) eqn:Hb; [|reflexivity].
      exfalso. apply Hk, Hall. eauto. }
    split; [reflexivity|]. split; [exact Hd'|]. split; [exact Hframe|].
    rewrite Hframe; [exact Hlive|]. vm_compute. intros H.
    repeat (apply elem_of_cons in H as [H|H]; [discriminate H|]).
    now apply elem_of_nil in H.
  - intros (k & v & Hb & Hs). rewrite E.
    rewrite foldl_assign_refused; [reflexivity|].
    exists k, v. split; [apply elem_of_keys; eauto|auto].
Qed.

Lemma newPrice_allowed : ∀ k, is_Some (newPrice !! k) → k ∈ allowedUpdates.
Proof. apply allowed_body. vm_compute. reflexivity. Qed.

Lemma badPrice_allowed : ∀ k, is_Some (badPrice !! k) → k ∈ allowedUpdates.
Proof. apply allowed_body. vm_compute. reflexivity. Qed.

Lemma X21_updateMedicine_overwrites_body_fields_only_witness :
  (∃ d',
     updateMedicine numericPaths pharmacyShelf 1 newPrice
       = (<[1%positive := d']> pharmacyShelf, {| status := 200; payload := Document d' |}) ∧
     (∀ k, d' !! k = match newPrice !! k with
                     | Some v => numericPaths k v
                     | None => aspirin !! k
                     end) ∧
     (∀ k, k ∉ allowedUpdates → d' !! k = aspirin !! k) ∧
     truthy (d' !! "isDeleted") = false) ∧
  updateMedicine numericPaths pharmacyShelf 1 badPrice
    = (pharmacyShelf, {| status := 500; payload := Failure |}).
Proof.
  split.
  - apply (X21_updateMedicine_overwrites_body_fields_only numericPaths pharmacyShelf 1
             newPrice aspirin).
    + vm_compute. reflexivity.
    + vm_compute. reflexivity.
    + exact newPrice_allowed.
    + intros k v Hk. unfold newPrice in Hk.
      apply lookup_insert_Some in Hk as [[<- <-]|[_ Hk]]; [vm_compute; eauto|].
      apply lookup_singleton_Some in Hk as [<- <-]. vm_compute. eauto.
  - apply (X21_updateMedicine_overwrites_body_fields_only numericPaths pharmacyShelf 1
             badPrice aspirin).
    + vm_compute. reflexivity.
    + vm_compute. reflexivity.
    + exact badPrice_allowed.
    + exists "price", (JStr "abc"). split; vm_compute; reflexivity.
Defined.

Lemma serve_keeps_deleted (schema : Schema) (db : gmap ObjectId Object) (id : ObjectId)
  (d : Object) r :
  db !! id = Some d → truthy (d !! "isDeleted") = true →
  (serve schema db r).1 !! id = Some d.
Proof.
  intros Hd Hdel. destruct r as [id' body|now id']; cbn.
  - unfold updateMedicine. destruct (negb _); [exact Hd|].
    destruct (db !! id') as [d'|] eqn:Hd'; [|exact Hd].
    destruct (truthy (d' !! "isDeleted")) eqn:Hdel'; [exact Hd|].
    destruct (foldl _ _ _); [|exact Hd]. cbn.
    rewrite lookup_insert_ne; [exact Hd|]. intros ->. congruence.
  - unfold deleteMedicine.
    destruct (db !! id') as [d'|] eqn:Hd'; [|exact Hd].
    destruct (truthy (d' !! "isDeleted")) eqn:Hdel'; [exact Hd|]. cbn.
    rewrite lookup_insert_ne; [exact Hd|]. intros ->. congruence.
Qed.

Lemma serveAll_keeps_deleted (schema : Schema) rs : ∀ (db : gmap ObjectId Object) id d,
  db !! id = Some d → truthy (d !! "isDeleted") = true →
  serveAll schema db rs !! id = Some d.
Proof.
  induction rs as [|r rs IH]; intros db id d Hd Hdel; [exact Hd|].
  cbn. apply IH; [|exact Hdel]. now apply serve_keeps_deleted.
Qed.

(** X22: [deleteMedicine] on a medicine that is there and not deleted sets
    [isDeleted] and [deletedAt] and nothing else; after that, whatever
    updates and deletions are requested, the document stays as it is, and
    an update or a deletion of it is refused (400 for a body that is not
    allowed, 404 otherwise). *)
Theorem X22_deleted_medicine_is_final
  (schema : Schema) (db : gmap ObjectId Object) (now : Z) (id : ObjectId) (d : Object) :
  db !! id = Some d →
  truthy (d !! "isDeleted") = false →
  let gone := <["deletedAt" := JDate now]> (<["isDeleted" := JBool true]> d) in
  deleteMedicine db now id
    = (<[id := gone]> db,
       {| status := 200; payload := Note "Medicine deleted successfully" |}) ∧
  (∀ k, k ≠ "isDeleted" → k ≠ "deletedAt" → gone !! k = d !! k) ∧
  ∀ rs,
    let db' := serveAll schema (<[id := gone]> db) rs in
    db' !! id = Some gone ∧
    (∀ t, deleteMedicine db' t id = (db', notFound)) ∧
    (∀ body, (updateMedicine schema db' id body).1 = db' ∧
             (status (updateMedicine schema db' id body).2 = 400 ∨
              status (updateMedicine schema db' id body).2 = 404)).
Proof.
  intros Hd Hlive gone.
  assert (truthy (gone !! "isDeleted") = true) as Hgone.
  { unfold gone. rewrite lookup_insert_ne by discriminate. now rewrite lookup_insert_eq. }
  split; [unfold deleteMedicine; now rewrite Hd, Hlive|].
  split.
  { intros k H1 H2. unfold gone. now rewrite !lookup_insert_ne by congruence. }
  intros rs db'.
  assert (db' !! id = Some gone) as Hn.
  { apply serveAll_keeps_deleted; [apply lookup_insert_eq|exact Hgone]. }
  split; [exact Hn|]. split.
  - intros t. unfold deleteMedicine. now rewrite Hn, Hgone.
  - intros body. unfold updateMedicine.
    destruct (negb _); [cbn; auto|]. rewrite Hn, Hgone. cbn. auto.
Qed.

Lemma X22_deleted_medicine_is_final_witness :
  let gone := <["deletedAt" := JDate 86400000]> (<["isDeleted" := JBool true]> aspirin) in
  deleteMedicine pharmacyShelf 86400000 1
    = (<[1%positive := gone]> pharmacyShelf,
       {| status := 200; payload := Note "Medicine deleted successfully" |}) ∧
  (∀ k, k ≠ "isDeleted" → k ≠ "deletedAt" → gone !! k = aspirin !! k) ∧
  ∀ rs,
    let db' := serveAll numericPaths (<[1%positive := gone]> pharmacyShelf) rs in
    db' !! 1%positive = Some gone ∧
    (∀ t, deleteMedicine db' t 1 = (db', notFound)) ∧
    (∀ body, (updateMedicine numericPaths db' 1 body).1 = db' ∧
             (status (updateMedicine numericPaths db' 1 body).2 = 400 ∨
              status (updateMedicine numericPaths db' 1 body).2 = 404)).
Proof.
  apply (X22_deleted_medicine_is_final numericPaths pharmacyShelf 86400000 1 aspirin).
  - vm_compute. reflexivity.
  - vm_compute. reflexivity.
Defined.

End AdminFacts.

(** * Properties of the prescription handlers *)

Module PrescriptionFacts.
Import Prescriptions PrescriptionSamples.

(** X23: who may do what with a prescription that exists.  The patient and
    an admin may read it (when the patient's account exists) and delete it,
    anybody else gets 403; only an admin or a pharmacy owner may set its
    status, the patient gets 403 too.  A refusal changes nothing. *)
Theorem X23_prescription_access_rules
  (db : Db) (u : User) (id : ObjectId) (p : Prescription)
  (now later : Z) (s : string) (reason : option string) :
  prescriptions db !! id = Some p →
  let mine := patientId p = user_id u ∨ role u = "admin" in
  let staff := role u = "admin" ∨ role u = "pharmacy_owner" in
  (getPrescriptionById db u id).1 = db ∧
  (patientId p ∈ patients db →
     (mine → code (getPrescriptionById db u id).2 = 200) ∧
     (¬ mine → code (getPrescriptionById db u id).2 = 403)) ∧
  (mine → code (deletePrescription db u now later id).2 = 200) ∧
  (¬ mine → code (deletePrescription db u now later id).2 = 403 ∧
            (deletePrescription db u now later id).1 = db) ∧
  (staff → code (updatePrescriptionStatus db u id s reason).2 = 200) ∧
  (¬ staff → code (updatePrescriptionStatus db u id s reason).2 = 403 ∧
             (updatePrescriptionStatus db u id s reason).1 = db).
Proof.
  intros Hp mine staff.
  unfold getPrescriptionById, deletePrescription, updatePrescriptionStatus. rewrite Hp.
  unfold mine, staff.
  destruct (bool_decide_reflect (patientId p = user_id u)) as [Hpat|Hpat];
    destruct (bool_decide_reflect (role u = "admin")) as [Hadm|Hadm];
    destruct (bool_decide_reflect (role u = "pharmacy_owner")) as [Hown|Hown];
    destruct (bool_decide_reflect (patientId p ∈ patients db)) as [Hex|Hex];
    cbn; repeat split; try tauto; intros; try tauto; try reflexivity.
Qed.

Lemma X23_prescription_access_rules_witness :
  let db := {| prescriptions :=
                 {[ 1%positive := mkPrescription 7 (Some "Flu") None "pending" None false None ]};
               reminders := ∅; patients := {[ 7%positive ]} |} in
  let u := mkUser 8 "customer" in
  let p := mkPrescription 7 (Some "Flu") None "pending" None false None in
  let mine := patientId p = user_id u ∨ role u = "admin" in
  let staff := role u = "admin" ∨ role u = "pharmacy_owner" in
  (getPrescriptionById db u 1).1 = db ∧
  (patientId p ∈ patients db →
     (mine → code (getPrescriptionById db u 1).2 = 200) ∧
     (¬ mine → code (getPrescriptionById db u 1).2 = 403)) ∧
  (mine → code (deletePrescription db u 0 1 1).2 = 200) ∧
  (¬ mine → code (deletePrescription db u 0 1 1).2 = 403 ∧
            (deletePrescription db u 0 1 1).1 = db) ∧
  (staff → code (updatePrescriptionStatus db u 1 "approved" None).2 = 200) ∧
  (¬ staff → code (updatePrescriptionStatus db u 1 "approved" None).2 = 403 ∧
             (updatePrescriptionStatus db u 1 "approved" None).1 = db).
Proof.
  apply (X23_prescription_access_rules _ (mkUser 8 "customer") 1
           (mkPrescription 7 (Some "Flu") None "pending" None false None) 0 1 "approved" None).
  vm_compute. reflexivity.
Defined.

Lemma updateMany_lookup id change (m : gmap ObjectId LinkedReminder) rid :
  updateMany id change m !! rid
  = (λ r, if bool_decide (prescriptionId r = Some id) then change r else r) <$> m !! rid.
Proof. unfold updateMany. apply lookup_fmap. Qed.

Lemma filter_nil_forall {A} (p : A → bool) (l : list A) :
  (∀ x, x ∈ l → p x = false) → List.filter p l = [].
Proof.
  induction l as [|x l IH]; intros H; [reflexivity|].
  cbn. rewrite (H x) by now left. apply IH. intros y Hy. apply H. now right.
Qed.

(** X24: when the patient or an admin deletes a prescription (deleted
    before or not), the prescription is marked deleted at [now], every
    reminder linked to it is marked deleted at [later] and every other
    reminder stays as it was.  Reading the prescription afterwards answers
    200, with the deletion mark and without any reminder, when the account
    of the patient exists, and 500 when it does not. *)
Theorem X24_deleting_a_prescription_deletes_its_reminders
  (db : Db) (u : User) (now later : Z) (id : ObjectId) (p : Prescription) :
  prescriptions db !! id = Some p →
  patientId p = user_id u ∨ role u = "admin" →
  let db' := (deletePrescription db u now later id).1 in
  ∃ p',
    prescriptions db' !! id = Some p' ∧
    isDeleted p' = true ∧ deletedAt p' = Some now ∧
    patientId p' = patientId p ∧ status p' = status p ∧
    (∀ rid r, reminders db !! rid = Some r →
       reminders db' !! rid
       = Some (if bool_decide (prescriptionId r = Some id)
               then setReminderDeleted later r else r)) ∧
    (∀ rid, reminders db !! rid = None → reminders db' !! rid = None) ∧
    (patientId p ∈ patients db →
       getPrescriptionById db' u id
       = (db', {| code := 200; payload := WithReminders id p' [] |})) ∧
    (patientId p ∉ patients db →
       (getPrescriptionById db' u id).1 = db' ∧
       code (getPrescriptionById db' u id).2 = 500).
Proof.
  intros Hp Hmine. cbn zeta.
  assert (negb (bool_decide (patientId p = user_id u)) && negb (bool_decide (role u = "admin"))
          = false) as Hauth.
  { destruct Hmine as [H|H]; rewrite (bool_decide_eq_true_2 _ H); cbn;
      [reflexivity|apply andb_false_r]. }
  unfold deletePrescription. rewrite Hp, Hauth. cbn [fst prescriptions reminders].
  eexists. split; [apply lookup_insert_eq|].
  do 4 (split; [reflexivity|]).
  split; [intros rid r Hr; now rewrite updateMany_lookup, Hr|].
  split; [intros rid Hr; now rewrite updateMany_lookup, Hr|].
  unfold getPrescriptionById. cbn [prescriptions reminders patients patientId].
  rewrite lookup_insert_eq. cbn [patientId].
  split; intros Hex.
  - rewrite (bool_decide_eq_true_2 _ Hex), Hauth. do 3 f_equal.
    unfold liveRemindersOf. apply filter_nil_forall.
    intros [rid r'] Hin. apply elem_of_map_to_list in Hin. cbn.
    rewrite updateMany_lookup in Hin.
    destruct (reminders db !! rid) as [r|]; [|discriminate]. cbn in Hin.
    injection Hin as <-.
    destruct (bool_decide_reflect (prescriptionId r = Some id)) as [Hl|Hl]; cbn.
    + apply andb_false_r.
    + now rewrite (bool_decide_eq_false_2 _ Hl).
  - rewrite (bool_decide_eq_false_2 _ Hex). split; reflexivity.
Qed.

Lemma X24_deleting_a_prescription_deletes_its_reminders_witness :
  let db' := (deletePrescription clinic (mkUser 7 "customer") 100 101 1).1 in
  ∃ p',
    prescriptions db' !! 1%positive = Some p' ∧
    isDeleted p' = true ∧ deletedAt p' = Some 100 ∧
    patientId p' = patientId flu ∧ status p' = status flu ∧
    (∀ rid r, reminders clinic !! rid = Some r →
       reminders db' !! rid
       = Some (if bool_decide (prescriptionId r = Some 1%positive)
               then setReminderDeleted 101 r else r)) ∧
    (∀ rid, reminders clinic !! rid = None → reminders db' !! rid = None) ∧
    (patientId flu ∈ patients clinic →
       getPrescriptionById db' (mkUser 7 "customer") 1
       = (db', {| code := 200; payload := WithReminders 1 p' [] |})) ∧
    (patientId flu ∉ patients clinic →
       (getPrescriptionById db' (mkUser 7 "customer") 1).1 = db' ∧
       code (getPrescriptionById db' (mkUser 7 "customer") 1).2 = 500).
Proof.
  apply (X24_deleting_a_prescription_deletes_its_reminders clinic (mkUser 7 "customer")
           100 101 1 flu).
  - vm_compute. reflexivity.
  - left. reflexivity.
Defined.

(** X25: when an admin or a pharmacy owner sets the status of a
    prescription, the status is stored as given; ['approved'] sets the
    status of every reminder linked to the prescription to ['active'] and
    ['rejected'] sets it to ['missed'] and stores the reason, in both
    cases for deleted reminders as well; any other status touches no
    reminder and keeps the reason.  Reminders of other prescriptions and
    the deletion marks never change. *)
Theorem X25_status_change_reaches_linked_reminders
  (db : Db) (u : User) (id : ObjectId) (p : Prescription) (s : string)
  (reason : option string) :
  prescriptions db !! id = Some p →
  role u = "admin" ∨ role u = "pharmacy_owner" →
  let db' := (updatePrescriptionStatus db u id s reason).1 in
  ∃ p',
    prescriptions db' !! id = Some p' ∧ status p' = s ∧
    isDeleted p' = isDeleted p ∧ patientId p' = patientId p ∧
    rejectionReason p' = (if bool_decide (s = "rejected") then reason else rejectionReason p) ∧
    ∀ rid r, reminders db !! rid = Some r →
      ∃ r', reminders db' !! rid = Some r' ∧
            r_isDeleted r' = r_isDeleted r ∧ r_deletedAt r' = r_deletedAt r ∧
            prescriptionId r' = prescriptionId r ∧
            r_status r'
            = (if bool_decide (prescriptionId r = Some id)
               then (if bool_decide (s = "approved") then "active"
                     else if bool_decide (s = "rejected") then "missed"
                     else r_status r)
               else r_status r).
Proof.
  intros Hp Hstaff. cbn zeta.
  assert (negb (bool_decide (role u = "admin")) && negb (bool_decide (role u = "pharmacy_owner"))
          = false) as Hauth.
  { destruct Hstaff as [H|H]; rewrite (bool_decide_eq_true_2 _ H); cbn;
      [reflexivity|apply andb_false_r]. }
  unfold updatePrescriptionStatus. rewrite Hp, Hauth. cbn [fst prescriptions reminders].
  eexists. split; [apply lookup_insert_eq|].
  do 4 (split; [reflexivity|]).
  intros rid r Hr.
  destruct (bool_decide_reflect (s = "approved")) as [Ha|Ha];
    [|destruct (bool_decide_reflect (s = "rejected")) as [Hj|Hj]].
  - rewrite updateMany_lookup, Hr. cbn. eexists. split; [reflexivity|].
    destruct (bool_decide (prescriptionId r = Some id)); repeat split.
  - rewrite updateMany_lookup, Hr. cbn. eexists. split; [reflexivity|].
    destruct (bool_decide (prescriptionId r = Some id)); repeat split.
  - exists r. split; [exact Hr|].
    destruct (bool_decide (prescriptionId r = Some id)); repeat split.
Qed.

Lemma X25_status_change_reaches_linked_reminders_witness :
  let db' := (updatePrescriptionStatus clinic (mkUser 9 "pharmacy_owner") 1 "rejected"
                (Some "illegible")).1 in
  ∃ p',
    prescriptions db' !! 1%positive = Some p' ∧ status p' = "rejected" ∧
    isDeleted p' = isDeleted flu ∧ patientId p' = patientId flu ∧
    rejectionReason p'
      = (if bool_decide ("rejected" = "rejected") then Some "illegible"
         else rejectionReason flu) ∧
    ∀ rid r, reminders clinic !! rid = Some r →
      ∃ r', reminders db' !! rid = Some r' ∧
            r_isDeleted r' = r_isDeleted r ∧ r_deletedAt r' = r_deletedAt r ∧
            prescriptionId r' = prescriptionId r ∧
            r_status r'
            = (if bool_decide (prescriptionId r = Some 1%positive)
               then (if bool_decide ("rejected" = "approved") then "active"
                     else if bool_decide ("rejected" = "rejected") then "missed"
                     else r_status r)
               else r_status r).
Proof.
  apply (X25_status_change_reaches_linked_reminders clinic (mkUser 9 "pharmacy_owner") 1 flu
           "rejected" (Some "illegible")).
  - vm_compute. reflexivity.
  - right. reflexivity.
Defined.

End PrescriptionFacts.

(** ** The client of the alternatives endpoint *)

Module ClientFacts.

Import Resolver Client.



End ClientFacts.
